(** * wxread: the signed-request engine, its resilience wrappers and the
    read-loop orchestrator, as a shallow embedding of the Python sources

    - [src/core/crypto.py]            : [CryptoUtils]
    - [src/utils/retry.py]            : [retry_with_backoff], [CircuitBreaker]
    - [src/core/request_manager.py]   : [RequestManager]
    - [src/core/bot.py]               : [WxReadBot]
    - [src/notifications/]            : [NotificationManager], the pushers'
                                        constructors, [BasePusher.send]
    - [src/config/]                   : [ConfigValidator], [ConfigManager]
    - [main.py]                       : [main_new_version]

    Python values are modelled as the interpreter has them: a [str] is a
    sequence of Unicode code points, an [int] is unbounded ([Z]), a [dict]
    is a finite map, and a [float] is an IEEE-754 binary64 number. *)

From Stdlib Require Import ZArith List Lia Bool.
From Stdlib Require Import Hexadecimal HexadecimalN.
From Stdlib Require Import Floats.PrimFloat Numbers.Cyclic.Int63.Uint63.
From stdpp Require Import base option list gmap strings sorting.

Local Open Scope Z_scope.
Set Warnings "-register-all".

(** ** Python strings *)

(** A Python [str]: the list of its code points ([ord] of each character). *)
Abbreviation pystr := (list Z).

(** An ASCII literal as a Python string. *)
Definition py (s : string) : pystr :=
  map (fun a => Z.of_N (Ascii.N_of_ascii a)) (String.list_ascii_of_string s).

(** [s[i]]: Python indexing, negative indices counted from the end, [None]
    for [IndexError]. *)
Definition py_index (s : pystr) (i : Z) : option Z :=
  let n := Z.of_nat (length s) in
  if (0 <=? i) && (i <? n) then s !! Z.to_nat i
  else if (- n <=? i) && (i <? 0) then s !! Z.to_nat (n + i)
  else None.

(** [str.lower] on the ASCII range (the only characters [hex] produces). *)
Definition py_lower (s : pystr) : pystr :=
  map (fun c => if (65 <=? c) && (c <=? 90) then c + 32 else c) s.

(** The code points of a hexadecimal numeral, most significant digit first. *)
Fixpoint hex_codes (d : Hexadecimal.uint) : pystr :=
  match d with
  | Hexadecimal.Nil => []
  | Hexadecimal.D0 d => 48 :: hex_codes d
  | Hexadecimal.D1 d => 49 :: hex_codes d
  | Hexadecimal.D2 d => 50 :: hex_codes d
  | Hexadecimal.D3 d => 51 :: hex_codes d
  | Hexadecimal.D4 d => 52 :: hex_codes d
  | Hexadecimal.D5 d => 53 :: hex_codes d
  | Hexadecimal.D6 d => 54 :: hex_codes d
  | Hexadecimal.D7 d => 55 :: hex_codes d
  | Hexadecimal.D8 d => 56 :: hex_codes d
  | Hexadecimal.D9 d => 57 :: hex_codes d
  | Hexadecimal.Da d => 97 :: hex_codes d
  | Hexadecimal.Db d => 98 :: hex_codes d
  | Hexadecimal.Dc d => 99 :: hex_codes d
  | Hexadecimal.Dd d => 100 :: hex_codes d
  | Hexadecimal.De d => 101 :: hex_codes d
  | Hexadecimal.Df d => 102 :: hex_codes d
  end.

(** The value of one lowercase hexadecimal digit character. *)
Definition hex_digit_value (c : Z) : option Z :=
  if (48 <=? c) && (c <=? 57) then Some (c - 48)
  else if (97 <=? c) && (c <=? 102) then Some (c - 87)
  else None.

(** Reading a string of lowercase hexadecimal digits back as a number. *)
Definition hex_value (s : pystr) : option Z :=
  foldl (fun acc c =>
           match acc, hex_digit_value c with
           | Some v, Some d => Some (16 * v + d)
           | _, _ => None
           end) (Some 0) s.

(** The builtin [hex]: ["0x..."] for a non-negative integer, ["-0x..."] for a
    negative one, lowercase digits, no padding. *)
Definition py_hex (n : Z) : pystr :=
  if n <? 0 then py "-0x" ++ hex_codes (N.to_hex_uint (Z.to_N (- n)))
  else py "0x" ++ hex_codes (N.to_hex_uint (Z.to_N n)).

(** ** Python values, exceptions and the effect monad *)

(** Values as [json] parsing and the request payloads have them. *)
Inductive pyval :=
| PNone
| PBool (b : bool)
| PInt (n : Z)
| PFloat (f : float)
| PStr (s : pystr)
| PList (l : list pyval)
| PDict (d : gmap pystr pyval).

(** A [Dict[str, Any]]. *)
Abbreviation pydict := (gmap pystr pyval).

(** Why a [NetworkError] was raised ([RequestManager.post_json],
    [RequestManager.renew_cookie]). *)
Inductive net_reason :=
| JsonDecode              (* "响应JSON解析失败" re-wrapped as "请求异常" *)
| RequestTimeout          (* "请求超时" *)
| ConnectionFailed        (* "连接错误" *)
| HttpError               (* "HTTP错误" *)
| RequestException        (* "请求异常" *)
| RenewFailed.            (* "Cookie刷新失败" *)

(** The exceptions of [src/utils/exceptions.py] that the modelled code raises,
    and the builtin ones it can meet. *)
Inductive exn :=
| NetworkError (why : net_reason)
| AuthError
| CircuitBreakerError
| PushError
| TypeError
| IndexError
| KeyError
| ZeroDivisionError
| OtherException (tag : Z).

Inductive res (A : Type) :=
| Ret (a : A)
| Raise (e : exn).
Arguments Ret {A} a.
Arguments Raise {A} e.

(** A computation over a mutable state [St] that returns or raises; the
    state survives a raise, as Python's does. *)
Definition IO (St A : Type) : Type := St -> res A * St.

Definition ret {St A} (a : A) : IO St A := fun s => (Ret a, s).
Definition raise {St A} (e : exn) : IO St A := fun s => (Raise e, s).
Definition bind {St A B} (c : IO St A) (k : A -> IO St B) : IO St B :=
  fun s => match c s with
           | (Ret a, s') => k a s'
           | (Raise e, s') => (Raise e, s')
           end.
(** [try: c  except Exception as e: h e] *)
Definition try_except {St A} (c : IO St A) (h : exn -> IO St A) : IO St A :=
  fun s => match c s with
           | (Ret a, s') => (Ret a, s')
           | (Raise e, s') => h e s'
           end.
(** A state change that cannot fail. *)
Definition effect {St} (f : St -> St) : IO St unit := fun s => (Ret tt, f s).
(** Reading the state. *)
Definition reads {St A} (f : St -> A) : IO St A := fun s => (Ret (f s), s).
(** An operation that returns a value and a new state, and cannot fail. *)
Definition total {St A} (f : St -> A * St) : IO St A :=
  fun s => let (a, s') := f s in (Ret a, s').

(** The monad structure, so that stdpp's [x ← c; k] reads as Python's
    statement sequence. *)
#[global] Instance io_ret {St} : MRet (IO St) := fun A a => ret a.
#[global] Instance io_bind {St} : MBind (IO St) := fun A B k c => bind c k.

(** ** The host: clock, random source, network, notifier, library functions *)

(** [RequestManager.urls] *)
Inductive endpoint := UrlRead | UrlRenew | UrlFixSynckey.

#[global] Instance endpoint_eq_dec : EqDecision endpoint.
Proof. solve_decision. Defined.

(** The arguments of one [session.post]. *)
Record request := {
  req_url : endpoint;
  req_body : pyval;
  req_headers : gmap pystr pystr;
  req_cookies : gmap pystr pystr;
  req_timeout : Z;
}.

(** What the code reads of a [requests.Response]: the status, the
    [Set-Cookie] header if any, and the body as [response.json()] parses it
    ([None] when it is not JSON). *)
Record response := {
  status_code : Z;
  set_cookie : option pystr;
  json_body : option pyval;
}.

Inductive http_result :=
| HttpResponse (r : response)
| HttpTimeout            (* requests.exceptions.Timeout *)
| HttpConnectionError    (* requests.exceptions.ConnectionError *)
| HttpOtherError.        (* any other exception of the call *)

(** The argument of [time.sleep]: an [int] literal or a computed [float]. *)
Inductive duration := Seconds (n : Z) | SecondsF (f : float).

(** The run result of [WxReadBot.start_reading]. *)
Record reading_result := {
  success_count : Z;
  total_attempts : Z;
  reading_minutes : float;
  success_rate : float;
}.

(** The third component of [WxReadBot.read_once]'s tuple. *)
Inductive read_error :=
| MissingSynckey             (* "缺少synckey" *)
| CookieRefreshed            (* "Cookie已刷新" *)
| CookieRefreshFailed        (* "Cookie刷新失败" *)
| RequestFailed (e : exn).   (* "阅读请求失败: {e}" *)

(** What [refresh_cookie] reports through [_send_error_notification]. *)
Inductive refresh_error :=
| NoNewKey                   (* "无法获取新密钥，可能是配置有误" *)
| RefreshRaised (e : exn).   (* "Cookie刷新失败: {e}" *)

(** The two notifications of the bot. *)
Inductive notice :=
| CompletionNotice (r : reading_result)
| ErrorNotice (e : refresh_error).

(** Everything outside the modelled code, over a state [St] of the outside
    world. Logging is not part of it: no logger call changes control flow. *)
Class Host (St : Type) := {
  (** [datetime.now()], in microseconds *)
  datetime_now : St -> Z;
  (** [int(time.time())] *)
  time_time : St -> Z;
  (** [random.randint(a, b)] *)
  random_randint : Z -> Z -> St -> Z * St;
  (** [random.random()] *)
  random_random : St -> float * St;
  (** [random.choice(seq)] *)
  random_choice : list pystr -> St -> pystr * St;
  (** [time.sleep(d)] *)
  time_sleep : duration -> St -> St;
  (** [self.session.post(...)] *)
  session_post : request -> St -> http_result * St;
  (** [self.pusher._send_message(content, title)] of the concrete pusher
      (PushPlus, Telegram, WxPusher): its own [requests] call, without a
      retry or a sleep of its own; it returns a [bool] or raises *)
  pusher_send_message : notice -> St -> res bool * St;
  (** [hashlib.sha256(s.encode()).hexdigest()] *)
  sha256_hexdigest : pystr -> pystr;
  (** [urllib.parse.quote(s, safe='')] *)
  url_quote : pystr -> pystr;
  (** [repr] of floats and containers, as [str] uses it *)
  py_repr : pyval -> pystr;
  (** [x ** n] on floats *)
  float_pow : float -> Z -> float;
}.

(** ** [src/utils/retry.py] *)

(** [range(n)] *)
Definition py_range (n : Z) : list Z := map Z.of_nat (seq 0 (Z.to_nat n)).

(** The builtin [min(a, b)] on floats: [b] when [b < a], else [a]. *)
Definition float_min (a b : float) : float :=
  if PrimFloat.ltb b a then b else a.

Section retry_with_backoff.
Context {St : Type} `{Host St} {V : Type}.
(** The decorator's arguments. *)
Variables (max_attempts : Z) (base_delay max_delay backoff_factor : float)
          (jitter : bool) (exceptions : exn -> bool)
          (on_retry : option (Z -> exn -> float -> IO St unit)).
(** The decorated function, applied to its arguments. *)
Variable func : IO St V.

(** The body of [except exceptions as e] when the attempt is not the last:
    the delay, the callback, the sleep. *)
Definition backoff (attempt : Z) (e : exn) : IO St unit :=
  let delay := float_min (PrimFloat.mul base_delay (float_pow backoff_factor attempt))
                         max_delay in
  delay ← (if jitter then
             r ← total random_random;
             mret (PrimFloat.mul delay
                     (PrimFloat.add 0.5%float (PrimFloat.mul r 0.5%float)))
           else mret delay);
  (match on_retry with
   | Some callback => callback (attempt + 1) e delay
   | None => mret tt
   end);;
  effect (time_sleep (SecondsF delay)).

(** [for attempt in range(max_attempts)], then [raise last_exception]
    (a [TypeError] when it is still [None]). *)
Fixpoint retry_loop (attempts : list Z) (last_exception : option exn) : IO St V :=
  match attempts with
  | [] => raise (match last_exception with Some e => e | None => TypeError end)
  | attempt :: rest =>
      try_except func (fun e =>
        if exceptions e then
          if attempt =? max_attempts - 1 then raise e
          else backoff attempt e;; retry_loop rest (Some e)
        else raise e)
  end.

(** [wrapper] of [retry_with_backoff(...)(func)] *)
Definition retry_with_backoff : IO St V := retry_loop (py_range max_attempts) None.
End retry_with_backoff.

Inductive CircuitState := CLOSED | OPEN | HALF_OPEN.

#[global] Instance CircuitState_eq_dec : EqDecision CircuitState.
Proof. solve_decision. Defined.

Record CircuitBreaker := {
  failure_threshold : Z;
  recovery_timeout : Z;
  expected_exception : exn -> bool;
  failure_count : Z;
  last_failure_time : option Z;
  state : CircuitState;
}.

Module CircuitBreakerImpl.

(** [__init__] *)
Definition init (failure_threshold recovery_timeout : Z)
    (expected_exception : exn -> bool) : CircuitBreaker :=
  {| failure_threshold := failure_threshold;
     recovery_timeout := recovery_timeout;
     expected_exception := expected_exception;
     failure_count := 0;
     last_failure_time := None;
     state := CLOSED |}.

Definition set_state (self : CircuitBreaker) (st : CircuitState) : CircuitBreaker :=
  {| failure_threshold := failure_threshold self;
     recovery_timeout := recovery_timeout self;
     expected_exception := expected_exception self;
     failure_count := failure_count self;
     last_failure_time := last_failure_time self;
     state := st |}.

(** [_should_attempt_reset]: [(datetime.now() - last_failure_time)
    .total_seconds() >= recovery_timeout], on microseconds. *)
Definition _should_attempt_reset (self : CircuitBreaker) (now : Z) : bool :=
  match last_failure_time self with
  | None => true
  | Some t => recovery_timeout self * 1000000 <=? now - t
  end.

(** [_on_success] *)
Definition _on_success (self : CircuitBreaker) : CircuitBreaker :=
  {| failure_threshold := failure_threshold self;
     recovery_timeout := recovery_timeout self;
     expected_exception := expected_exception self;
     failure_count := 0;
     last_failure_time := last_failure_time self;
     state := CLOSED |}.

(** [_on_failure] *)
Definition _on_failure (self : CircuitBreaker) (now : Z) : CircuitBreaker :=
  let failure_count' := failure_count self + 1 in
  {| failure_threshold := failure_threshold self;
     recovery_timeout := recovery_timeout self;
     expected_exception := expected_exception self;
     failure_count := failure_count';
     last_failure_time := Some now;
     state := if failure_threshold self <=? failure_count' then OPEN
              else state self |}.

(** [reset] *)
Definition reset (self : CircuitBreaker) : CircuitBreaker :=
  {| failure_threshold := failure_threshold self;
     recovery_timeout := recovery_timeout self;
     expected_exception := expected_exception self;
     failure_count := 0;
     last_failure_time := None;
     state := CLOSED |}.

(** [is_open] *)
Definition is_open (self : CircuitBreaker) : bool :=
  bool_decide (state self = OPEN).

Section call.
Context {St : Type} `{Host St} {V : Type}.

(** [_call_with_circuit_breaker(func, *args)]: the result or the
    exception, and the breaker as the call leaves it. The clock is read
    when the call arrives ([_should_attempt_reset]) and again when the
    wrapped call has failed ([_on_failure]). *)
Definition _call_with_circuit_breaker (self : CircuitBreaker) (func : IO St V)
  : St -> (res V * CircuitBreaker) * St :=
  fun s =>
    let gate :=
      if bool_decide (state self = OPEN) then
        if _should_attempt_reset self (datetime_now s)
        then Some (set_state self HALF_OPEN)
        else None
      else Some self in
    match gate with
    | None => ((Raise CircuitBreakerError, self), s)
    | Some self =>
        match func s with
        | (Ret result, s') => ((Ret result, _on_success self), s')
        | (Raise e, s') =>
            if expected_exception self e
            then ((Raise e, _on_failure self (datetime_now s')), s')
            else ((Raise e, self), s')
        end
    end.
End call.

End CircuitBreakerImpl.

(** ** The program's own mutable objects *)

(** The objects the bot mutates while it runs, next to the host's state:
    the [dict] objects by identity, [WxReadBot.cookies], and
    [RequestManager.circuit_breaker]. *)
Record Machine (St : Type) := {
  host : St;
  heap : gmap nat pydict;
  cookies : gmap pystr pystr;
  circuit_breaker : CircuitBreaker;
}.
Arguments host {St} m.
Arguments heap {St} m.
Arguments cookies {St} m.
Arguments circuit_breaker {St} m.

Section machine.
Context {St : Type}.

Definition set_host (m : Machine St) (s : St) : Machine St :=
  {| host := s; heap := heap m; cookies := cookies m;
     circuit_breaker := circuit_breaker m |}.
Definition set_heap (m : Machine St) (h : gmap nat pydict) : Machine St :=
  {| host := host m; heap := h; cookies := cookies m;
     circuit_breaker := circuit_breaker m |}.
Definition set_cookies (m : Machine St) (c : gmap pystr pystr) : Machine St :=
  {| host := host m; heap := heap m; cookies := c;
     circuit_breaker := circuit_breaker m |}.
Definition set_circuit_breaker (m : Machine St) (cb : CircuitBreaker) : Machine St :=
  {| host := host m; heap := heap m; cookies := cookies m;
     circuit_breaker := cb |}.

(** A computation of the host, run inside the machine. *)
Definition lift_host {A} (c : IO St A) : IO (Machine St) A :=
  fun m => let (r, s') := c (host m) in (r, set_host m s').

(** [d.copy()]: a new object with the same entries. *)
Definition dict_copy (l : nat) : IO (Machine St) nat :=
  fun m => match heap m !! l with
           | Some d => let l' := fresh (dom (heap m)) in
                       (Ret l', set_heap m (<[l' := d]> (heap m)))
           | None => (Raise (OtherException 0), m)
           end.

(** In-place update of the object at [l]. *)
Definition dict_update (l : nat) (f : pydict -> pydict) : IO (Machine St) unit :=
  fun m => match heap m !! l with
           | Some d => (Ret tt, set_heap m (<[l := f d]> (heap m)))
           | None => (Raise (OtherException 0), m)
           end.

(** The entries of the object at [l]. *)
Definition dict_read (l : nat) : IO (Machine St) pydict :=
  fun m => match heap m !! l with
           | Some d => (Ret d, m)
           | None => (Raise (OtherException 0), m)
           end.
End machine.

(** ** More of Python's [str] *)

Fixpoint dec_codes (d : Decimal.uint) : pystr :=
  match d with
  | Decimal.Nil => []
  | Decimal.D0 d => 48 :: dec_codes d
  | Decimal.D1 d => 49 :: dec_codes d
  | Decimal.D2 d => 50 :: dec_codes d
  | Decimal.D3 d => 51 :: dec_codes d
  | Decimal.D4 d => 52 :: dec_codes d
  | Decimal.D5 d => 53 :: dec_codes d
  | Decimal.D6 d => 54 :: dec_codes d
  | Decimal.D7 d => 55 :: dec_codes d
  | Decimal.D8 d => 56 :: dec_codes d
  | Decimal.D9 d => 57 :: dec_codes d
  end.

(** [str(n)] for an [int]. *)
Definition py_str_int (n : Z) : pystr :=
  match Z.to_int n with
  | Decimal.Pos d => dec_codes d
  | Decimal.Neg d => 45 :: dec_codes d
  end.

(** [str(v)] *)
Definition py_str `{Host St} (v : pyval) : pystr :=
  match v with
  | PStr s => s
  | PInt n => py_str_int n
  | PNone => py "None"
  | PBool true => py "True"
  | PBool false => py "False"
  | _ => py_repr v
  end.

(** [a <= b] on strings: lexicographic on code points. *)
Fixpoint str_leb (a b : pystr) : bool :=
  match a, b with
  | [], _ => true
  | _ :: _, [] => false
  | x :: a', y :: b' =>
      if x <? y then true else if y <? x then false else str_leb a' b'
  end.

(** [sep.join(parts)] *)
Fixpoint py_join (sep : pystr) (parts : list pystr) : pystr :=
  match parts with
  | [] => []
  | [x] => x
  | x :: rest => x ++ sep ++ py_join sep rest
  end.

(** [s.startswith(p)] *)
Fixpoint starts_with (p s : pystr) : bool :=
  match p, s with
  | [], _ => true
  | _ :: _, [] => false
  | a :: p', b :: s' => (a =? b) && starts_with p' s'
  end.

(** [needle in s] *)
Fixpoint str_contains (needle s : pystr) : bool :=
  starts_with needle s ||
  match s with
  | [] => false
  | _ :: s' => str_contains needle s'
  end.

(** [s.split(sep)] for a one-character separator. *)
Fixpoint py_split (sep : Z) (s : pystr) : list pystr :=
  match s with
  | [] => [[]]
  | c :: s' =>
      if c =? sep then [] :: py_split sep s'
      else match py_split sep s' with
           | x :: xs => (c :: x) :: xs
           | [] => [[c]]
           end
  end.

(** ** [src/core/crypto.py] *)

Module CryptoUtils.

(** The [while _19094e > 0] loop. [h1] is [_7032f5], [h2] is [_cc1055],
    [idx] is [_19094e]; [fuel] bounds the number of iterations and [None]
    stands for an [IndexError] (or for exhausted fuel). Python's [<<] binds
    tighter than [^], which binds tighter than [&]. *)
Fixpoint hash_loop (fuel : nat) (input_string : pystr) (length h1 h2 idx : Z)
  : option (Z * Z) :=
  if 0 <? idx then
    match fuel with
    | O => None
    | S fuel' =>
        char_code ← py_index input_string idx;
        let shift_amount := (length - idx) mod 30 in
        let h1 := Z.land 0x7fffffff (Z.lxor h1 (Z.shiftl char_code shift_amount)) in
        h2 ← (if 0 <? idx then
                char_code_prev ← py_index input_string (idx - 1);
                let shift_amount_prev := idx mod 30 in
                Some (Z.land 0x7fffffff
                        (Z.lxor h2 (Z.shiftl char_code_prev shift_amount_prev)))
              else Some h2);
        hash_loop fuel' input_string length h1 h2 (idx - 2)
    end
  else Some (h1, h2).

Definition calculate_hash (input_string : pystr) : option pystr :=
  let length := Z.of_nat (List.length input_string) in
  '(h1, h2) ← hash_loop (List.length input_string) input_string length
                 0x15051505 0x15051505 (length - 1);
  Some (py_lower (drop 2 (py_hex (h1 + h2)))).

(** [x == 1] for a parsed JSON value [x]: Python compares numbers by
    value, and [True == 1]. *)
Definition py_eq_one (v : pyval) : bool :=
  match v with
  | PInt n => n =? 1
  | PBool b => b
  | PFloat f => PrimFloat.eqb f 1%float
  | _ => false
  end.

(** [key in v], [None] for the [TypeError] of a value that is no container. *)
Definition py_contains (key : pystr) (v : pyval) : option bool :=
  match v with
  | PDict d => Some (bool_decide (is_Some (d !! key)))
  | PList l => Some (existsb (fun x => match x with
                                       | PStr s => bool_decide (s = key)
                                       | _ => false
                                       end) l)
  | PStr s => Some (str_contains key s)
  | _ => None
  end.

(** [v.get(key)], [None] for the [AttributeError] of a value that is no
    [dict]. *)
Definition py_get (key : pystr) (v : pyval) : option pyval :=
  match v with
  | PDict d => Some (default PNone (d !! key))
  | _ => None
  end.

(** [validate_response]: any exception inside is turned into [False]. *)
Definition validate_response (response_data : pyval) : bool :=
  default false
    (has_succ ← py_contains (py "succ") response_data;
     if negb has_succ then Some false
     else
       succ ← py_get (py "succ") response_data;
       if negb (py_eq_one succ) then Some false
       else Some true).

Definition ENCRYPTION_KEY : pystr := py "3c5c8717f3daf09iop3423zafeqoi".

Section with_host.
Context {St : Type} `{Host St}.

(** [encode_data]: the entries in ascending key order, each value through
    [str] and [quote], joined as [key=value&key=value]. *)
Definition encode_data (data : pydict) : pystr :=
  let entries := merge_sort (fun p q => Is_true (str_leb p.1 q.1)) (map_to_list data) in
  py_join (py "&")
    (map (fun p => p.1 ++ py "=" ++ url_quote (py_str p.2)) entries).

(** [generate_signature] *)
Definition generate_signature (timestamp random_num : Z) : pystr :=
  sha256_hexdigest (py_str_int timestamp ++ py_str_int random_num ++ ENCRYPTION_KEY).

(** [generate_random_number] *)
Definition generate_random_number (min_val max_val : Z) : IO St Z :=
  total (random_randint min_val max_val).

(** [generate_timestamp] *)
Definition generate_timestamp : IO St (Z * Z) :=
  current_time ← reads time_time;
  r ← generate_random_number 0 1000;
  mret (current_time, current_time * 1000 + r).

(** [create_request_data]; [base_data] and the result are references to
    [dict] objects. *)
Definition create_request_data (base_data : nat) (book_id chapter_id : pystr)
    (last_time : Z) : IO (Machine St) nat :=
  data ← dict_copy base_data;
  dict_update data (delete (py "s"));;
  dict_update data (<[py "b" := PStr book_id]>);;
  dict_update data (<[py "c" := PStr chapter_id]>);;
  '(current_time, timestamp_ms) ← lift_host generate_timestamp;
  dict_update data (<[py "ct" := PInt current_time]>);;
  dict_update data (<[py "ts" := PInt timestamp_ms]>);;
  dict_update data (<[py "rt" := PInt (current_time - last_time)]>);;
  rn ← lift_host (generate_random_number 0 1000);
  dict_update data (<[py "rn" := PInt rn]>);;
  dict_update data (<[py "sg" := PStr (generate_signature timestamp_ms rn)]>);;
  d ← dict_read data;
  match calculate_hash (encode_data d) with
  | Some h => dict_update data (<[py "s" := PStr h]>);; mret data
  | None => raise IndexError
  end.
End with_host.

End CryptoUtils.


(** ** The custom hash as the specification words it *)

Module HashSpec.

(** Lowercase hexadecimal of a non-negative number: no prefix, no padding. *)
Definition lower_hex (n : Z) : pystr := hex_codes (N.to_hex_uint (Z.to_N n)).

(** [code(i)]: the code point at 0-based position [i]. *)
Definition code (s : pystr) (i : Z) : Z := nth (Z.to_nat i) s 0.

(** The indices [L-1, L-3, ...] that are at least 1. *)
Definition indices (L : Z) : list Z :=
  filter (fun i => 1 ≤ i)
         (map (fun k => L - 1 - 2 * Z.of_nat k) (seq 0 (Z.to_nat L))).

Definition seed : Z := 0x15051505.

Definition step (s : pystr) (L : Z) (h : Z * Z) (i : Z) : Z * Z :=
  (Z.land (Z.lxor (fst h) (Z.shiftl (code s i) ((L - i) mod 30))) 0x7fffffff,
   Z.land (Z.lxor (snd h) (Z.shiftl (code s (i - 1)) (i mod 30))) 0x7fffffff).

Definition accumulators (s : pystr) : Z * Z :=
  let L := Z.of_nat (length s) in
  fold_left (step s L) (indices L) (seed, seed).

Definition spec_hash (s : pystr) : pystr :=
  lower_hex (fst (accumulators s) + snd (accumulators s)).

End HashSpec.


(** ** [src/core/request_manager.py] *)

Module RequestManager.

(** [isinstance(e, NetworkError)] *)
Definition is_NetworkError (e : exn) : bool :=
  match e with NetworkError _ => true | _ => false end.

(** [response.raise_for_status()] raises for 4xx and 5xx. *)
Definition raises_for_status (r : response) : bool :=
  (400 <=? status_code r) && (status_code r <? 600).

(** The session key in a [Set-Cookie] header: the first [;]-separated
    fragment that contains [wr_skey], cut after its last [=] and to 8
    characters. *)
Fixpoint find_skey (fragments : list pystr) : option pystr :=
  match fragments with
  | [] => None
  | cookie :: rest =>
      if str_contains (py "wr_skey") cookie
      then Some (take 8 (List.last (py_split 61 cookie) []))
      else find_skey rest
  end.

Definition extract_skey (set_cookie_header : pystr) : option pystr :=
  find_skey (py_split 59 set_cookie_header).

(** The circuit breaker of [__init__]. *)
Definition new_circuit_breaker : CircuitBreaker :=
  CircuitBreakerImpl.init 5 60 is_NetworkError.

Section with_host.
Context {St : Type} `{Host St}.
(** [self.timeout] *)
Variable timeout : Z.

Definition default_headers : gmap pystr pystr :=
  {[ py "Content-Type" := py "application/json";
     py "User-Agent" :=
       py "Mozilla/5.0 (Windows NT 10.0; Win64; x64) AppleWebKit/537.36" ]}.

(** The body of [post_json], before the decorator: every exception
    leaves it as a [NetworkError]. *)
Definition post_json_body (url : endpoint) (data : pyval)
    (headers cookies : gmap pystr pystr) : IO St pyval :=
  fun s =>
    let request_headers := headers ∪ default_headers in
    match session_post {| req_url := url; req_body := data;
                          req_headers := request_headers;
                          req_cookies := cookies;
                          req_timeout := timeout |} s with
    | (HttpResponse r, s') =>
        if raises_for_status r then (Raise (NetworkError HttpError), s')
        else match json_body r with
             | Some result => (Ret result, s')
             | None => (Raise (NetworkError JsonDecode), s')
             end
    | (HttpTimeout, s') => (Raise (NetworkError RequestTimeout), s')
    | (HttpConnectionError, s') => (Raise (NetworkError ConnectionFailed), s')
    | (HttpOtherError, s') => (Raise (NetworkError RequestException), s')
    end.

(** [post_json] as decorated:
    [@retry_with_backoff(max_attempts=3, base_delay=1.0,
                         exceptions=(NetworkError,))] *)
Definition post_json (url : endpoint) (data : pyval)
    (headers cookies : gmap pystr pystr) : IO St pyval :=
  retry_with_backoff 3 1.0%float 60.0%float 2.0%float true is_NetworkError None
    (post_json_body url data headers cookies).

(** [read_book] *)
Definition read_book (data : pyval) (headers cookies : gmap pystr pystr)
  : IO (Machine St) pyval :=
  fun m =>
    let '((r, cb), s') :=
      CircuitBreakerImpl._call_with_circuit_breaker (circuit_breaker m)
        (post_json UrlRead data headers cookies) (host m) in
    (r, set_circuit_breaker (set_host m s') cb).

(** [renew_cookie]: [None] is Python's [None]. *)
Definition renew_cookie (headers cookies : gmap pystr pystr)
  : IO St (option pystr) :=
  fun s =>
    let cookie_data :=
      PDict {[ py "rq" := PStr (py "%2Fweb%2Fbook%2Fread") ]} in
    match session_post {| req_url := UrlRenew; req_body := cookie_data;
                          req_headers := headers; req_cookies := cookies;
                          req_timeout := timeout |} s with
    | (HttpResponse r, s') =>
        if raises_for_status r then (Raise (NetworkError RenewFailed), s')
        else (Ret (extract_skey (default [] (set_cookie r))), s')
    | (_, s') => (Raise (NetworkError RenewFailed), s')
    end.

(** [fix_synckey] with [book_ids=None] *)
Definition fix_synckey (headers cookies : gmap pystr pystr) : IO St bool :=
  fun s =>
    let data := PDict {[ py "bookIds" := PList [PStr (py "3300060341")] ]} in
    match session_post {| req_url := UrlFixSynckey; req_body := data;
                          req_headers := headers; req_cookies := cookies;
                          req_timeout := timeout |} s with
    | (HttpResponse r, s') =>
        if raises_for_status r then (Ret false, s') else (Ret true, s')
    | (_, s') => (Ret false, s')
    end.
End with_host.

End RequestManager.

(** ** [src/notifications/pushers/base.py] *)

Module BasePusher.

(** [isinstance(e, PushError)] *)
Definition is_PushError (e : exn) : bool :=
  match e with PushError => true | _ => false end.

Section with_host.
Context {St : Type} `{Host St}.
(** The subclass's [_send_message], applied to its arguments. *)
Variable _send_message : IO St bool.

(** The body of [send], before the decorator: the result of
    [_send_message], and every exception re-raised as a [PushError]. *)
Definition send_body : IO St bool :=
  try_except (result ← _send_message; mret result) (fun _ => raise PushError).

(** [send] as decorated:
    [@retry_with_backoff(max_attempts=3, base_delay=1.0, max_delay=60.0,
                         exceptions=(PushError,))] *)
Definition send : IO St bool :=
  retry_with_backoff 3 1.0%float 60.0%float 2.0%float true is_PushError None
    send_body.
End with_host.

End BasePusher.

(** ** [src/notifications/manager.py] *)

Module NotificationManager.
Section with_host.
Context {St : Type} `{Host St}.

(** [send], for a manager whose [is_enabled()] is [enabled]: an enabled
    manager has a pusher, and [self.pusher.send] is [BasePusher.send], the
    retried [_send_message]. *)
Definition send (enabled : bool) (n : notice) : IO St bool :=
  if negb enabled then mret true
  else try_except (BasePusher.send (pusher_send_message n))
                  (fun _ => raise PushError).
End with_host.
End NotificationManager.

(** ** [src/core/bot.py] *)

(** The fields of a [WxReadBot] that stay as [__init__] set them. *)
Record WxReadBot := {
  read_num : Z;
  headers : gmap pystr pystr;
  base_data : nat;
  book_ids : list pystr;
  chapter_ids : list pystr;
  timeout : Z;
  notification_enabled : bool;
}.

(** [float(n)] for an [int] below [2^63] in absolute value. *)
Definition float_of_int (n : Z) : float :=
  if n <? 0 then PrimFloat.opp (PrimFloat.of_uint63 (Uint63.of_Z (- n)))
  else PrimFloat.of_uint63 (Uint63.of_Z n).

(** [range(a, b)] *)
Definition py_range2 (a b : Z) : list Z :=
  map (fun k => a + Z.of_nat k) (seq 0 (Z.to_nat (b - a))).

(** [for x in xs: acc = body(x, acc)] *)
Fixpoint for_each {St A B} (xs : list A) (body : A -> B -> IO St B) (acc : B)
  : IO St B :=
  match xs with
  | [] => mret acc
  | x :: rest => acc' ← body x acc; for_each rest body acc'
  end.

(** The truth value of an [Optional[str]]. *)
Definition truthy (o : option pystr) : bool :=
  match o with
  | Some (_ :: _) => true
  | _ => false
  end.

Module Bot.
Section with_host.
Context {St : Type} `{Host St}.
Variable self : WxReadBot.

(** [_send_error_notification] *)
Definition _send_error_notification (e : refresh_error) : IO St unit :=
  if notification_enabled self then
    try_except (NotificationManager.send (notification_enabled self) (ErrorNotice e);;
                mret tt)
               (fun _ => mret tt)
  else mret tt.

(** [_send_completion_notification] *)
Definition _send_completion_notification (r : reading_result) : IO St unit :=
  if notification_enabled self then
    try_except (NotificationManager.send (notification_enabled self)
                  (CompletionNotice r);;
                mret tt)
               (fun _ => mret tt)
  else mret tt.

(** [refresh_cookie] *)
Definition refresh_cookie : IO (Machine St) bool :=
  try_except
    (cookies_now ← reads cookies;
     new_skey ← lift_host (RequestManager.renew_cookie (timeout self)
                             (headers self) cookies_now);
     if truthy new_skey then
       effect (fun m => set_cookies m
                 (<[py "wr_skey" := default [] new_skey]> (cookies m)));;
       mret true
     else
       lift_host (_send_error_notification NoNewKey);;
       mret false)
    (fun e =>
       lift_host (_send_error_notification (RefreshRaised e));;
       mret false).

(** [fix_synckey] *)
Definition fix_synckey : IO (Machine St) bool :=
  try_except
    (cookies_now ← reads cookies;
     lift_host (RequestManager.fix_synckey (timeout self) (headers self)
                  cookies_now))
    (fun _ => mret false).

(** [read_once]: [(success, time, error)] *)
Definition read_once (book_id chapter_id : pystr) (last_time : Z)
  : IO (Machine St) (bool * Z * option read_error) :=
  try_except
    (request_data ← CryptoUtils.create_request_data (base_data self)
                      book_id chapter_id last_time;
     payload ← dict_read request_data;
     cookies_now ← reads cookies;
     response ← RequestManager.read_book (timeout self) (PDict payload)
                  (headers self) cookies_now;
     if CryptoUtils.validate_response response then
       match payload !! py "ct" with
       | Some (PInt current_time) =>
           match CryptoUtils.py_contains (py "synckey") response with
           | Some true => mret (true, current_time, None)
           | Some false =>
               fix_synckey;; mret (false, last_time, Some MissingSynckey)
           | None => raise TypeError
           end
       | _ => raise KeyError
       end
     else
       refreshed ← refresh_cookie;
       if (refreshed : bool) then mret (false, last_time, Some CookieRefreshed)
       else mret (false, last_time, Some CookieRefreshFailed))
    (fun e => mret (false, last_time, Some (RequestFailed e))).

(** One turn of the [for attempt in range(1, self.read_num + 1)] loop, on
    [(success_count, last_time)]. *)
Definition attempt_body (attempt : Z) (acc : Z * Z) : IO (Machine St) (Z * Z) :=
  let '(success_count, last_time) := acc in
  book_id ← lift_host (total (random_choice (book_ids self)));
  chapter_id ← lift_host (total (random_choice (chapter_ids self)));
  '(success, current_time, error) ← read_once book_id chapter_id last_time;
  if (success : bool) then
    lift_host (effect (time_sleep (Seconds 30)));;
    mret (success_count + 1, current_time)
  else
    lift_host (effect (time_sleep (Seconds 5)));;
    mret (success_count, last_time).

(** [start_reading] *)
Definition start_reading : IO (Machine St) reading_result :=
  refreshed ← refresh_cookie;
  if negb (refreshed : bool) then raise AuthError
  else
    now ← lift_host (reads time_time);
    '(success_count, last_time) ←
      for_each (py_range2 1 (read_num self + 1)) attempt_body (0, now - 30);
    let total_minutes := PrimFloat.mul (float_of_int success_count) 0.5%float in
    if read_num self =? 0 then raise ZeroDivisionError
    else
      let result :=
        {| success_count := success_count;
           total_attempts := read_num self;
           reading_minutes := total_minutes;
           success_rate :=
             PrimFloat.mul
               (PrimFloat.div (float_of_int success_count)
                              (float_of_int (read_num self)))
               (float_of_int 100) |} in
      lift_host (_send_completion_notification result);;
      mret result.
End with_host.
End Bot.

(** [ConfigValidator._validate_read_num] on [None] or an [int]; the result
    [None] is its [ValidationError]. *)
Definition _validate_read_num (value : option Z) : option Z :=
  match value with
  | None => Some 40
  | Some num =>
      if num <=? 0 then None
      else if 1000 <? num then None
      else Some num
  end.

(** ** Observing a run: the trace of external effects *)

Inductive event :=
| EvCall                                   (* the wrapped operation is invoked *)
| EvPost (r : request) (a : http_result)   (* [session.post] and its outcome *)
| EvSleep (d : duration)                   (* [time.sleep] *)
| EvNotify (n : notice).                   (* [pusher._send_message] *)

(** A host state together with the effects performed so far, newest first. *)
Record Traced (St : Type) := {
  inner : St;
  trace : list event;
}.
Arguments inner {St} t.
Arguments trace {St} t.

Definition record_event {St} (ev : event) (s' : St) (t : Traced St) : Traced St :=
  {| inner := s'; trace := ev :: trace t |}.
Definition silent {St} (s' : St) (t : Traced St) : Traced St :=
  {| inner := s'; trace := trace t |}.

(** Any host, with its network, sleep and notifier calls recorded. *)
#[global] Instance traced_host {St} `{Host St} : Host (Traced St) := {
  datetime_now t := datetime_now (inner t);
  time_time t := time_time (inner t);
  random_randint a b t :=
    let (r, s') := random_randint a b (inner t) in (r, silent s' t);
  random_random t :=
    let (r, s') := random_random (inner t) in (r, silent s' t);
  random_choice l t :=
    let (r, s') := random_choice l (inner t) in (r, silent s' t);
  time_sleep d t := record_event (EvSleep d) (time_sleep d (inner t)) t;
  session_post r t :=
    let (a, s') := session_post r (inner t) in (a, record_event (EvPost r a) s' t);
  pusher_send_message n t :=
    let (a, s') := pusher_send_message n (inner t) in (a, record_event (EvNotify n) s' t);
  sha256_hexdigest := sha256_hexdigest (St := St);
  url_quote := url_quote (St := St);
  py_repr := py_repr (St := St);
  float_pow := float_pow (St := St);
}.

(** An operation of the plain host, run on the traced one with each
    invocation recorded. *)
Definition traced_call {St V} (func : IO St V) : IO (Traced St) V :=
  fun t => let (r, s') := func (inner t) in (r, record_event EvCall s' t).

(** An operation of the plain host, run on the traced one unrecorded. *)
Definition untraced {St V} (c : IO St V) : IO (Traced St) V :=
  fun t => let (r, s') := c (inner t) in (r, silent s' t).

Definition count_events (P : event -> bool) (tr : list event) : nat :=
  length (filter (fun ev => Is_true (P ev)) tr).

Definition is_call (ev : event) : bool :=
  match ev with EvCall => true | _ => false end.
Definition is_post_to (url : endpoint) (ev : event) : bool :=
  match ev with
  | EvPost r _ => bool_decide (req_url r = url)
  | _ => false
  end.
(** The sleeps of the read loop, [time.sleep(30)] and [time.sleep(5)]. *)
Definition is_pacing_sleep (ev : event) : bool :=
  match ev with EvSleep (Seconds _) => true | _ => false end.
Definition is_sleep_of (n : Z) (ev : event) : bool :=
  match ev with EvSleep (Seconds k) => k =? n | _ => false end.
(** The sleeps of the retry decorator. *)
Definition is_backoff_sleep (ev : event) : bool :=
  match ev with EvSleep (SecondsF _) => true | _ => false end.
(** A read submission the server accepted: a 2xx answer whose JSON body
    has [succ == 1] and a [synckey]. *)
Definition is_accepted_read (ev : event) : bool :=
  match ev with
  | EvPost r (HttpResponse a) =>
      is_post_to UrlRead ev && negb (RequestManager.raises_for_status a) &&
      match json_body a with
      | Some v => CryptoUtils.validate_response v &&
                  default false (CryptoUtils.py_contains (py "synckey") v)
      | None => false
      end
  | _ => false
  end.

(** ** A scripted host: a server that answers from a list *)

Record Scripted := {
  clock : Z;                      (* microseconds *)
  answers : list http_result;     (* the answers to the next posts *)
}.

Definition duration_micros (d : duration) : Z :=
  match d with
  | Seconds n => n * 1000000
  | SecondsF _ => 1000000
  end.

#[global] Instance scripted_host : Host Scripted := {
  datetime_now s := clock s;
  time_time s := clock s / 1000000;
  random_randint a b s := (a, s);
  random_random s := (0%float, s);
  random_choice l s := (List.hd [] l, s);
  time_sleep d s := {| clock := clock s + duration_micros d; answers := answers s |};
  session_post r s :=
    match answers s with
    | [] => (HttpConnectionError, s)
    | a :: rest => (a, {| clock := clock s; answers := rest |})
    end;
  pusher_send_message n s := (Ret true, s);
  sha256_hexdigest x := x;
  url_quote x := x;
  py_repr v := [];
  float_pow b n := 1%float;
}.

(** ** Definitions used by the proofs *)

(** The indices the [while] loop visits from [i] on, at most [n] of them. *)
Fixpoint down_from (n : nat) (i : Z) : list Z :=
  match n with
  | O => []
  | S n' => if 0 <? i then i :: down_from n' (i - 2) else []
  end.

(** The breakers a program can hold: a fresh one, and what calls through
    it and manual resets make of it. *)
Inductive cb_reachable : CircuitBreaker -> Prop :=
| cb_reach_init th rt ex :
    cb_reachable (CircuitBreakerImpl.init th rt ex)
| cb_reach_call {St : Type} {H : Host St} {V : Type}
    (self : CircuitBreaker) (func : IO St V) (s : St) :
    cb_reachable self ->
    cb_reachable (CircuitBreakerImpl._call_with_circuit_breaker self func s).1.2
| cb_reach_reset self :
    cb_reachable self -> cb_reachable (CircuitBreakerImpl.reset self).

(** A retry callback of the plain host, on the traced one. *)
Definition untraced_callback {St}
    (on_retry : option (Z -> exn -> float -> IO St unit))
  : option (Z -> exn -> float -> IO (Traced St) unit) :=
  option_map (fun callback a e d => untraced (callback a e d)) on_retry.

(** [fails_first k a s s']: from state [s], with [a] the number of the
    next attempt, the operation fails [k] times in a row with a retryable
    exception, each failure followed by its backoff, which ends in [s']. *)
Inductive fails_first {St : Type} `{Host St} {V : Type}
    (base_delay max_delay backoff_factor : float) (jitter : bool)
    (exceptions : exn -> bool)
    (on_retry : option (Z -> exn -> float -> IO St unit))
    (func : IO St V) : nat -> Z -> St -> St -> Prop :=
| fails_first_O a s :
    fails_first base_delay max_delay backoff_factor jitter exceptions on_retry
      func 0 a s s
| fails_first_S k a s e s1 s2 s3 :
    func s = (Raise e, s1) ->
    exceptions e = true ->
    backoff base_delay max_delay backoff_factor jitter on_retry a e s1
    = (Ret tt, s2) ->
    fails_first base_delay max_delay backoff_factor jitter exceptions on_retry
      func k (a + 1) s2 s3 ->
    fails_first base_delay max_delay backoff_factor jitter exceptions on_retry
      func (S k) a s s3.

(** The attempt numbers [a, a+1, ..., a+n-1]. *)
Definition range_from (a : Z) (n : nat) : list Z :=
  map (fun i => a + Z.of_nat i) (seq 0 n).

(** The number of invocations of the wrapped operation in a trace. *)
Definition calls (tr : list event) : nat := count_events is_call tr.

(** The payload [create_request_data] has built when it comes to hash it:
    the base without its [s], with the book, the chapter, the three times,
    the random number and the signature. *)
Definition payload_before_hash `{Host St} (base : pydict)
    (book_id chapter_id : pystr) (last_time current_time timestamp_ms rn : Z)
  : pydict :=
  <[py "sg" := PStr (CryptoUtils.generate_signature timestamp_ms rn)]>
    (<[py "rn" := PInt rn]>
       (<[py "rt" := PInt (current_time - last_time)]>
          (<[py "ts" := PInt timestamp_ms]>
             (<[py "ct" := PInt current_time]>
                (<[py "c" := PStr chapter_id]>
                   (<[py "b" := PStr book_id]> (delete (py "s") base))))))).

(** A response the orchestrator counts as a success: it validates and has
    a [synckey]. *)
Definition accepted (v : pyval) : bool :=
  CryptoUtils.validate_response v &&
  default false (CryptoUtils.py_contains (py "synckey") v).

(** What [read_once] makes of the outcome [rb] of [read_book], the request
    having been stamped [ct]. *)
Definition read_once_outcome `{Host St} (self : WxReadBot) (last_time ct : Z)
    (rb : res pyval * Machine St)
  : res (bool * Z * option read_error) * Machine St :=
  match rb.1 with
  | Ret response =>
      if CryptoUtils.validate_response response then
        match CryptoUtils.py_contains (py "synckey") response with
        | Some true => (Ret (true, ct, None), rb.2)
        | Some false =>
            (Ret (false, last_time, Some MissingSynckey),
             (Bot.fix_synckey self rb.2).2)
        | None => (Ret (false, last_time, Some (RequestFailed TypeError)), rb.2)
        end
      else
        (Ret (false, last_time,
              Some (match (Bot.refresh_cookie self rb.2).1 with
                    | Ret true => CookieRefreshed
                    | _ => CookieRefreshFailed
                    end)),
         (Bot.refresh_cookie self rb.2).2)
  | Raise e => (Ret (false, last_time, Some (RequestFailed e)), rb.2)
  end.

(** What [post_json]'s body makes of the answer to its post. *)
Definition classify_answer (a : http_result) : res pyval :=
  match a with
  | HttpResponse r =>
      if RequestManager.raises_for_status r then Raise (NetworkError HttpError)
      else match json_body r with
           | Some result => Ret result
           | None => Raise (NetworkError JsonDecode)
           end
  | HttpTimeout => Raise (NetworkError RequestTimeout)
  | HttpConnectionError => Raise (NetworkError ConnectionFailed)
  | HttpOtherError => Raise (NetworkError RequestException)
  end.

(** The request [post_json] posts. *)
Definition post_json_request (timeout : Z) (url : endpoint) (data : pyval)
    (headers cookies : gmap pystr pystr) : request :=
  {| req_url := url; req_body := data;
     req_headers := headers ∪ RequestManager.default_headers;
     req_cookies := cookies; req_timeout := timeout |}.

(** The events a [read_book] can leave: posts to the read endpoint and
    backoff sleeps. *)
Definition is_read_book_event (ev : event) : bool :=
  is_post_to UrlRead ev || is_backoff_sleep ev.

Definition is_notify (ev : event) : bool :=
  match ev with EvNotify _ => true | _ => false end.

(** The events a notification can leave: the invocations of the pusher's
    [_send_message] and the backoff sleeps between them. *)
Definition is_push_event (ev : event) : bool :=
  is_notify ev || is_backoff_sleep ev.

(** ** A sample run: one bot, one base payload, a scripted server *)

Definition sample_bot (n : Z) : WxReadBot :=
  {| read_num := n;
     headers := {[ py "accept" := py "application/json" ]};
     base_data := 0%nat;
     book_ids := [py "36d322f07186022636daa5e"];
     chapter_ids := [py "ecc32f3013eccbc87e4b62e"];
     timeout := 30;
     notification_enabled := false |}.

Definition sample_base : pydict :=
  {[ py "appId" := PStr (py "wb182564874603h266381671");
     py "b" := PStr (py "ce032b305a9bc1ce0b0dd2a");
     py "ci" := PInt 27;
     py "rt" := PInt 15;
     py "s" := PStr (py "stale") ]}.

(** A machine whose clock reads [now] microseconds and whose server will
    give [answers]. *)
Definition sample_machine (cb : CircuitBreaker) (now : Z)
    (answers : list http_result) : Machine (Traced Scripted) :=
  {| host := {| inner := {| clock := now; answers := answers |}; trace := [] |};
     heap := {[ 0%nat := sample_base ]};
     cookies := {[ py "RK" := py "oxEY1bTnXf" ]};
     circuit_breaker := cb |}.

Definition answer (status : Z) (header : option pystr) (body : option pyval)
  : http_result :=
  HttpResponse {| status_code := status; set_cookie := header; json_body := body |}.

(** A read the server accepts. *)
Definition accepted_answer : http_result :=
  answer 200 None (Some (PDict {[ py "succ" := PInt 1; py "synckey" := PInt 123 ]})).

(** A renewal that carries a session key. *)
Definition renewal_answer : http_result :=
  answer 200 (Some (py "wr_skey=AbCdEfGhIjK; Path=/; HttpOnly")) None.

(** The request [renew_cookie] posts. *)
Definition renew_request (self : WxReadBot) (cks : gmap pystr pystr) : request :=
  {| req_url := UrlRenew;
     req_body := PDict {[ py "rq" := PStr (py "%2Fweb%2Fbook%2Fread") ]};
     req_headers := headers self;
     req_cookies := cks;
     req_timeout := timeout self |}.

(** A renewal whose [wr_skey] cookie is empty. *)
Definition empty_key_machine : Machine (Traced Scripted) :=
  sample_machine RequestManager.new_circuit_breaker 1700000000000000
    [answer 200 (Some (py "wr_skey=; Path=/")) None].

(** A server that answers every read with 401, and one that answers with a
    body that is not JSON. *)
Definition unauthorized_machine : Machine (Traced Scripted) :=
  sample_machine RequestManager.new_circuit_breaker 1700000000000000
    (replicate 3 (answer 401 None None)).
Definition malformed_machine : Machine (Traced Scripted) :=
  sample_machine RequestManager.new_circuit_breaker 1700000000000000
    (replicate 3 (answer 200 None None)).

(** What one [read_once] reports and leaves in the trace, by its error:
    [delta_rb] holds the events of its [read_book], [delta_after] those of
    the repair or renewal that followed; [ct] is the time the request was
    stamped with. *)
Definition attempt_shape (ok : bool) (t last_time ct : Z)
    (err : option read_error) (delta_rb delta_after : list event) : Prop :=
  match err with
  | None =>
      ok = true ∧ t = ct ∧ delta_after = [] ∧
      ∃ rq a rest payload,
        delta_rb = EvPost rq a :: rest ∧
        is_accepted_read (EvPost rq a) = true ∧
        req_body rq = PDict payload ∧
        payload !! py "ct" = Some (PInt t) ∧
        payload !! py "rt" = Some (PInt (t - last_time))
  | Some MissingSynckey =>
      ok = false ∧ t = last_time ∧
      ∃ rq a, delta_after = [EvPost rq a] ∧ req_url rq = UrlFixSynckey
  | Some CookieRefreshed | Some CookieRefreshFailed =>
      ok = false ∧ t = last_time ∧
      ∃ notes rq a, delta_after = notes ++ [EvPost rq a] ∧
                    req_url rq = UrlRenew ∧
                    Forall (fun ev => is_push_event ev = true) notes
  | Some (RequestFailed _) =>
      ok = false ∧ t = last_time ∧ delta_after = []
  end.

(** A breaker with threshold 1 after one failed call at time 0. *)
Definition failing_call : IO Scripted pyval :=
  RequestManager.post_json_body 30 UrlRead PNone ∅ ∅.
Definition tripped_breaker : CircuitBreaker :=
  (CircuitBreakerImpl._call_with_circuit_breaker
     (CircuitBreakerImpl.init 1 60 RequestManager.is_NetworkError)
     failing_call {| clock := 0; answers := [] |}).1.2.

(** The bot's breaker, open since ten seconds. *)
Definition open_breaker : CircuitBreaker :=
  {| failure_threshold := 5; recovery_timeout := 60;
     expected_exception := RequestManager.is_NetworkError;
     failure_count := 5;
     last_failure_time := Some 1700000000000000;
     state := OPEN |}.
Definition open_machine : Machine (Traced Scripted) :=
  sample_machine open_breaker 1700000010000000 [accepted_answer].

(** A server that times out twice before it answers. *)
Definition flaky_start : Traced Scripted :=
  {| inner := {| clock := 0;
                 answers := [HttpTimeout; HttpTimeout; accepted_answer] |};
     trace := [] |}.

(** A run of ten accepted reads after a renewal. *)
Definition ten_reads_machine : Machine (Traced Scripted) :=
  sample_machine RequestManager.new_circuit_breaker 1700000000000000
    (renewal_answer :: replicate 10 accepted_answer).


(** ** [src/config/validator.py] *)

(** [bool(v)] *)
Definition py_truthy (v : pyval) : bool :=
  match v with
  | PNone => false
  | PBool b => b
  | PInt n => negb (n =? 0)
  | PFloat f => negb (PrimFloat.eqb f 0%float)
  | PStr s => match s with [] => false | _ => true end
  | PList l => match l with [] => false | _ => true end
  | PDict d => negb (Nat.eqb (size d) 0)
  end.

(** [v == s] for a string literal [s] *)
Definition py_eq_str (v : pyval) (s : pystr) : bool :=
  match v with
  | PStr x => bool_decide (x = s)
  | _ => false
  end.

(** [v in l] for a list [l] of string literals *)
Definition py_in_strs (v : pyval) (l : list pystr) : bool :=
  existsb (py_eq_str v) l.

(** [d.get(key)] *)
Definition dict_get (d : pydict) (key : pystr) : pyval := default PNone (d !! key).

(** What a validation rule does with a value: it returns the validated
    value, raises [ValidationError], or raises something else. *)
Inductive rule_result :=
| Valid (v : pyval)
| Invalid
| Crash.

(** The messages of [_validate_dependencies]. *)
Inductive dependency_error :=
| MissingPushplusToken          (* "使用pushplus推送时必须提供PUSHPLUS_TOKEN" *)
| MissingTelegramBotToken       (* "使用telegram推送时必须提供TELEGRAM_BOT_TOKEN" *)
| MissingTelegramChatId         (* "使用telegram推送时必须提供TELEGRAM_CHAT_ID" *)
| MissingWxpusherSpt.           (* "使用wxpusher推送时必须提供WXPUSHER_SPT" *)

(** The outcome of [validate_config]: the validated config, the
    [ConfigError] with the keys that failed their rule and the dependency
    errors, or the exception of a rule that raised something else than a
    [ValidationError]. *)
Inductive config_result :=
| Validated (validated_config : pydict)
| ConfigError (invalid : gset pystr) (dependency_errors : list dependency_error)
| RuleException.

Module ConfigValidator.

Definition valid_methods : list pystr :=
  [py "pushplus"; py "telegram"; py "wxpusher"].

(** [_validate_push_method] *)
Definition _validate_push_method (value : pyval) : rule_result :=
  if negb (py_truthy value) || py_eq_str value [] then Valid PNone
  else if negb (py_in_strs value valid_methods) then Invalid
  else Valid value.

(** [_validate_dependencies] *)
Definition _validate_dependencies (config : pydict) : list dependency_error :=
  let push_method := dict_get config (py "PUSH_METHOD") in
  if py_truthy push_method then
    if py_eq_str push_method (py "pushplus") then
      (if negb (py_truthy (dict_get config (py "PUSHPLUS_TOKEN")))
       then [MissingPushplusToken] else [])
    else if py_eq_str push_method (py "telegram") then
      (if negb (py_truthy (dict_get config (py "TELEGRAM_BOT_TOKEN")))
       then [MissingTelegramBotToken] else []) ++
      (if negb (py_truthy (dict_get config (py "TELEGRAM_CHAT_ID")))
       then [MissingTelegramChatId] else [])
    else if py_eq_str push_method (py "wxpusher") then
      (if negb (py_truthy (dict_get config (py "WXPUSHER_SPT")))
       then [MissingWxpusherSpt] else [])
    else []
  else [].

Section validate_config.
(** [self.validation_rules] *)
Variable validation_rules : gmap pystr (pyval -> rule_result).

(** One turn of [for key, value in config.items()]. *)
Definition check_item (key : pystr) (value : pyval) : rule_result :=
  match validation_rules !! key with
  | Some rule => rule value
  | None => Valid value
  end.

Definition is_crash (r : rule_result) : bool :=
  match r with Crash => true | _ => false end.
Definition is_invalid (r : rule_result) : bool :=
  match r with Invalid => true | _ => false end.
Definition valid_value (r : rule_result) : option pyval :=
  match r with Valid v => Some v | _ => None end.

(** [validate_config] *)
Definition validate_config (config : pydict) : config_result :=
  let checked : gmap pystr rule_result :=
    map_imap (fun key value => Some (check_item key value)) config in
  if existsb is_crash (map_to_list checked).*2 then RuleException
  else
    let validated_config := omap valid_value checked in
    let invalid := dom (filter (fun kr => Is_true (is_invalid kr.2)) checked) in
    let dependency_errors := _validate_dependencies validated_config in
    if bool_decide (invalid = ∅) && bool_decide (dependency_errors = [])
    then Validated validated_config
    else ConfigError invalid dependency_errors.
End validate_config.

End ConfigValidator.

(** ** [src/notifications/manager.py] and the pushers' [__init__] *)

(** A pusher object, by its class and the fields [__init__] sets. *)
Inductive pusher :=
| PushPlusPusher (token : pyval)
| TelegramPusher (bot_token chat_id http_proxy https_proxy : pyval)
| WxPusherPusher (spt : pyval).

(** What a constructor does: it returns the object or raises. *)
Inductive created (A : Type) :=
| Created (a : A)
| RaisedPushError
| RaisedConfigError
| RaisedTypeError.
Arguments Created {A} a.
Arguments RaisedPushError {A}.
Arguments RaisedConfigError {A}.
Arguments RaisedTypeError {A}.

(** [PushPlusPusher.__init__] *)
Definition PushPlusPusher_init (config : pydict) : created pusher :=
  let token := dict_get config (py "token") in
  if negb (py_truthy token) then RaisedPushError
  else Created (PushPlusPusher token).

(** [TelegramPusher.__init__] *)
Definition TelegramPusher_init (config : pydict) : created pusher :=
  let bot_token := dict_get config (py "bot_token") in
  let chat_id := dict_get config (py "chat_id") in
  let http_proxy := dict_get config (py "http_proxy") in
  let https_proxy := dict_get config (py "https_proxy") in
  if negb (py_truthy bot_token) then RaisedPushError
  else if negb (py_truthy chat_id) then RaisedPushError
  else Created (TelegramPusher bot_token chat_id http_proxy https_proxy).

(** [WxPusherPusher.__init__] *)
Definition WxPusherPusher_init (config : pydict) : created pusher :=
  let spt := dict_get config (py "spt") in
  if negb (py_truthy spt) then RaisedPushError
  else Created (WxPusherPusher spt).

(** A [NotificationManager], by [self.method] and [self.pusher]. *)
Record notification_manager := {
  method : pyval;
  the_pusher : option pusher;
}.

Module NotificationFactory.

(** [PUSHER_MAP] *)
Definition PUSHER_MAP : gmap pystr (pydict -> created pusher) :=
  {[ py "pushplus" := PushPlusPusher_init;
     py "telegram" := TelegramPusher_init;
     py "wxpusher" := WxPusherPusher_init ]}.

(** [key in PUSHER_MAP]: [None] is the [TypeError] of a key that cannot
    be hashed. *)
Definition in_PUSHER_MAP (key : pyval) : option bool :=
  match key with
  | PStr s => Some (bool_decide (is_Some (PUSHER_MAP !! s)))
  | PList _ | PDict _ => None
  | _ => Some false
  end.

(** [_initialize_pusher], for a manager whose [pusher] is still [None]:
    the pusher it sets. *)
Definition _initialize_pusher (method : pyval) (config : pydict)
  : created (option pusher) :=
  if negb (py_truthy method) then Created None
  else
    match in_PUSHER_MAP method with
    | None => RaisedTypeError
    | Some false => RaisedConfigError
    | Some true =>
        match method with
        | PStr s =>
            match PUSHER_MAP !! s with
            | Some pusher_class =>
                match pusher_class config with
                | Created p => Created (Some p)
                | _ => RaisedConfigError
                end
            | None => RaisedConfigError
            end
        | _ => RaisedConfigError
        end
    end.

(** [__init__] *)
Definition init (config : pydict) : created notification_manager :=
  let method := dict_get config (py "method") in
  if py_truthy method then
    match _initialize_pusher method config with
    | Created p => Created {| method := method; the_pusher := p |}
    | RaisedPushError => RaisedPushError
    | RaisedConfigError => RaisedConfigError
    | RaisedTypeError => RaisedTypeError
    end
  else Created {| method := method; the_pusher := None |}.

(** [create_from_config] *)
Definition create_from_config (config : pydict) : created notification_manager :=
  let method := dict_get config (py "PUSH_METHOD") in
  let push_config : pydict :=
    if py_truthy method then
      let push_config : pydict := {[ py "method" := method ]} in
      if py_eq_str method (py "pushplus") then
        <[py "token" := dict_get config (py "PUSHPLUS_TOKEN")]> push_config
      else if py_eq_str method (py "telegram") then
        <[py "https_proxy" := dict_get config (py "https_proxy")]>
          (<[py "http_proxy" := dict_get config (py "http_proxy")]>
             (<[py "chat_id" := dict_get config (py "TELEGRAM_CHAT_ID")]>
                (<[py "bot_token" := dict_get config (py "TELEGRAM_BOT_TOKEN")]>
                   push_config)))
      else if py_eq_str method (py "wxpusher") then
        <[py "spt" := dict_get config (py "WXPUSHER_SPT")]> push_config
      else push_config
    else ∅ in
  init push_config.

(** [is_enabled] *)
Definition is_enabled (self : notification_manager) : bool :=
  py_truthy (method self) && bool_decide (is_Some (the_pusher self)).

End NotificationFactory.


(** ** [src/config/manager.py] *)

Module ConfigManager.

(** [_get_default_config] *)
Definition _get_default_config : pydict :=
  list_to_map
    [ (py "READ_NUM", PInt 40);
      (py "PUSH_METHOD", PNone);
      (py "PUSHPLUS_TOKEN", PNone);
      (py "TELEGRAM_BOT_TOKEN", PNone);
      (py "TELEGRAM_CHAT_ID", PNone);
      (py "WXPUSHER_SPT", PNone);
      (py "http_proxy", PNone);
      (py "https_proxy", PNone);
      (py "WXREAD_CURL_BASH", PNone);
      (py "LOG_LEVEL", PStr (py "INFO"));
      (py "LOG_DIR", PStr (py "logs"));
      (py "REQUEST_TIMEOUT", PInt 30);
      (py "MAX_RETRIES", PInt 3);
      (py "RETRY_DELAY", PFloat 1%float);
      (py "CIRCUIT_BREAKER_THRESHOLD", PInt 5);
      (py "CIRCUIT_BREAKER_TIMEOUT", PInt 60) ].

(** [_load_config], given what [_load_config_file] (the empty dict when
    there is no file) and [_load_env_config] return: the defaults, updated
    with the file's entries, then with the environment's, then validated. *)
Definition _load_config (validation_rules : gmap pystr (pyval -> rule_result))
    (file_config env_config : pydict) : config_result :=
  let _config := env_config ∪ (file_config ∪ _get_default_config) in
  ConfigValidator.validate_config validation_rules _config.

(** [get(key, default)] *)
Definition get (_config : pydict) (key : pystr) (default : pyval) : pyval :=
  match _config !! key with
  | Some value => value
  | None => default
  end.

(** The [timeout] of [get_request_config], which [RequestManager.__init__]
    reads back with [config.get('timeout', 30)]. *)
Definition request_timeout (_config : pydict) : pyval :=
  get _config (py "REQUEST_TIMEOUT") (PInt 30).

End ConfigManager.

(** ** [WxReadBot.__init__] and [main.py] *)

Module WxReadBotInit.

(** [_get_default_headers] *)
Definition _get_default_headers : gmap pystr pystr :=
  {[ py "accept" := py "application/json, text/plain, */*";
     py "accept-language" := py "zh-CN,zh;q=0.9,en;q=0.8";
     py "content-type" := py "application/json";
     py "user-agent" :=
       py "Mozilla/5.0 (Windows NT 10.0; Win64; x64) AppleWebKit/537.36 (KHTML, like Gecko) Chrome/131.0.0.0 Safari/537.36" ]}.

(** [_get_default_cookies] *)
Definition _get_default_cookies : gmap pystr pystr :=
  {[ py "RK" := py "oxEY1bTnXf";
     py "ptcz" := py "53e3b35a9486dd63c4d06430b05aa169402117fc407dc5cc9329b41e59f62e2b";
     py "pac_uid" := py "0_e63870bcecc18";
     py "iip" := py "0" ]}.

(** [_parse_curl_bash] *)
Definition _parse_curl_bash (curl_bash : pyval)
  : gmap pystr pystr * gmap pystr pystr :=
  (_get_default_headers, _get_default_cookies).

(** [self.base_data]; the value of [sm] is given by its code points. *)
Definition base_data_template : pydict :=
  {[ py "appId" := PStr (py "wb182564874603h266381671");
     py "b" := PStr (py "ce032b305a9bc1ce0b0dd2a");
     py "c" := PStr (py "7f632b502707f6ffaa6bf2e");
     py "ci" := PInt 27;
     py "co" := PInt 389;
     py "sm" := PStr [49; 57; 32858; 20250; 12298; 19977; 20307; 12299; 32593;
                      21451; 30340; 32858; 20250; 22320; 28857; 26159; 19968;
                      22788; 20731; 38745];
     py "pr" := PInt 74;
     py "rt" := PInt 15;
     py "ps" := PStr (py "4ee326507a65a465g015fae");
     py "pc" := PStr (py "aab32e207a65a466g010615") ]}.

Definition default_book_ids : list pystr :=
  [py "36d322f07186022636daa5e"; py "6f932ec05dd9eb6f96f14b9";
   py "43f3229071984b9343f04a4"; py "d7732ea0813ab7d58g0184b8";
   py "3d03298058a9443d052d409"; py "4fc328a0729350754fc56d4";
   py "a743220058a92aa746632c0"; py "140329d0716ce81f140468e";
   py "1d9321c0718ff5e11d9afe8"; py "ff132750727dc0f6ff1f7b5";
   py "e8532a40719c4eb7e851cbe"; py "9b13257072562b5c9b1c8d6"].

Definition default_chapter_ids : list pystr :=
  [py "ecc32f3013eccbc87e4b62e"; py "a87322c014a87ff679a21ea";
   py "e4d32d5015e4da3b7fbb1fa"; py "16732dc0161679091c5aeb1";
   py "8f132430178f14e45fce0f7"; py "c9f326d018c9f0f895fb5e4";
   py "45c322601945c48cce2e120"; py "d3d322001ad3d9446802347";
   py "65132ca01b6512bd43d90e3"; py "c20321001cc20ad4d76f5ae";
   py "c51323901dc51ce410c121b"; py "aab325601eaab3238922e53";
   py "9bf32f301f9bf31c7ff0a60"; py "c7432af0210c74d97b01b1c";
   py "70e32fb021170efdf2eca12"; py "6f4322302126f4922f45dec"].

(** The headers and the cookies [_initialize_data] sets. *)
Definition _initialize_data (config : pydict)
  : gmap pystr pystr * gmap pystr pystr :=
  let curl_bash := ConfigManager.get config (py "WXREAD_CURL_BASH") PNone in
  if py_truthy curl_bash then _parse_curl_bash curl_bash
  else (_get_default_headers, _get_default_cookies).

(** A configuration value used as an [int]. *)
Definition as_int (v : pyval) : option Z :=
  match v with
  | PInt n => Some n
  | _ => None
  end.

(** [__init__]: the bot with the cookies and the base payload it starts
    from, or the exception of [NotificationManager.create_from_config].
    The result is [None] when [READ_NUM] or the request timeout is not an
    [int]: the record of a bot has no place for them. *)
Definition init (config : pydict)
  : option (created (WxReadBot * gmap pystr pystr * pydict)) :=
  match NotificationFactory.create_from_config config with
  | Created notification =>
      timeout ← as_int (ConfigManager.request_timeout config);
      read_num ← as_int (ConfigManager.get config (py "READ_NUM") (PInt 40));
      let '(headers, cookies) := _initialize_data config in
      Some (Created
              ({| read_num := read_num;
                  headers := headers;
                  base_data := 0%nat;
                  book_ids := default_book_ids;
                  chapter_ids := default_chapter_ids;
                  timeout := timeout;
                  notification_enabled :=
                    NotificationFactory.is_enabled notification |},
               cookies, base_data_template))
  | RaisedPushError => Some RaisedPushError
  | RaisedConfigError => Some RaisedConfigError
  | RaisedTypeError => Some RaisedTypeError
  end.

Section main.
Context {St : Type} `{Host St}.
(** [ConfigValidator().validation_rules] *)
Variable validation_rules : gmap pystr (pyval -> rule_result).

(** [main_new_version] without [--test-push]: the exit code. A
    [ConfigError], a [WxReadError] and any other [Exception] give 1; the
    [finally: bot.close()] closes the HTTP session, which is no part of
    the host's state. *)
Definition main_new_version (file_config env_config : pydict)
  : St -> option Z * St :=
  fun s =>
    match ConfigManager._load_config validation_rules file_config env_config with
    | Validated config =>
        match init config with
        | Some (Created (bot, cookies, base)) =>
            let m := {| host := s; heap := {[ base_data bot := base ]};
                        cookies := cookies;
                        circuit_breaker := RequestManager.new_circuit_breaker |} in
            match Bot.start_reading bot m with
            | (Ret result, m') => (Some 0, host m')
            | (Raise e, m') => (Some 1, host m')
            end
        | Some _ => (Some 1, s)
        | None => (None, s)
        end
    | _ => (Some 1, s)
    end.
End main.

End WxReadBotInit.

(** ** A sample configuration *)

(** A rule table with the rule of [PUSH_METHOD]; a key without a rule is
    copied as it is. *)
Definition sample_rules : gmap pystr (pyval -> rule_result) :=
  {[ py "PUSH_METHOD" := ConfigValidator._validate_push_method ]}.

(** An environment that asks for two reads and for PushPlus. *)
Definition sample_env : pydict :=
  {[ py "READ_NUM" := PInt 2;
     py "PUSH_METHOD" := PStr (py "pushplus");
     py "PUSHPLUS_TOKEN" := PStr (py "0123456789abcdef") ]}.

(** A server that renews the session and accepts two reads. *)
Definition sample_start : Traced Scripted :=
  {| inner := {| clock := 1700000000000000;
                 answers := [renewal_answer; accepted_answer; accepted_answer] |};
     trace := [] |}.

(** ** Repeated calls, a dead network *)

(** [n] runs of [c] in a row, by a caller that goes on whatever each run
    returned or raised. *)
Fixpoint run_times {St A} (n : nat) (c : IO St A) (s : St) : St :=
  match n with
  | O => s
  | S n' => run_times n' c (c s).2
  end.

(** A call through a breaker, as a computation on the breaker and the
    host. *)
Definition breaker_call {St} `{Host St} {V} (func : IO St V)
  : IO (CircuitBreaker * St) V :=
  fun bs =>
    let '((r, cb), s') :=
      CircuitBreakerImpl._call_with_circuit_breaker bs.1 func bs.2 in
    (r, (cb, s')).

(** A host whose network is down: every post ends in a connection error
    and the notifier fails. *)
Record Offline := { offline_clock : Z }.

#[global] Instance offline_host : Host Offline := {
  datetime_now s := offline_clock s;
  time_time s := offline_clock s / 1000000;
  random_randint a b s := (a, s);
  random_random s := (0%float, s);
  random_choice l s := (List.hd [] l, s);
  time_sleep d s := {| offline_clock := offline_clock s + duration_micros d |};
  session_post r s := (HttpConnectionError, s);
  pusher_send_message n s := (Raise PushError, s);
  sha256_hexdigest x := x;
  url_quote x := x;
  py_repr v := [];
  float_pow b n := 1%float;
}.

(** The tripped breaker after a probe, made once its cooldown had
    elapsed, that raised a [TypeError]. *)
Definition probe_error : IO Scripted pyval := raise TypeError.
Definition stuck_breaker : CircuitBreaker :=
  (CircuitBreakerImpl._call_with_circuit_breaker tripped_breaker probe_error
     {| clock := 61000000; answers := [] |}).1.2.

(** A machine of the sample bot on the dead network. *)
Definition offline_machine : Machine (Traced Offline) :=
  {| host := {| inner := {| offline_clock := 1700000000000000 |}; trace := [] |};
     heap := {[ 0%nat := sample_base ]};
     cookies := {[ py "RK" := py "oxEY1bTnXf" ]};
     circuit_breaker := RequestManager.new_circuit_breaker |}.

(** A retry callback that fails. *)
Definition raising_callback : Z -> exn -> float -> IO Scripted unit :=
  fun _ _ _ => raise KeyError.

(** A server that does not answer the renewal in time. *)
Definition timeout_machine : Machine (Traced Scripted) :=
  sample_machine RequestManager.new_circuit_breaker 1700000000000000 [HttpTimeout].

(** The sample bot with a push method configured. *)
Definition notifying_bot : WxReadBot :=
  {| read_num := 10;
     headers := headers (sample_bot 10);
     base_data := base_data (sample_bot 10);
     book_ids := book_ids (sample_bot 10);
     chapter_ids := chapter_ids (sample_bot 10);
     timeout := timeout (sample_bot 10);
     notification_enabled := true |}.

(** The notice of a renewal that raised. *)
Definition renewal_notice : notice :=
  ErrorNotice (RefreshRaised (NetworkError RenewFailed)).

(** * Proofs *)

(** ** The custom hash *)

Section hash_proofs.
Import CryptoUtils HashSpec.

Lemma py_index_in_range (s : pystr) (i : Z) :
  0 ≤ i < Z.of_nat (length s) → py_index s i = Some (code s i).
Proof.
  intros Hi. unfold py_index, code.
  replace ((0 <=? i) && (i <? Z.of_nat (length s))) with true
    by (symmetry; apply andb_true_intro; split; [apply Z.leb_le|apply Z.ltb_lt]; lia).
  rewrite nth_lookup.
  destruct (s !! Z.to_nat i) as [c|] eqn:E; [done|].
  apply lookup_ge_None in E. lia.
Qed.

Lemma land_mask_bounds (a : Z) : 0 ≤ Z.land a 0x7fffffff < 2 ^ 31.
Proof.
  change 0x7fffffff with (Z.ones 31).
  rewrite Z.land_ones by lia. apply Z.mod_pos_bound. lia.
Qed.

Lemma hash_loop_fold (fuel : nat) (s : pystr) (h1 h2 i : Z) :
  i < Z.of_nat (length s) → (Z.to_nat i ≤ fuel)%nat →
  hash_loop fuel s (Z.of_nat (length s)) h1 h2 i
  = Some (fold_left (step s (Z.of_nat (length s))) (down_from fuel i) (h1, h2)).
Proof.
  revert h1 h2 i. induction fuel as [|fuel IH]; intros h1 h2 i Hlt Hfuel.
  - simpl. destruct (0 <? i) eqn:E; [apply Z.ltb_lt in E; lia|done].
  - simpl. destruct (0 <? i) eqn:E; [|done].
    apply Z.ltb_lt in E.
    rewrite !py_index_in_range by lia. simpl.
    rewrite IH by lia. unfold step at 2. simpl.
    rewrite (Z.land_comm 0x7fffffff), (Z.land_comm 0x7fffffff). done.
Qed.

Lemma down_from_nonpos (n : nat) (i : Z) : i ≤ 0 → down_from n i = [].
Proof.
  intros Hi. destruct n; [done|]. simpl.
  destruct (0 <? i) eqn:E; [apply Z.ltb_lt in E; lia|done].
Qed.

Lemma filter_indices_down_from (n : nat) (i : Z) :
  filter (fun j => 1 ≤ j) (map (fun k => i - 2 * Z.of_nat k) (seq 0 n))
  = down_from n i.
Proof.
  revert i. induction n as [|n IH]; intros i; [done|].
  cbn [seq map down_from]. rewrite <- seq_shift, map_map.
  rewrite (map_ext _ (fun k => (i - 2) - 2 * Z.of_nat k)) by (intros; lia).
  replace (i - 2 * Z.of_nat 0) with i by lia.
  destruct (0 <? i) eqn:E.
  - apply Z.ltb_lt in E. rewrite filter_cons_True by lia. by rewrite IH.
  - apply Z.ltb_ge in E. rewrite filter_cons_False by lia.
    rewrite IH. apply down_from_nonpos. lia.
Qed.

Lemma indices_down_from (L : Z) : indices L = down_from (Z.to_nat L) (L - 1).
Proof.
  unfold indices. by rewrite <- filter_indices_down_from.
Qed.

Lemma py_lower_hex_codes d : py_lower (hex_codes d) = hex_codes d.
Proof. unfold py_lower. induction d; simpl; f_equal; done. Qed.

Lemma fold_step_bounds (s : pystr) (L : Z) (l : list Z) (h : Z * Z) :
  0 ≤ h.1 < 2 ^ 31 → 0 ≤ h.2 < 2 ^ 31 →
  0 ≤ (fold_left (step s L) l h).1 < 2 ^ 31 ∧
  0 ≤ (fold_left (step s L) l h).2 < 2 ^ 31.
Proof.
  revert h. induction l as [|i l IH]; intros h H1 H2; [done|].
  simpl. apply IH; unfold step; simpl; apply land_mask_bounds.
Qed.

Lemma accumulators_bounds (s : pystr) :
  0 ≤ (accumulators s).1 < 2 ^ 31 ∧ 0 ≤ (accumulators s).2 < 2 ^ 31.
Proof. apply fold_step_bounds; unfold seed; simpl; lia. Qed.

Lemma calculate_hash_refines (s : pystr) :
  calculate_hash s = Some (spec_hash s).
Proof.
  unfold calculate_hash.
  rewrite hash_loop_fold by lia.
  rewrite <- (Nat2Z.id (length s)) at 2.
  rewrite <- indices_down_from. simpl.
  pose proof (accumulators_bounds s) as [Hb1 Hb2].
  unfold spec_hash, accumulators in *.
  destruct (fold_left _ _ _) as [h1 h2]; simpl in *.
  unfold py_hex, lower_hex.
  replace (h1 + h2 <? 0) with false by (symmetry; apply Z.ltb_ge; lia).
  change (drop 2 (py "0x" ++ ?x)) with x.
  by rewrite py_lower_hex_codes.
Qed.
End hash_proofs.

(** ** Hexadecimal output *)

Section hex_proofs.
Import HashSpec.

(** The fold of [hex_value], named. *)
Let hex_step (acc : option Z) (c : Z) : option Z :=
  match acc, hex_digit_value c with
  | Some v, Some d => Some (16 * v + d)
  | _, _ => None
  end.

Lemma hex_value_acc (d : Hexadecimal.uint) (acc : positive) :
  foldl hex_step (Some (Z.pos acc)) (hex_codes d)
  = Some (Z.pos (Pos.of_hex_uint_acc d acc)).
Proof.
  revert acc. induction d; intros acc; simpl; [done|..];
    rewrite <- IHd; unfold hex_step at 2; simpl; do 2 f_equal; lia.
Qed.

Lemma hex_value_codes (d : Hexadecimal.uint) :
  hex_value (hex_codes d) = Some (Z.of_N (N.of_hex_uint d)).
Proof.
  unfold hex_value. fold hex_step.
  induction d; simpl; [done|done|..];
    unfold N.of_hex_uint, Pos.of_hex_uint; simpl;
    rewrite <- hex_value_acc; done.
Qed.

Lemma lower_hex_value (n : Z) : 0 ≤ n → hex_value (lower_hex n) = Some n.
Proof.
  intros Hn. unfold lower_hex.
  rewrite hex_value_codes, HexadecimalN.Unsigned.of_to. f_equal. lia.
Qed.

Lemma lower_hex_digits (n : Z) :
  Forall (fun c => 48 ≤ c ≤ 57 ∨ 97 ≤ c ≤ 102) (lower_hex n).
Proof.
  unfold lower_hex. generalize (N.to_hex_uint (Z.to_N n)).
  induction u; simpl; constructor; (lia || done).
Qed.

Lemma nzhead_no_zero (d : Hexadecimal.uint) :
  match hex_codes (Hexadecimal.nzhead d) with
  | [] => True
  | c :: _ => c ≠ 48
  end.
Proof. induction d; simpl; (done || lia). Qed.

Lemma lower_hex_no_padding (n : Z) :
  lower_hex n = [48] ∨ ∃ c rest, lower_hex n = c :: rest ∧ c ≠ 48.
Proof.
  unfold lower_hex.
  assert (N.to_hex_uint (Z.to_N n)
          = Hexadecimal.unorm (N.to_hex_uint (Z.to_N n))) as ->.
  { rewrite <- HexadecimalN.Unsigned.to_of.
    by rewrite HexadecimalN.Unsigned.of_to. }
  generalize (N.to_hex_uint (Z.to_N n)). intros d.
  unfold Hexadecimal.unorm.
  pose proof (nzhead_no_zero d) as Hd.
  destruct (Hexadecimal.nzhead d); simpl in *;
    [by left | congruence | right; eexists _, _; (split; [reflexivity|lia])..].
Qed.
End hex_proofs.

(** C1. [calculate_hash] returns, for every string, the lowercase
    hexadecimal (all digits in [0-9a-f], no prefix, no padding, reading
    back as the number) of the sum of two accumulators that stay below
    [2^31]; the accumulators are those of the specification: both start at
    [0x15051505] and are updated at the indices [L-1, L-3, ...] down to 1
    with [h1 = (h1 xor (code(i) << ((L-i) mod 30))) & 0x7fffffff] and
    [h2 = (h2 xor (code(i-1) << (i mod 30))) & 0x7fffffff]. For the empty
    string and for every one-character string the result is the
    hexadecimal of [2 * 0x15051505], which is [2a0a2a0a]. *)
Theorem calculate_hash_spec :
  (∀ s : pystr,
     let h1 := (HashSpec.accumulators s).1 in
     let h2 := (HashSpec.accumulators s).2 in
     CryptoUtils.calculate_hash s = Some (HashSpec.lower_hex (h1 + h2)) ∧
     (0 ≤ h1 < 2 ^ 31 ∧ 0 ≤ h2 < 2 ^ 31) ∧
     hex_value (HashSpec.lower_hex (h1 + h2)) = Some (h1 + h2) ∧
     Forall (fun c => 48 ≤ c ≤ 57 ∨ 97 ≤ c ≤ 102) (HashSpec.lower_hex (h1 + h2)) ∧
     (HashSpec.lower_hex (h1 + h2) = [48] ∨
      ∃ c rest, HashSpec.lower_hex (h1 + h2) = c :: rest ∧ c ≠ 48)) ∧
  CryptoUtils.calculate_hash [] = Some (HashSpec.lower_hex (2 * 0x15051505)) ∧
  (∀ c : Z, CryptoUtils.calculate_hash [c]
            = Some (HashSpec.lower_hex (2 * 0x15051505))) ∧
  HashSpec.lower_hex (2 * 0x15051505) = py "2a0a2a0a".
Proof.
  split; [|split; [|split]].
  - intros s h1 h2. pose proof (accumulators_bounds s) as [H1 H2].
    split; [apply calculate_hash_refines|].
    split; [done|].
    split; [apply lower_hex_value; subst h1 h2; lia|].
    split; [apply lower_hex_digits|apply lower_hex_no_padding].
  - reflexivity.
  - intros c. rewrite calculate_hash_refines. reflexivity.
  - reflexivity.
Qed.

(** ** The circuit breaker *)

Section circuit_breaker_proofs.
Import CircuitBreakerImpl.

(** A breaker that is not closed has reached its threshold. *)
Lemma cb_reachable_threshold (self : CircuitBreaker) :
  cb_reachable self →
  state self ≠ CLOSED → failure_threshold self ≤ failure_count self.
Proof.
  induction 1 as [th rt ex|St H V self func s Hr IH|self Hr IH]; simpl; [done| |done].
  unfold _call_with_circuit_breaker.
  destruct (bool_decide (state self = OPEN)) eqn:Eopen.
  - apply bool_decide_eq_true in Eopen.
    assert (failure_threshold self ≤ failure_count self) as Hth
      by (apply IH; congruence).
    destruct (_should_attempt_reset self (datetime_now s)); [|simpl; auto].
    destruct (func s) as [[v|e] s']; simpl; [done|].
    destruct (expected_exception self e); simpl; [|auto].
    destruct (failure_threshold self <=? failure_count self + 1) eqn:E; [|lia].
    intros _. lia.
  - destruct (func s) as [[v|e] s']; simpl; [done|].
    destruct (expected_exception self e); simpl; [|auto].
    destruct (failure_threshold self <=? failure_count self + 1) eqn:E.
    + apply Z.leb_le in E. auto.
    + intros Hs. specialize (IH Hs). apply Z.leb_gt in E. lia.
Qed.

Context {St : Type} `{Host St} {V : Type}.

(** An open breaker whose cooldown has not elapsed rejects the call,
    whatever the wrapped operation is, and touches nothing. *)
Lemma call_open_rejects (self : CircuitBreaker) (func : IO St V) (s : St) (t : Z) :
  state self = OPEN → last_failure_time self = Some t →
  datetime_now s - t < recovery_timeout self * 1000000 →
  _call_with_circuit_breaker self func s = ((Raise CircuitBreakerError, self), s).
Proof.
  intros Hs Ht Hlt. unfold _call_with_circuit_breaker, _should_attempt_reset.
  rewrite Hs, Ht. simpl.
  destruct (Z.leb_spec (recovery_timeout self * 1000000) (datetime_now s - t)); [lia|done].
Qed.

(** A closed breaker lets the call through. *)
Lemma call_closed (self : CircuitBreaker) (func : IO St V) (s : St) :
  state self = CLOSED →
  _call_with_circuit_breaker self func s
  = match func s with
    | (Ret v, s') => ((Ret v, _on_success self), s')
    | (Raise e, s') =>
        if expected_exception self e
        then ((Raise e, _on_failure self (datetime_now s')), s')
        else ((Raise e, self), s')
    end.
Proof. intros Hs. unfold _call_with_circuit_breaker. by rewrite Hs. Qed.

(** An open breaker whose cooldown has elapsed lets the call through as
    a half-open probe. *)
Lemma call_open_probe (self : CircuitBreaker) (func : IO St V) (s : St) (t : Z) :
  state self = OPEN → last_failure_time self = Some t →
  recovery_timeout self * 1000000 ≤ datetime_now s - t →
  _call_with_circuit_breaker self func s
  = match func s with
    | (Ret v, s') => ((Ret v, _on_success (set_state self HALF_OPEN)), s')
    | (Raise e, s') =>
        if expected_exception self e
        then ((Raise e, _on_failure (set_state self HALF_OPEN) (datetime_now s')), s')
        else ((Raise e, set_state self HALF_OPEN), s')
    end.
Proof.
  intros Hs Ht Hge. unfold _call_with_circuit_breaker, _should_attempt_reset.
  rewrite Hs, Ht. simpl.
  by destruct (Z.leb_spec (recovery_timeout self * 1000000) (datetime_now s - t)); [|lia].
Qed.
End circuit_breaker_proofs.

(** C3. The breaker's state machine, for every breaker a program can hold,
    every wrapped operation and every host state. Closed: the call is the
    operation's; a success leaves the counter at zero, a failure of the
    expected exception type adds one to it and stamps the failure time, and
    the state becomes Open exactly when the counter has reached the
    threshold; another exception leaves the breaker as it was. Open with
    the cooldown since the last failure not elapsed: the call raises
    [CircuitBreakerError], whatever the operation, and the host state is
    untouched. Open with the cooldown elapsed: the call goes through as the
    half-open probe; its success closes the breaker with the counter reset,
    its failure (expected type) opens it again and restarts the cooldown at
    the time of that failure. The probe runs with the state set to
    [HALF_OPEN]: when it raises an exception that is not of the expected
    type, the breaker is left half-open, counter and failure time as they
    were. A call that finds the breaker half-open goes through whatever
    the clock says: its success closes the breaker with the counter reset,
    its failure (expected type) opens it, adds one to the counter and
    stamps the failure time, and another exception leaves it half-open. *)
Theorem circuit_breaker_state_machine
    {St : Type} `{Host St} {V : Type}
    (self : CircuitBreaker) (func : IO St V) (s : St) :
  cb_reachable self →
  let out := CircuitBreakerImpl._call_with_circuit_breaker self func s in
  let self' := out.1.2 in
  (state self = CLOSED →
     (out.1.1, out.2) = func s ∧
     (∀ v, (func s).1 = Ret v →
           failure_count self' = 0 ∧ state self' = CLOSED) ∧
     (∀ e, (func s).1 = Raise e → expected_exception self e = true →
           failure_count self' = failure_count self + 1 ∧
           last_failure_time self' = Some (datetime_now (func s).2) ∧
           state self' = (if failure_threshold self <=? failure_count self + 1
                          then OPEN else CLOSED)) ∧
     (∀ e, (func s).1 = Raise e → expected_exception self e = false →
           self' = self)) ∧
  (∀ t, state self = OPEN → last_failure_time self = Some t →
        datetime_now s - t < recovery_timeout self * 1000000 →
        ∀ other : IO St V,
          CircuitBreakerImpl._call_with_circuit_breaker self other s
          = ((Raise CircuitBreakerError, self), s)) ∧
  (∀ t, state self = OPEN → last_failure_time self = Some t →
        recovery_timeout self * 1000000 ≤ datetime_now s - t →
        (out.1.1, out.2) = func s ∧
        (∀ v, (func s).1 = Ret v →
              state self' = CLOSED ∧ failure_count self' = 0) ∧
        (∀ e, (func s).1 = Raise e → expected_exception self e = true →
              state self' = OPEN ∧
              last_failure_time self' = Some (datetime_now (func s).2))) ∧
  (∀ t e, state self = OPEN → last_failure_time self = Some t →
          recovery_timeout self * 1000000 ≤ datetime_now s - t →
          (func s).1 = Raise e → expected_exception self e = false →
          out.1.1 = Raise e ∧
          self' = CircuitBreakerImpl.set_state self HALF_OPEN ∧
          state self' = HALF_OPEN ∧
          failure_count self' = failure_count self ∧
          last_failure_time self' = last_failure_time self) ∧
  (state self = HALF_OPEN →
     (out.1.1, out.2) = func s ∧
     (∀ v, (func s).1 = Ret v →
           state self' = CLOSED ∧ failure_count self' = 0) ∧
     (∀ e, (func s).1 = Raise e → expected_exception self e = true →
           state self' = OPEN ∧
           failure_count self' = failure_count self + 1 ∧
           last_failure_time self' = Some (datetime_now (func s).2)) ∧
     (∀ e, (func s).1 = Raise e → expected_exception self e = false →
           self' = self ∧ state self' = HALF_OPEN)).
Proof.
  intros Hreach out self'. split; [|split; [|split; [|split]]].
  - intros Hs. subst self' out. rewrite call_closed by done.
    destruct (func s) as [[v|e] s'] eqn:E; simpl.
    + repeat split; try done; intros ? [=].
    + destruct (expected_exception self e) eqn:Eexp; simpl.
      * split; [done|]. split; [intros ? [=]|].
        split; [|intros ? [= <-]; congruence].
        intros ? [= <-] _. rewrite Hs. done.
      * split; [done|]. split; [intros ? [=]|].
        split; [intros ? [= <-]; congruence|done].
  - intros t Hs Ht Hlt other. by eapply call_open_rejects.
  - intros t Hs Ht Hge. subst self' out.
    rewrite (call_open_probe self func s t) by done.
    pose proof (cb_reachable_threshold self Hreach) as Hth.
    destruct (func s) as [[v|e] s'] eqn:E; simpl.
    + repeat split; try done; intros ? [=].
    + destruct (expected_exception self e) eqn:Eexp; simpl.
      * split; [done|]. split; [intros ? [=]|].
        intros ? [= <-] _.
        destruct (Z.leb_spec (failure_threshold self) (failure_count self + 1));
          [done|]. assert (state self ≠ CLOSED) as Hne by congruence.
        specialize (Hth Hne). lia.
      * split; [done|]. split; [intros ? [=]|]. intros ? [= <-]. congruence.
  - intros t e Hs Ht Hge He Hex. subst self' out.
    rewrite (call_open_probe self func s t) by done.
    destruct (func s) as [r s']. cbn [fst] in He. subst r. by rewrite Hex.
  - intros Hs. subst self' out.
    pose proof (cb_reachable_threshold self Hreach) as Hth.
    unfold CircuitBreakerImpl._call_with_circuit_breaker.
    rewrite bool_decide_eq_false_2 by congruence.
    destruct (func s) as [[v|e] s']; cbn [fst snd].
    + repeat split; try done; intros ? [=].
    + destruct (expected_exception self e) eqn:Hex; cbn [fst snd].
      * split; [done|]. split; [intros ? [=]|].
        split; [|intros ? [= <-]; congruence].
        intros ? _ _. cbn.
        destruct (Z.leb_spec (failure_threshold self) (failure_count self + 1));
          [done|].
        assert (state self ≠ CLOSED) as Hne by congruence.
        specialize (Hth Hne). lia.
      * split; [done|]. split; [intros ? [=]|].
        split; [intros ? [= <-]; congruence|done].
Qed.

(** ** The retry decorator *)

Section retry_proofs.
Context {St : Type} `{Host St} {V : Type}.
Variables (max_attempts : Z) (base_delay max_delay backoff_factor : float)
          (jitter : bool) (exceptions : exn -> bool)
          (on_retry : option (Z -> exn -> float -> IO St unit))
          (func : IO St V).

Local Abbreviation plain_backoff :=
  (backoff base_delay max_delay backoff_factor jitter on_retry).
Local Abbreviation traced_backoff :=
  (backoff (St := Traced St) base_delay max_delay backoff_factor jitter
     (untraced_callback on_retry)).
Local Abbreviation traced_loop :=
  (retry_loop (St := Traced St) max_attempts base_delay max_delay
     backoff_factor jitter exceptions (untraced_callback on_retry)
     (traced_call func)).

Lemma calls_app (tr1 tr2 : list event) : calls (tr1 ++ tr2) = (calls tr1 + calls tr2)%nat.
Proof. unfold calls, count_events. by rewrite filter_app, length_app. Qed.

Lemma calls_backoff_sleeps (tr : list event) :
  Forall (fun ev => is_backoff_sleep ev = true) tr → calls tr = 0%nat.
Proof.
  induction 1 as [|ev tr Hev _ IH]; [done|].
  unfold calls, count_events in *. destruct ev as [|? ?|[?|?]|?]; try done.
Qed.

(** The backoff on the traced host is the plain one, with at most a
    backoff sleep recorded. *)
Lemma backoff_traced (a : Z) (e : exn) (t : Traced St) :
  ∃ tr', traced_backoff a e t
         = ((plain_backoff a e (inner t)).1,
            {| inner := (plain_backoff a e (inner t)).2;
               trace := tr' ++ trace t |}) ∧
         Forall (fun ev => is_backoff_sleep ev = true) tr'.
Proof.
  unfold backoff, mbind, io_bind, bind, mret, io_ret, ret, total, effect.
  destruct jitter; simpl.
  - destruct (random_random (inner t)) as [r s1]; simpl.
    destruct on_retry as [callback|]; simpl.
    + unfold untraced; simpl.
      destruct (callback _ _ _ s1) as [[[]|e'] s2]; simpl.
      * eexists [_]. split; [done|]. by repeat constructor.
      * by exists [].
    + eexists [_]. split; [done|]. by repeat constructor.
  - destruct on_retry as [callback|]; simpl.
    + unfold untraced; simpl.
      destruct (callback _ _ _ (inner t)) as [[[]|e'] s2]; simpl.
      * eexists [_]. split; [done|]. by repeat constructor.
      * exists []. by destruct t.
    + eexists [_]. split; [done|]. by repeat constructor.
Qed.

(** The attempt that ends the loop: a success, a failure that is not
    retryable, or a retryable failure of the last attempt. *)
Lemma traced_loop_final (a : Z) (rest : list Z) (last : option exn)
    (t : Traced St) (r : res V) (s2 : St) :
  func (inner t) = (r, s2) →
  match r with
  | Ret _ => True
  | Raise e => exceptions e = false ∨ a = max_attempts - 1
  end →
  traced_loop (a :: rest) last t = (r, record_event EvCall s2 t).
Proof.
  intros Hf Hfinal. simpl. unfold try_except, traced_call. rewrite Hf.
  destruct r as [v|e]; [done|].
  destruct (exceptions e) eqn:Eexc; [|done].
  destruct Hfinal as [?| ->]; [done|]. by rewrite Z.eqb_refl.
Qed.

(** A retryable failure of an attempt that is not the last: one more
    invocation, then the rest of the loop. *)
Lemma traced_loop_retry (a : Z) (rest : list Z) (last : option exn)
    (t : Traced St) (e : exn) (s1 s2 : St) :
  func (inner t) = (Raise e, s1) → exceptions e = true →
  a ≠ max_attempts - 1 → plain_backoff a e s1 = (Ret tt, s2) →
  ∃ t2, traced_loop (a :: rest) last t = traced_loop rest (Some e) t2 ∧
        inner t2 = s2 ∧ calls (trace t2) = S (calls (trace t)).
Proof.
  intros Hf Hexc Hne Hb. simpl. unfold try_except, traced_call at 1. rewrite Hf, Hexc.
  destruct (Z.eqb_spec a (max_attempts - 1)); [done|].
  destruct (backoff_traced a e (record_event EvCall s1 t)) as (tr' & Htb & Hsl).
  simpl in Htb. rewrite Hb in Htb. simpl in Htb.
  unfold mbind, io_bind, bind. rewrite Htb.
  eexists. split; [done|]. split; [done|]. simpl.
  rewrite calls_app, (calls_backoff_sleeps _ Hsl). done.
Qed.

Lemma range_from_S (a : Z) (n : nat) :
  range_from a (S n) = a :: range_from (a + 1) n.
Proof.
  unfold range_from. cbn [seq map]. rewrite <- seq_shift, map_map.
  f_equal; [lia|]. apply map_ext. intros; lia.
Qed.

(** The failing attempts are replayed on the traced host invocation by
    invocation. *)
Lemma traced_loop_prefix (k : nat) (a : Z) (s s3 : St) :
  fails_first base_delay max_delay backoff_factor jitter exceptions on_retry
    func k a s s3 →
  ∀ (n : nat) (last : option exn) (t : Traced St),
    inner t = s → a + Z.of_nat k < max_attempts →
    ∃ t3 last',
      inner t3 = s3 ∧ calls (trace t3) = (calls (trace t) + k)%nat ∧
      traced_loop (range_from a (k + n)) last t
      = traced_loop (range_from (a + Z.of_nat k) n) last' t3.
Proof.
  induction 1 as [a s|k a s e s1 s2 s3 Hf Hexc Hb Hrest IH];
    intros n last t Ht Hlt.
  - exists t, last. rewrite Z.add_0_r, Nat.add_0_r. done.
  - subst s. cbn [Nat.add]. rewrite range_from_S.
    destruct (traced_loop_retry a (range_from (a + 1) (k + n)) last t e s1 s2)
      as (t2 & Hstep & Hin & Hcalls); [done|done|lia|done|].
    destruct (IH n (Some e) t2 Hin) as (t3 & last' & Hin3 & Hcalls3 & Hloop); [lia|].
    exists t3, last'. split; [done|]. split; [lia|].
    rewrite Hstep, Hloop. do 2 f_equal. lia.
Qed.

Lemma py_range_range_from (n : Z) : py_range n = range_from 0 (Z.to_nat n).
Proof. unfold py_range, range_from. apply map_ext. intros; lia. Qed.

(** After [k] retryable failures, the invocation that ends the loop
    decides the wrapper's outcome, and it was the [k+1]-th. *)
Lemma retry_traced (k : nat) (t : Traced St) (s1 s2 : St) (r : res V) :
  fails_first base_delay max_delay backoff_factor jitter exceptions on_retry
    func k 0 (inner t) s1 →
  Z.of_nat k < max_attempts →
  func s1 = (r, s2) →
  match r with
  | Ret _ => True
  | Raise e => exceptions e = false ∨ Z.of_nat k = max_attempts - 1
  end →
  ∃ t',
    retry_with_backoff (St := Traced St) max_attempts base_delay max_delay
      backoff_factor jitter exceptions (untraced_callback on_retry)
      (traced_call func) t = (r, t') ∧
    inner t' = s2 ∧ calls (trace t') = (calls (trace t) + k + 1)%nat.
Proof.
  intros Hpre Hlt Hf Hfinal. unfold retry_with_backoff.
  rewrite py_range_range_from.
  replace (Z.to_nat max_attempts) with (k + S (Z.to_nat max_attempts - k - 1))%nat by lia.
  destruct (traced_loop_prefix k 0 (inner t) s1 Hpre
              (S (Z.to_nat max_attempts - k - 1)) None t)
    as (t3 & last' & Hin3 & Hcalls3 & Hloop); [done|lia|].
  rewrite Hloop, range_from_S. subst s1.
  rewrite (traced_loop_final _ _ _ t3 r s2 Hf).
  - eexists. split; [done|]. split; [done|]. simpl.
    change (EvCall :: trace t3) with ([EvCall] ++ trace t3).
    rewrite calls_app, Hcalls3. simpl. lia.
  - destruct r; [done|]. destruct Hfinal; [by left|right; lia].
Qed.

(** With no attempt allowed the operation is never invoked and the
    [raise last_exception] of the loop's end is a [TypeError]. *)
Lemma retry_no_attempts (s : St) :
  max_attempts ≤ 0 →
  retry_with_backoff max_attempts base_delay max_delay backoff_factor jitter
    exceptions on_retry func s = (Raise TypeError, s).
Proof.
  intros Hle. unfold retry_with_backoff, py_range.
  replace (Z.to_nat max_attempts) with 0%nat by lia. done.
Qed.

(** Without a callback the backoff always completes. *)
Lemma backoff_completes (a : Z) (e : exn) (s : St) :
  on_retry = None → (plain_backoff a e s).1 = Ret tt.
Proof.
  intros ->. unfold backoff, mbind, io_bind, bind, mret, io_ret, ret, total, effect.
  destruct jitter; simpl; [destruct (random_random s)|]; done.
Qed.
End retry_proofs.

(** C4. The retry wrapper, run on any host with the invocations of the
    wrapped operation recorded. If the operation fails [k] times with a
    retryable exception ([k < max_attempts]) and then succeeds, the wrapper
    returns that value and the operation was invoked exactly [k+1] times.
    If every one of the [max_attempts] invocations fails with a retryable
    exception, the wrapper raises the last of these exceptions and the
    operation was invoked exactly [max_attempts] times. If an invocation
    fails with an exception that is not retryable, the wrapper raises it at
    once: that invocation was the last. *)
Theorem retry_with_backoff_contract
    {St : Type} `{Host St} {V : Type}
    (max_attempts : Z) (base_delay max_delay backoff_factor : float)
    (jitter : bool) (exceptions : exn → bool)
    (on_retry : option (Z → exn → float → IO St unit))
    (func : IO St V) (k : nat) (t : Traced St) (s1 : St) :
  fails_first base_delay max_delay backoff_factor jitter exceptions on_retry
    func k 0 (inner t) s1 →
  Z.of_nat k < max_attempts →
  let run :=
    retry_with_backoff (St := Traced St) max_attempts base_delay max_delay
      backoff_factor jitter exceptions (untraced_callback on_retry)
      (traced_call func) t in
  (∀ v s2, func s1 = (Ret v, s2) →
     run.1 = Ret v ∧ inner run.2 = s2 ∧
     calls (trace run.2) = (calls (trace t) + (k + 1))%nat) ∧
  (∀ e s2, func s1 = (Raise e, s2) → exceptions e = true →
     Z.of_nat k = max_attempts - 1 →
     run.1 = Raise e ∧ inner run.2 = s2 ∧
     Z.of_nat (calls (trace run.2)) = Z.of_nat (calls (trace t)) + max_attempts) ∧
  (∀ e s2, func s1 = (Raise e, s2) → exceptions e = false →
     run.1 = Raise e ∧ inner run.2 = s2 ∧
     calls (trace run.2) = (calls (trace t) + (k + 1))%nat).
Proof.
  intros Hpre Hlt run. subst run. split; [|split].
  - intros v s2 Hf.
    destruct (retry_traced max_attempts base_delay max_delay backoff_factor jitter
                exceptions on_retry func k t s1 s2 (Ret v)) as (t' & -> & ? & ?);
      try done. simpl. split; [done|]. split; [done|lia].
  - intros e s2 Hf Hexc Hlast.
    destruct (retry_traced max_attempts base_delay max_delay backoff_factor jitter
                exceptions on_retry func k t s1 s2 (Raise e)) as (t' & -> & ? & ?);
      try done; [by right|]. simpl. split; [done|]. split; [done|lia].
  - intros e s2 Hf Hexc.
    destruct (retry_traced max_attempts base_delay max_delay backoff_factor jitter
                exceptions on_retry func k t s1 s2 (Raise e)) as (t' & -> & ? & ?);
      try done; [by left|]. simpl. split; [done|]. split; [done|lia].
Qed.

(** ** Running monadic code step by step *)

Lemma bind_run {St A B} (c : IO St A) (k : A → IO St B) (s : St) :
  bind c k s = match c s with
               | (Ret a, s') => k a s'
               | (Raise e, s') => (Raise e, s')
               end.
Proof. done. Qed.

Lemma try_except_run {St A} (c : IO St A) (h : exn → IO St A) (s : St) :
  try_except c h s = match c s with
                     | (Ret a, s') => (Ret a, s')
                     | (Raise e, s') => h e s'
                     end.
Proof. done. Qed.

Lemma lift_host_run {St A} (c : IO St A) (s : St) (h : gmap nat pydict)
    (ck : gmap pystr pystr) (cb : CircuitBreaker) :
  lift_host c {| host := s; heap := h; cookies := ck; circuit_breaker := cb |}
  = ((c s).1, {| host := (c s).2; heap := h; cookies := ck; circuit_breaker := cb |}).
Proof. unfold lift_host, set_host. simpl. by destruct (c s). Qed.

Lemma lift_total_run {St A} (f : St → A * St) (s : St) (h : gmap nat pydict)
    (ck : gmap pystr pystr) (cb : CircuitBreaker) :
  lift_host (total f) {| host := s; heap := h; cookies := ck; circuit_breaker := cb |}
  = (Ret (f s).1, {| host := (f s).2; heap := h; cookies := ck; circuit_breaker := cb |}).
Proof. rewrite lift_host_run. unfold total. by destruct (f s). Qed.

Lemma lift_effect_run {St} (f : St → St) (s : St) (h : gmap nat pydict)
    (ck : gmap pystr pystr) (cb : CircuitBreaker) :
  lift_host (effect f) {| host := s; heap := h; cookies := ck; circuit_breaker := cb |}
  = (Ret tt, {| host := f s; heap := h; cookies := ck; circuit_breaker := cb |}).
Proof. by rewrite lift_host_run. Qed.

Arguments py : simpl never.
Arguments CryptoUtils.calculate_hash : simpl never.
Arguments CryptoUtils.encode_data : simpl never.
Arguments CryptoUtils.validate_response : simpl never.
Arguments CryptoUtils.py_contains : simpl never.

(** One statement of a [bind] chain, run with the equation [lem]. *)
Ltac io_step lem :=
  unfold mbind, io_bind; rewrite bind_run; rewrite lem; cbn beta iota.

(** ** [create_request_data] *)

Section create_request_data_proofs.
Context {St : Type} `{Host St}.

Lemma dict_update_run (l : nat) (f : pydict → pydict) (s : St)
    (h : gmap nat pydict) (d : pydict) (c : gmap pystr pystr) (cb : CircuitBreaker) :
  dict_update l f {| host := s; heap := <[l := d]> h; cookies := c;
                     circuit_breaker := cb |}
  = (Ret tt, {| host := s; heap := <[l := f d]> h; cookies := c;
                circuit_breaker := cb |}).
Proof.
  unfold dict_update, set_heap. simpl.
  by rewrite lookup_insert_eq, insert_insert_eq.
Qed.

Lemma dict_read_run (l : nat) (s : St)
    (h : gmap nat pydict) (d : pydict) (c : gmap pystr pystr) (cb : CircuitBreaker) :
  dict_read l {| host := s; heap := <[l := d]> h; cookies := c;
                 circuit_breaker := cb |}
  = (Ret d, {| host := s; heap := <[l := d]> h; cookies := c;
               circuit_breaker := cb |}).
Proof. unfold dict_read. simpl. by rewrite lookup_insert_eq. Qed.

Lemma generate_timestamp_run (s : St) :
  CryptoUtils.generate_timestamp s
  = (Ret (time_time s, time_time s * 1000 + (random_randint 0 1000 s).1),
     (random_randint 0 1000 s).2).
Proof.
  unfold CryptoUtils.generate_timestamp, CryptoUtils.generate_random_number,
    mbind, io_bind, bind, reads, total, mret, io_ret, ret.
  by destruct (random_randint 0 1000 s).
Qed.

Lemma generate_random_number_run (a b : Z) (s : St) :
  CryptoUtils.generate_random_number a b s
  = (Ret (random_randint a b s).1, (random_randint a b s).2).
Proof.
  unfold CryptoUtils.generate_random_number, total.
  by destruct (random_randint a b s).
Qed.

(** [create_request_data] on a live [base_data]: a fresh object holds
    the payload, hashed last; nothing else changes but the random
    source. *)
Lemma create_request_data_run (base : nat) (book_id chapter_id : pystr)
    (last_time : Z) (m : Machine St) (d : pydict) :
  heap m !! base = Some d →
  let ct := time_time (host m) in
  let r1 := random_randint 0 1000 (host m) in
  let ts := ct * 1000 + r1.1 in
  let r2 := random_randint 0 1000 r1.2 in
  let d0 := payload_before_hash d book_id chapter_id last_time ct ts r2.1 in
  let l := fresh (dom (heap m)) in
  CryptoUtils.create_request_data base book_id chapter_id last_time m
  = (Ret l,
     {| host := r2.2;
        heap := <[l := <[py "s" := PStr (HashSpec.spec_hash (CryptoUtils.encode_data d0))]> d0]>
                  (heap m);
        cookies := cookies m;
        circuit_breaker := circuit_breaker m |}).
Proof.
  intros Hd ct r1 ts r2 d0 l.
  unfold CryptoUtils.create_request_data, mbind, io_bind.
  rewrite bind_run. unfold dict_copy at 1. rewrite Hd. fold l.
  unfold set_heap. cbn beta iota.
  do 3 io_step dict_update_run.
  rewrite bind_run, lift_host_run, generate_timestamp_run. cbn [fst snd].
  fold ct r1 ts.
  do 3 io_step dict_update_run.
  rewrite bind_run, lift_host_run, generate_random_number_run. cbn [fst snd].
  fold r2.
  do 2 io_step dict_update_run.
  io_step dict_read_run.
  fold (payload_before_hash d book_id chapter_id last_time ct ts r2.1). fold d0.
  rewrite calculate_hash_refines.
  io_step dict_update_run. done.
Qed.

Lemma payload_before_hash_no_s (d : pydict) (book_id chapter_id : pystr)
    (last_time ct ts rn : Z) :
  payload_before_hash d book_id chapter_id last_time ct ts rn !! py "s" = None.
Proof.
  unfold payload_before_hash.
  rewrite !lookup_insert_ne by (intros E; vm_compute in E; discriminate E).
  apply lookup_delete_eq.
Qed.

Lemma payload_before_hash_b (d : pydict) (book_id chapter_id : pystr)
    (last_time ct ts rn : Z) :
  payload_before_hash d book_id chapter_id last_time ct ts rn !! py "b"
  = Some (PStr book_id).
Proof.
  unfold payload_before_hash.
  rewrite !lookup_insert_ne by (intros E; vm_compute in E; discriminate E).
  apply lookup_insert_eq.
Qed.

Lemma payload_before_hash_c (d : pydict) (book_id chapter_id : pystr)
    (last_time ct ts rn : Z) :
  payload_before_hash d book_id chapter_id last_time ct ts rn !! py "c"
  = Some (PStr chapter_id).
Proof.
  unfold payload_before_hash.
  rewrite !lookup_insert_ne by (intros E; vm_compute in E; discriminate E).
  apply lookup_insert_eq.
Qed.

Lemma payload_before_hash_ct (d : pydict) (book_id chapter_id : pystr)
    (last_time ct ts rn : Z) :
  payload_before_hash d book_id chapter_id last_time ct ts rn !! py "ct"
  = Some (PInt ct).
Proof.
  unfold payload_before_hash.
  rewrite !lookup_insert_ne by (intros E; vm_compute in E; discriminate E).
  apply lookup_insert_eq.
Qed.

Lemma payload_before_hash_rt (d : pydict) (book_id chapter_id : pystr)
    (last_time ct ts rn : Z) :
  payload_before_hash d book_id chapter_id last_time ct ts rn !! py "rt"
  = Some (PInt (ct - last_time)).
Proof.
  unfold payload_before_hash.
  rewrite !lookup_insert_ne by (intros E; vm_compute in E; discriminate E).
  apply lookup_insert_eq.
Qed.
End create_request_data_proofs.

(** C8. [create_request_data] on a live [base_data] object returns a new
    object and leaves the base object, and every other object, with the
    entries they had. The new payload has [b] and [c] set to the book and
    the chapter, and its [s] is the hash of the serialization of the
    payload without [s]: it does not depend on an [s] entry of the base,
    since two bases that differ only in [s] give the same payload. *)
Theorem create_request_data_frame
    {St : Type} `{Host St} (base : nat) (book_id chapter_id : pystr)
    (last_time : Z) (m : Machine St) (d : pydict) :
  heap m !! base = Some d →
  let out := CryptoUtils.create_request_data base book_id chapter_id last_time m in
  ∃ (l : nat) (payload : pydict),
    out.1 = Ret l ∧ l ≠ base ∧ heap m !! l = None ∧
    heap out.2 !! base = Some d ∧
    (∀ l0, l0 ≠ l → heap out.2 !! l0 = heap m !! l0) ∧
    cookies out.2 = cookies m ∧ circuit_breaker out.2 = circuit_breaker m ∧
    heap out.2 !! l = Some payload ∧
    payload !! py "b" = Some (PStr book_id) ∧
    payload !! py "c" = Some (PStr chapter_id) ∧
    (∃ h, CryptoUtils.calculate_hash
            (CryptoUtils.encode_data (delete (py "s") payload)) = Some h ∧
          payload !! py "s" = Some (PStr h)) ∧
    (∀ (m2 : Machine St) (d2 : pydict),
       heap m2 !! base = Some d2 → host m2 = host m →
       delete (py "s") d2 = delete (py "s") d →
       let out2 := CryptoUtils.create_request_data base book_id chapter_id
                     last_time m2 in
       ∃ l2, out2.1 = Ret l2 ∧ heap out2.2 !! l2 = Some payload).
Proof.
  intros Hd out. subst out.
  rewrite (create_request_data_run base book_id chapter_id last_time m d Hd).
  cbv zeta. simpl.
  set (l := fresh (dom (heap m))).
  assert (heap m !! l = None) as Hfresh
    by (apply not_elem_of_dom; apply is_fresh).
  eexists l, _. split; [done|].
  split; [intros ->; congruence|]. split; [done|].
  split; [rewrite lookup_insert_ne; [done|intros ->; congruence]|].
  split; [intros l0 Hl0; by rewrite lookup_insert_ne|].
  split; [done|]. split; [done|].
  split; [apply lookup_insert_eq|].
  split; [rewrite lookup_insert_ne by (intros E; vm_compute in E; discriminate E);
          apply payload_before_hash_b|].
  split; [rewrite lookup_insert_ne by (intros E; vm_compute in E; discriminate E);
          apply payload_before_hash_c|].
  split.
  - eexists. rewrite delete_insert_id by apply payload_before_hash_no_s.
    split; [apply calculate_hash_refines|apply lookup_insert_eq].
  - intros m2 d2 Hd2 Hhost Hsame.
    rewrite (create_request_data_run base book_id chapter_id last_time m2 d2 Hd2).
    cbv zeta. simpl. eexists. split; [done|].
    rewrite lookup_insert_eq, Hhost.
    unfold payload_before_hash. rewrite Hsame. done.
Qed.

(** ** The orchestrator on any host *)

Section bot_proofs.
Context {St : Type} `{Host St}.
Variable self : WxReadBot.

Lemma send_error_notification_ret (e : refresh_error) (s : St) :
  (Bot._send_error_notification self e s).1 = Ret tt.
Proof.
  unfold Bot._send_error_notification, NotificationManager.send.
  destruct (notification_enabled self); [|done]. simpl.
  unfold try_except, mbind, io_bind, bind.
  by destruct (BasePusher.send (pusher_send_message (ErrorNotice e)) s)
    as [[b|e'] s'].
Qed.

Lemma send_completion_notification_ret (r : reading_result) (s : St) :
  (Bot._send_completion_notification self r s).1 = Ret tt.
Proof.
  unfold Bot._send_completion_notification, NotificationManager.send.
  destruct (notification_enabled self); [|done]. simpl.
  unfold try_except, mbind, io_bind, bind.
  by destruct (BasePusher.send (pusher_send_message (CompletionNotice r)) s)
    as [[b|e'] s'].
Qed.

(** [refresh_cookie] never raises. *)
Lemma refresh_cookie_ret (m : Machine St) :
  ∃ ok : bool, (Bot.refresh_cookie self m).1 = Ret ok.
Proof.
  unfold Bot.refresh_cookie. rewrite try_except_run.
  unfold mbind, io_bind. rewrite bind_run. unfold reads at 1. cbn beta iota.
  rewrite bind_run. destruct m as [s h ck cb]. rewrite lift_host_run.
  destruct (RequestManager.renew_cookie _ _ _ s) as [[new_skey|e] s1]; simpl.
  - destruct (truthy new_skey).
    + rewrite bind_run. simpl. by exists true.
    + rewrite bind_run, lift_host_run.
      pose proof (send_error_notification_ret NoNewKey s1) as Hn.
      destruct (Bot._send_error_notification self NoNewKey s1) as [r s2].
      simpl in Hn. subst r. simpl. by exists false.
  - rewrite bind_run, lift_host_run.
    pose proof (send_error_notification_ret (RefreshRaised e) s1) as Hn.
    destruct (Bot._send_error_notification self (RefreshRaised e) s1) as [r s2].
    simpl in Hn. subst r. simpl. by exists false.
Qed.

(** [fix_synckey] never raises. *)
Lemma fix_synckey_ret (m : Machine St) :
  ∃ ok : bool, (Bot.fix_synckey self m).1 = Ret ok.
Proof.
  unfold Bot.fix_synckey. rewrite try_except_run.
  unfold mbind, io_bind. rewrite bind_run. unfold reads at 1. cbn beta iota.
  destruct m as [s h ck cb]. rewrite lift_host_run.
  unfold RequestManager.fix_synckey.
  destruct (session_post _ s) as [[r| | |] s1]; simpl; eauto.
  destruct (RequestManager.raises_for_status r); simpl; eauto.
Qed.
(** [read_once], case by case on what [read_book] returned. *)
Lemma read_once_cases (book_id chapter_id : pystr) (last_time : Z)
    (m : Machine St) (d : pydict) :
  heap m !! base_data self = Some d →
  ∃ (l : nat) (payload : pydict) (m1 : Machine St),
    CryptoUtils.create_request_data (base_data self) book_id chapter_id
      last_time m = (Ret l, m1) ∧
    host m1 = (random_randint 0 1000 (random_randint 0 1000 (host m)).2).2 ∧
    heap m1 !! base_data self = Some d ∧
    cookies m1 = cookies m ∧ circuit_breaker m1 = circuit_breaker m ∧
    heap m1 !! l = Some payload ∧
    payload !! py "ct" = Some (PInt (time_time (host m))) ∧
    payload !! py "rt" = Some (PInt (time_time (host m) - last_time)) ∧
    payload !! py "b" = Some (PStr book_id) ∧
    payload !! py "c" = Some (PStr chapter_id) ∧
    Bot.read_once self book_id chapter_id last_time m
    = read_once_outcome self last_time (time_time (host m))
        (RequestManager.read_book (timeout self) (PDict payload)
           (headers self) (cookies m) m1).
Proof.
  intros Hd.
  pose proof (create_request_data_run (base_data self) book_id chapter_id
                last_time m d Hd) as Hrun. cbv zeta in Hrun.
  set (ct := time_time (host m)) in *.
  set (r1 := random_randint 0 1000 (host m)) in *.
  set (r2 := random_randint 0 1000 r1.2) in *.
  set (d0 := payload_before_hash d book_id chapter_id last_time ct
               (ct * 1000 + r1.1) r2.1) in *.
  set (l := fresh (dom (heap m))) in *.
  set (payload := <[py "s" := PStr (HashSpec.spec_hash (CryptoUtils.encode_data d0))]> d0) in *.
  assert (heap m !! l = None) as Hfresh
    by (apply not_elem_of_dom; apply is_fresh).
  eexists l, payload, _. split; [exact Hrun|].
  split; [done|].
  split; [simpl; rewrite lookup_insert_ne; [done|intros ->; congruence]|].
  split; [done|]. split; [done|].
  split; [simpl; apply lookup_insert_eq|].
  assert (∀ k v, k ≠ py "s" → d0 !! k = Some v → payload !! k = Some v) as Hp.
  { intros k v Hk Hv. subst payload. by rewrite lookup_insert_ne. }
  split; [apply Hp; [intros E; vm_compute in E; discriminate E|
                     apply payload_before_hash_ct]|].
  split; [apply Hp; [intros E; vm_compute in E; discriminate E|
                     apply payload_before_hash_rt]|].
  split; [apply Hp; [intros E; vm_compute in E; discriminate E|
                     apply payload_before_hash_b]|].
  split; [apply Hp; [intros E; vm_compute in E; discriminate E|
                     apply payload_before_hash_c]|].
  unfold Bot.read_once. rewrite try_except_run.
  unfold mbind, io_bind. rewrite bind_run, Hrun. cbn beta iota.
  rewrite bind_run, dict_read_run. cbn beta iota.
  rewrite bind_run. unfold reads at 1. cbn beta iota. cbn [cookies].
  rewrite bind_run. unfold read_once_outcome.
  destruct (RequestManager.read_book _ _ _ _ _) as [[response|e] m2];
    cbn [fst snd]; [|done].
  destruct (CryptoUtils.validate_response response).
  - assert (payload !! py "ct" = Some (PInt ct)) as ->.
    { apply Hp; [intros E; vm_compute in E; discriminate E|
                 apply payload_before_hash_ct]. }
    destruct (CryptoUtils.py_contains (py "synckey") response) as [[|]|]; [done| |done].
    rewrite bind_run.
    destruct (fix_synckey_ret m2) as [ok Hok].
    destruct (Bot.fix_synckey self m2) as [r m3]. simpl in Hok. by subst r.
  - rewrite bind_run.
    destruct (refresh_cookie_ret m2) as [ok Hok].
    destruct (Bot.refresh_cookie self m2) as [r m3]. simpl in Hok. subst r.
    cbn [fst snd]. by destruct ok.
Qed.
End bot_proofs.

(** ** Counting events *)

Lemma count_events_app (P : event → bool) (tr1 tr2 : list event) :
  count_events P (tr1 ++ tr2) = (count_events P tr1 + count_events P tr2)%nat.
Proof. unfold count_events. by rewrite filter_app, length_app. Qed.

Lemma count_events_cons (P : event → bool) (ev : event) (tr : list event) :
  count_events P (ev :: tr)
  = ((if P ev then 1 else 0) + count_events P tr)%nat.
Proof.
  unfold count_events. destruct (P ev) eqn:E.
  - rewrite filter_cons_True by (by apply Is_true_true). done.
  - rewrite filter_cons_False by (by apply Is_true_false). done.
Qed.

Lemma count_events_none (P : event → bool) (tr : list event) :
  Forall (fun ev => P ev = false) tr → count_events P tr = 0%nat.
Proof.
  induction 1 as [|ev tr Hev _ IH]; [done|].
  by rewrite count_events_cons, Hev, IH.
Qed.

Lemma count_events_other (P Q : event → bool) (tr : list event) :
  (∀ ev, Q ev = true → P ev = false) →
  Forall (fun ev => Q ev = true) tr → count_events P tr = 0%nat.
Proof.
  intros HPQ Htr. apply count_events_none.
  eapply Forall_impl; [exact Htr|]. auto.
Qed.

Lemma is_accepted_read_post (req : request) (a : http_result) :
  is_accepted_read (EvPost req a)
  = match classify_answer a with
    | Ret v => bool_decide (req_url req = UrlRead) && accepted v
    | Raise _ => false
    end.
Proof.
  unfold is_accepted_read, classify_answer, accepted. simpl.
  destruct a as [r| | |]; try done.
  destruct (RequestManager.raises_for_status r); simpl.
  - by rewrite andb_false_r.
  - rewrite andb_true_r. destruct (json_body r); [done|by rewrite andb_false_r].
Qed.

Lemma read_book_event_not_accepted_sleep (ev : event) :
  is_backoff_sleep ev = true → is_accepted_read ev = false.
Proof. by destruct ev as [|? ?|[?|?]|?]. Qed.

(** ** The shape of a retried call *)

Section retry_shape_proofs.
Context {St : Type} `{Host St} {V : Type}.
Variables (max_attempts : Z) (base_delay max_delay backoff_factor : float)
          (jitter : bool) (exceptions : exn -> bool).
(** The retried operation, on the traced host, and the events that mark
    its invocations. *)
Variables (func : IO (Traced St) V) (mark : event -> bool).
Hypothesis func_marked :
  ∀ t, ∃ ev, trace (func t).2 = ev :: trace t ∧
             mark ev = true ∧ is_backoff_sleep ev = false.
Hypothesis mark_no_sleep : ∀ d, mark (EvSleep d) = false.

Local Abbreviation shape_loop :=
  (retry_loop (St := Traced St) max_attempts base_delay max_delay
     backoff_factor jitter exceptions None func).

(** Without a callback the backoff is one recorded sleep. *)
Lemma backoff_one_sleep (a : Z) (e : exn) (t : Traced St) :
  ∃ d s', backoff base_delay max_delay backoff_factor jitter None a e t
          = (Ret tt, record_event (EvSleep (SecondsF d)) s' t).
Proof.
  unfold backoff, mbind, io_bind, bind, mret, io_ret, ret, total, effect.
  destruct jitter; simpl.
  - destruct (random_random (inner t)) as [r s1]. simpl. eauto.
  - eexists _, _. by destruct t.
Qed.

(** The loop over the attempts [a, ..., max_attempts - 1]: [j]
    invocations, a sleep between two of them and none after the last;
    the outcome is that of an invocation, and a retryable exception
    comes out only of the last attempt allowed. *)
Lemma retry_loop_shape (n : nat) (a : Z) (last : option exn) (t : Traced St) :
  a + Z.of_nat (S n) = max_attempts →
  ∃ (delta : list event) (j : nat),
    trace (shape_loop (range_from a (S n)) last t).2 = delta ++ trace t ∧
    (1 ≤ j ≤ S n)%nat ∧
    count_events mark delta = j ∧
    count_events is_backoff_sleep delta = (j - 1)%nat ∧
    Forall (fun ev => mark ev || is_backoff_sleep ev = true) delta ∧
    (∃ t0, (func t0).1 = (shape_loop (range_from a (S n)) last t).1) ∧
    ∀ e, (shape_loop (range_from a (S n)) last t).1 = Raise e →
         exceptions e = true → j = S n.
Proof.
  revert a last t. induction n as [|n IH]; intros a last t Ha;
    rewrite range_from_S; cbn [retry_loop]; rewrite try_except_run;
    destruct (func_marked t) as (ev & Hev & Hmark & Hns);
    destruct (func t) as [[v|e] t1] eqn:Hf; cbn [fst snd] in *.
  - exists [ev], 1%nat. rewrite Hev, !count_events_cons, Hmark, Hns.
    split; [done|]. split; [lia|]. split; [done|]. split; [done|].
      split; [by constructor; [rewrite Hmark|]|].
    split; [exists t; by rewrite Hf|done].
  - assert (∃ t0, (func t0).1 = Raise e) as Hfrom by (exists t; by rewrite Hf).
    destruct (exceptions e) eqn:Hexc.
    + replace (a =? max_attempts - 1) with true by (symmetry; apply Z.eqb_eq; lia).
      exists [ev], 1%nat. cbn [raise fst snd].
      rewrite Hev, !count_events_cons, Hmark, Hns.
      split; [done|]. split; [lia|]. split; [done|]. split; [done|].
      split; [by constructor; [rewrite Hmark|]|].
      split; [done|done].
    + exists [ev], 1%nat. cbn [raise fst snd].
      rewrite Hev, !count_events_cons, Hmark, Hns.
      split; [done|]. split; [lia|]. split; [done|]. split; [done|].
      split; [by constructor; [rewrite Hmark|]|].
      split; [done|]. intros e' [= <-]. congruence.
  - exists [ev], 1%nat. rewrite Hev, !count_events_cons, Hmark, Hns.
    split; [done|]. split; [lia|]. split; [done|]. split; [done|].
      split; [by constructor; [rewrite Hmark|]|].
    split; [exists t; by rewrite Hf|done].
  - destruct (exceptions e) eqn:Hexc.
    + replace (a =? max_attempts - 1) with false by (symmetry; apply Z.eqb_neq; lia).
      unfold mbind, io_bind. rewrite bind_run.
      destruct (backoff_one_sleep a e t1) as (d & s2 & ->). cbn beta iota.
      set (t2 := record_event _ s2 t1).
      destruct (IH (a + 1) (Some e) t2)
        as (delta & j & Htr & Hj & Hm & Hs & Hall & Hfrom & Hlast); [lia|].
      exists (delta ++ [EvSleep (SecondsF d); ev]), (S j).
      split; [rewrite Htr; cbn [trace t2 record_event]; by rewrite Hev, <- app_assoc|].
      split; [lia|].
      rewrite !count_events_app, !count_events_cons, Hm, Hs, Hmark, Hns, mark_no_sleep.
      cbn [is_backoff_sleep]. change (count_events _ []) with 0%nat.
      split; [lia|]. split; [lia|].
      split; [apply Forall_app; split; [done|];
              by repeat constructor; rewrite ?Hmark, ?orb_true_r|].
      split; [done|].
      intros e' He' Hexc'. by rewrite (Hlast e' He' Hexc').
    + exists [ev], 1%nat. cbn [raise fst snd].
      rewrite Hev, !count_events_cons, Hmark, Hns.
      split; [done|]. split; [lia|]. split; [done|]. split; [done|].
      split; [by constructor; [rewrite Hmark|]|].
      split; [exists t; by rewrite Hf|]. intros e' [= <-]. congruence.
Qed.

(** The decorated function, for [max_attempts ≥ 1]. *)
Lemma retry_shape (t : Traced St) :
  1 ≤ max_attempts →
  let out :=
    retry_with_backoff (St := Traced St) max_attempts base_delay max_delay
      backoff_factor jitter exceptions None func t in
  ∃ (delta : list event) (j : nat),
    trace out.2 = delta ++ trace t ∧
    1 ≤ Z.of_nat j ≤ max_attempts ∧
    count_events mark delta = j ∧
    count_events is_backoff_sleep delta = (j - 1)%nat ∧
    Forall (fun ev => mark ev || is_backoff_sleep ev = true) delta ∧
    (∃ t0, (func t0).1 = out.1) ∧
    ∀ e, out.1 = Raise e → exceptions e = true → Z.of_nat j = max_attempts.
Proof.
  intros Hmax out. subst out. unfold retry_with_backoff.
  rewrite py_range_range_from.
  replace (Z.to_nat max_attempts) with (S (Z.to_nat max_attempts - 1)) by lia.
  destruct (retry_loop_shape (Z.to_nat max_attempts - 1) 0 None t)
    as (delta & j & Htr & Hj & Hm & Hs & Hall & Hfrom & Hlast); [lia|].
  exists delta, j. split; [done|]. split; [lia|]. split; [done|]. split; [done|].
  split; [done|]. split; [done|]. intros e He Hexc. rewrite (Hlast e He Hexc). lia.
Qed.
End retry_shape_proofs.

(** ** The submission on a traced host *)

Section transport_trace_proofs.
Context {St : Type} `{Host St}.
Variables (timeout : Z) (url : endpoint) (data : pyval)
          (headers cookies : gmap pystr pystr).

Local Abbreviation req := (post_json_request timeout url data headers cookies).

Lemma post_json_body_traced (t : Traced St) :
  RequestManager.post_json_body timeout url data headers cookies t
  = (classify_answer (session_post req (inner t)).1,
     record_event (EvPost req (session_post req (inner t)).1)
       (session_post req (inner t)).2 t).
Proof.
  unfold RequestManager.post_json_body, classify_answer. simpl.
  fold req. destruct (session_post req (inner t)) as [[r| | |] s']; simpl; try done.
  destruct (RequestManager.raises_for_status r); [done|].
  by destruct (json_body r).
Qed.

Lemma classify_answer_raises (a : http_result) (e : exn) :
  classify_answer a = Raise e → RequestManager.is_NetworkError e = true.
Proof.
  unfold classify_answer. destruct a as [r| | |]; try (by intros [= <-]).
  destruct (RequestManager.raises_for_status r); [by intros [= <-]|].
  destruct (json_body r); [done|by intros [= <-]].
Qed.

(** The backoff of [post_json]: one recorded sleep. *)
Lemma post_json_backoff_traced (a : Z) (e : exn) (t : Traced St) :
  ∃ d s', backoff 1%float 60%float 2%float true None a e t
          = (Ret tt, record_event (EvSleep (SecondsF d)) s' t).
Proof.
  unfold backoff, mbind, io_bind, bind, mret, io_ret, ret, total, effect. simpl.
  destruct (random_random (inner t)) as [r s1]. simpl. eauto.
Qed.

Local Abbreviation loop :=
  (retry_loop (St := Traced St) 3 1%float 60%float 2%float true
     RequestManager.is_NetworkError None
     (RequestManager.post_json_body timeout url data headers cookies)).

(** What the retry loop around the post leaves in the trace: posts to
    the endpoint and backoff sleeps; when it returns, the newest event is
    the post that was answered with the returned value, and no earlier
    post of the loop was answered with a value. *)
Lemma retry_loop_posts (attempts : list Z) (last : option exn) (t : Traced St) :
  ∃ delta,
    trace (loop attempts last t).2 = delta ++ trace t ∧
    Forall (fun ev => is_post_to url ev || is_backoff_sleep ev = true) delta ∧
    match (loop attempts last t).1 with
    | Ret v => ∃ a rest, delta = EvPost req a :: rest ∧
                         classify_answer a = Ret v ∧
                         count_events is_accepted_read rest = 0%nat
    | Raise _ => count_events is_accepted_read delta = 0%nat
    end.
Proof.
  revert last t. induction attempts as [|a attempts IH]; intros last t.
  - exists []. by destruct last.
  - cbn [retry_loop]. rewrite try_except_run, post_json_body_traced.
    set (ans := (session_post req (inner t)).1).
    set (s1 := (session_post req (inner t)).2).
    assert (is_post_to url (EvPost req ans) = true) as Hpost
      by (simpl; by apply bool_decide_eq_true).
    destruct (classify_answer ans) as [v|e] eqn:Hcl.
    + exists [EvPost req ans]. split; [done|]. split.
      * constructor; [by rewrite Hpost|done].
      * by exists ans, [].
    + assert (is_accepted_read (EvPost req ans) = false) as Hna
        by (by rewrite is_accepted_read_post, Hcl).
      rewrite (classify_answer_raises _ _ Hcl).
      destruct (a =? 3 - 1).
      * exists [EvPost req ans]. split; [done|]. split.
        -- constructor; [by rewrite Hpost|done].
        -- cbn [fst raise]. by rewrite count_events_cons, Hna.
      * unfold mbind, io_bind. rewrite bind_run.
        destruct (post_json_backoff_traced a e (record_event (EvPost req ans) s1 t))
          as (d & s2 & ->). cbn beta iota.
        set (t2 := record_event _ s2 _).
        destruct (IH (Some e) t2) as (delta & Htr & Hall & Hres).
        exists (delta ++ [EvSleep (SecondsF d); EvPost req ans]).
        split; [rewrite Htr; by rewrite <- app_assoc|].
        split.
        -- apply Forall_app. split; [done|].
           constructor; [done|]. constructor; [by rewrite Hpost|done].
        -- destruct (loop attempts (Some e) t2).1 as [v|e'].
           ++ destruct Hres as (a' & rest & -> & Hcl' & Hrest).
              exists a', (rest ++ [EvSleep (SecondsF d); EvPost req ans]).
              split; [done|]. split; [done|].
              rewrite count_events_app, Hrest, !count_events_cons, Hna. done.
           ++ rewrite count_events_app, Hres, !count_events_cons, Hna. done.
Qed.
End transport_trace_proofs.

(** ** The orchestrator on a traced host *)

Section bot_trace_proofs.
Context {St : Type} `{Host St}.
Variable self : WxReadBot.

Lemma traced_randint_trace (a b : Z) (t : Traced St) :
  trace (random_randint a b t).2 = trace t.
Proof. simpl. by destruct (random_randint a b (inner t)). Qed.

Lemma traced_choice_trace (l : list pystr) (t : Traced St) :
  trace (random_choice l t).2 = trace t.
Proof. simpl. by destruct (random_choice l (inner t)). Qed.

(** [read_book] leaves posts to the read endpoint and backoff sleeps;
    when it returns a value, the newest event is the post that was
    answered with it. *)
Lemma read_book_traced (data : pyval) (hdrs cks : gmap pystr pystr)
    (m : Machine (Traced St)) :
  let out := RequestManager.read_book (timeout self) data hdrs cks m in
  ∃ delta,
    trace (host out.2) = delta ++ trace (host m) ∧
    Forall (fun ev => is_read_book_event ev = true) delta ∧
    heap out.2 = heap m ∧ cookies out.2 = cookies m ∧
    match out.1 with
    | Ret v =>
        ∃ a rest,
          delta = EvPost (post_json_request (timeout self) UrlRead data
                            hdrs cks) a :: rest ∧
          classify_answer a = Ret v ∧
          count_events is_accepted_read rest = 0%nat
    | Raise _ => count_events is_accepted_read delta = 0%nat
    end.
Proof.
  destruct m as [t h ck cb]. unfold RequestManager.read_book.
  unfold CircuitBreakerImpl._call_with_circuit_breaker. cbn [host circuit_breaker].
  destruct (if bool_decide (state cb = OPEN)
            then if CircuitBreakerImpl._should_attempt_reset cb (datetime_now t)
                 then Some (CircuitBreakerImpl.set_state cb HALF_OPEN) else None
            else Some cb) as [cb1|]; [|by exists []].
  unfold RequestManager.post_json, retry_with_backoff.
  destruct (retry_loop_posts (timeout self) UrlRead data hdrs cks
              (py_range 3) None t) as (delta & Htr & Hall & Hres).
  destruct (retry_loop _ _ _ _ _ _ _ _ (py_range 3) None t) as [[v|e] t'].
  - exists delta. simpl in *. by repeat split.
  - exists delta. simpl in *.
    destruct (expected_exception cb1 e); simpl; by repeat split.
Qed.

(** The pusher's [send] on a traced host: between one and three
    invocations of [_send_message], a backoff sleep between two of them,
    and no other event; it raises only [PushError], after the third. *)
Lemma pusher_send_traced (n : notice) (t : Traced St) :
  let out := BasePusher.send (pusher_send_message n) t in
  ∃ (delta : list event) (j : nat),
    trace out.2 = delta ++ trace t ∧
    (1 ≤ j ≤ 3)%nat ∧
    count_events is_notify delta = j ∧
    count_events is_backoff_sleep delta = (j - 1)%nat ∧
    Forall (fun ev => is_push_event ev = true) delta ∧
    (∀ e, out.1 = Raise e → e = PushError ∧ j = 3%nat) ∧
    (∀ b s, pusher_send_message n (inner t) = (Ret b, s) →
            delta = [EvNotify n]).
Proof.
  intros out. subst out. unfold BasePusher.send.
  assert (∀ t0 : Traced St,
            BasePusher.send_body (pusher_send_message n) t0
            = (match (pusher_send_message n (inner t0)).1 with
               | Ret b => Ret b
               | Raise _ => Raise PushError
               end,
               record_event (EvNotify n)
                 (pusher_send_message n (inner t0)).2 t0)) as Hbody.
  { intros t0. unfold BasePusher.send_body. rewrite try_except_run.
    unfold mbind, io_bind. rewrite bind_run.
    cbn [pusher_send_message traced_host].
    by destruct (pusher_send_message n (inner t0)) as [[b|e] s]. }
  destruct (retry_shape 3 1%float 60%float 2%float true BasePusher.is_PushError
              (BasePusher.send_body (pusher_send_message n)) is_notify)
    with (t := t)
    as (delta & j & Htr & Hj & Hm & Hs & Hall & (t0 & Hfrom) & Hlast); [| |done|].
  { intros t0. rewrite Hbody. by exists (EvNotify n). }
  { done. }
  rewrite Hbody in Hfrom. cbn [fst] in Hfrom.
  exists delta, j. split; [done|]. split; [lia|]. split; [done|]. split; [done|].
  split; [done|]. split.
  - intros e He. rewrite He in Hfrom.
    destruct (pusher_send_message n (inner t0)).1; [done|]. injection Hfrom as <-.
    split; [done|]. specialize (Hlast PushError He eq_refl). lia.
  - intros b s Hmsg. revert Htr. unfold retry_with_backoff.
    change (py_range 3) with [0; 1; 2]. cbn [retry_loop].
    rewrite try_except_run, Hbody, Hmsg. cbn [fst snd trace record_event].
    intros Htr. by apply (app_inv_tail (trace t) delta [EvNotify n]).
Qed.

(** [NotificationManager.send] never lets anything but a [PushError]
    out, and leaves the events of the pusher's [send]. *)
Lemma notification_send_traced (enabled : bool) (n : notice) (t : Traced St) :
  let out := NotificationManager.send enabled n t in
  ∃ (notes : list event),
    trace out.2 = notes ++ trace t ∧
    Forall (fun ev => is_push_event ev = true) notes ∧
    (enabled = false → notes = [] ∧ out = (Ret true, t)) ∧
    (enabled = true →
       ∃ j, (1 ≤ j ≤ 3)%nat ∧
            count_events is_notify notes = j ∧
            count_events is_backoff_sleep notes = (j - 1)%nat ∧
            (∀ e, out.1 = Raise e → e = PushError ∧ j = 3%nat) ∧
            (∀ b s, pusher_send_message n (inner t) = (Ret b, s) →
                    notes = [EvNotify n])).
Proof.
  intros out. subst out. unfold NotificationManager.send.
  destruct enabled; cbn [negb].
  - rewrite try_except_run.
    destruct (pusher_send_traced n t)
      as (delta & j & Htr & Hj & Hm & Hs & Hall & Hraise & Hfirst).
    destruct (BasePusher.send (pusher_send_message n) t) as [[b|e] t'];
      cbn [fst snd raise] in *.
    + exists delta. split; [done|]. split; [done|]. split; [done|].
      intros _. exists j. split; [done|]. split; [done|]. split; [done|].
      split; [done|done].
    + exists delta. split; [done|]. split; [done|]. split; [done|].
      intros _. exists j. split; [done|]. split; [done|]. split; [done|].
      split; [|done].
      intros e' [= <-]. split; [done|]. by destruct (Hraise e eq_refl).
  - exists []. split; [done|]. split; [done|]. split; [done|done].
Qed.

Lemma send_error_notification_traced (e : refresh_error) (t : Traced St) :
  ∃ notes t',
    Bot._send_error_notification self e t = (Ret tt, t') ∧
    trace t' = notes ++ trace t ∧
    Forall (fun ev => is_push_event ev = true) notes.
Proof.
  unfold Bot._send_error_notification.
  destruct (notification_enabled self) eqn:Hen; [|by exists [], t].
  destruct (notification_send_traced true (ErrorNotice e) t)
    as (notes & Htr & Hall & _).
  rewrite try_except_run. unfold mbind, io_bind. rewrite bind_run.
  destruct (NotificationManager.send _ _ t) as [[b|e'] t']; cbn [fst snd] in *;
    by exists notes, t'.
Qed.

(** [refresh_cookie]: one post to the renewal endpoint, then at most an
    error notification. *)
Lemma refresh_cookie_traced (m : Machine (Traced St)) :
  ∃ (ok : bool) (m' : Machine (Traced St)) (notes : list event)
    (rq : request) (a : http_result),
    Bot.refresh_cookie self m = (Ret ok, m') ∧
    trace (host m') = notes ++ EvPost rq a :: trace (host m) ∧
    req_url rq = UrlRenew ∧
    Forall (fun ev => is_push_event ev = true) notes ∧
    heap m' = heap m ∧ circuit_breaker m' = circuit_breaker m.
Proof.
  unfold Bot.refresh_cookie. rewrite try_except_run.
  unfold mbind, io_bind. rewrite bind_run. unfold reads at 1. cbn beta iota.
  rewrite bind_run. destruct m as [t h ck cb]. rewrite lift_host_run.
  unfold RequestManager.renew_cookie. cbn [cookies host heap circuit_breaker].
  set (rq := {| req_url := UrlRenew; req_body := _; req_headers := _;
                req_cookies := _; req_timeout := _ |}).
  simpl. destruct (session_post rq (inner t)) as [a s1]. simpl.
  assert (∀ (e : refresh_error) (t1 : Traced St),
            trace t1 = EvPost rq a :: trace t →
            ∃ (m' : Machine (Traced St)) (notes : list event),
              bind (lift_host (Bot._send_error_notification self e))
                (fun _ => mret false)
                {| host := t1; heap := h; cookies := ck; circuit_breaker := cb |}
              = (Ret false, m') ∧
              trace (host m') = notes ++ EvPost rq a :: trace t ∧
              Forall (fun ev => is_push_event ev = true) notes ∧
              heap m' = h ∧ circuit_breaker m' = cb) as Hfail.
  { intros e t1 Ht1. rewrite bind_run, lift_host_run.
    destruct (send_error_notification_traced e t1) as (notes & t' & -> & Htr & Hn).
    simpl. eexists _, notes. split; [done|]. simpl. rewrite Htr, Ht1. done. }
  assert (∀ (e : exn) (t1 : Traced St),
            trace t1 = EvPost rq a :: trace t →
            ∃ (ok : bool) (m' : Machine (Traced St)) (notes : list event)
              (rq0 : request) (a0 : http_result),
              bind (lift_host (Bot._send_error_notification self (RefreshRaised e)))
                (fun _ => mret false)
                {| host := t1; heap := h; cookies := ck; circuit_breaker := cb |}
              = (Ret ok, m') ∧
              trace (host m') = notes ++ EvPost rq0 a0 :: trace t ∧
              req_url rq0 = UrlRenew ∧
              Forall (fun ev => is_push_event ev = true) notes ∧
              heap m' = h ∧ circuit_breaker m' = cb) as Hraise.
  { intros e t1 Ht1. destruct (Hfail (RefreshRaised e) t1 Ht1)
      as (m' & notes & ? & ? & ? & ? & ?).
    by exists false, m', notes, rq, a. }
  destruct a as [r| | |]; simpl; try (by apply Hraise).
  destruct (RequestManager.raises_for_status r); simpl; [by apply Hraise|].
  destruct (truthy _).
  - rewrite bind_run. simpl.
    eexists true, _, [], rq, _. by repeat split.
  - destruct (Hfail NoNewKey (record_event (EvPost rq (HttpResponse r)) s1 t))
      as (m' & notes & -> & ? & ? & ? & ?); [done|].
    by exists false, m', notes, rq, (HttpResponse r).
Qed.

(** [fix_synckey]: one post to the repair endpoint. *)
Lemma fix_synckey_traced (m : Machine (Traced St)) :
  ∃ (ok : bool) (m' : Machine (Traced St)) (rq : request) (a : http_result),
    Bot.fix_synckey self m = (Ret ok, m') ∧
    trace (host m') = EvPost rq a :: trace (host m) ∧
    req_url rq = UrlFixSynckey ∧
    heap m' = heap m ∧ circuit_breaker m' = circuit_breaker m.
Proof.
  unfold Bot.fix_synckey. rewrite try_except_run.
  unfold mbind, io_bind. rewrite bind_run. unfold reads at 1. cbn beta iota.
  destruct m as [t h ck cb]. rewrite lift_host_run.
  unfold RequestManager.fix_synckey. cbn [cookies host heap circuit_breaker].
  set (rq := {| req_url := UrlFixSynckey; req_body := _; req_headers := _;
                req_cookies := _; req_timeout := _ |}).
  simpl. destruct (session_post rq (inner t)) as [[r| | |] s1]; simpl;
    try (by eexists false, _, rq, _).
  destruct (RequestManager.raises_for_status r); simpl;
    by eexists _, _, rq, _.
Qed.
End bot_trace_proofs.

Section read_once_trace_proofs.
Context {St : Type} `{Host St}.
Variable self : WxReadBot.

Lemma read_book_event_not_pacing (ev : event) :
  is_read_book_event ev = true → is_pacing_sleep ev = false.
Proof. by destruct ev as [|? ?|[?|?]|?]. Qed.

Lemma validate_response_dict (v : pyval) :
  CryptoUtils.validate_response v = true → ∃ d, v = PDict d.
Proof.
  unfold CryptoUtils.validate_response, CryptoUtils.py_contains, CryptoUtils.py_get.
  destruct v; simpl; try done; [| |eauto].
  - by destruct (negb (str_contains (py "succ") s)).
  - by destruct (negb (existsb _ l)).
Qed.

(** One [read_once] on a traced host: it never raises; the events of
    its [read_book] come first, then those of the repair or renewal; a
    success is exactly one accepted read, stamped with the returned
    time; the error tells what [read_book] returned. *)
Lemma read_once_traced (book_id chapter_id : pystr) (last_time : Z)
    (m : Machine (Traced St)) (d : pydict) :
  heap m !! base_data self = Some d →
  ∃ (ok : bool) (t : Z) (err : option read_error) (m' : Machine (Traced St))
    (delta_rb delta_after : list event),
    Bot.read_once self book_id chapter_id last_time m = (Ret (ok, t, err), m') ∧
    heap m' !! base_data self = Some d ∧
    trace (host m') = delta_after ++ delta_rb ++ trace (host m) ∧
    Forall (fun ev => is_read_book_event ev = true) delta_rb ∧
    count_events is_accepted_read delta_rb = (if ok then 1 else 0)%nat ∧
    attempt_shape ok t last_time (time_time (host m)) err delta_rb delta_after ∧
    ∃ (l : nat) (payload : pydict) (m1 : Machine (Traced St)),
      CryptoUtils.create_request_data (base_data self) book_id chapter_id
        last_time m = (Ret l, m1) ∧
      heap m1 !! l = Some payload ∧
      match (RequestManager.read_book (timeout self) (PDict payload)
               (headers self) (cookies m) m1).1 with
      | Ret v =>
          if CryptoUtils.validate_response v then
            match CryptoUtils.py_contains (py "synckey") v with
            | Some true => err = None
            | Some false => err = Some MissingSynckey
            | None => err = Some (RequestFailed TypeError)
            end
          else err = Some CookieRefreshed ∨ err = Some CookieRefreshFailed
      | Raise e => err = Some (RequestFailed e)
      end.
Proof.
  intros Hd.
  destruct (read_once_cases self book_id chapter_id last_time m d Hd)
    as (l & payload & m1 & Hcrd & Hhost & Hbase & Hck & Hcb & Hpay & Hct & Hrt & _ & _ & ->).
  assert (trace (host m1) = trace (host m)) as Htr1
    by (by rewrite Hhost, !traced_randint_trace).
  destruct (read_book_traced self (PDict payload) (headers self) (cookies m) m1)
    as (delta & Htr & Hall & Hheap & _ & Hres).
  unfold read_once_outcome.
  destruct (RequestManager.read_book _ _ _ _ m1) as [[v|e] m2] eqn:Hrb;
    cbn [fst snd] in *.
  - destruct Hres as (a & rest & -> & Hcl & Hrest).
    assert (is_accepted_read
              (EvPost (post_json_request (timeout self) UrlRead (PDict payload)
                         (headers self) (cookies m)) a) = accepted v) as Hacc.
    { rewrite is_accepted_read_post, Hcl. cbn [post_json_request req_url].
      by rewrite bool_decide_eq_true_2. }
    unfold accepted in Hacc.
    destruct (CryptoUtils.validate_response v) eqn:Hval.
    + destruct (CryptoUtils.py_contains (py "synckey") v) as [[|]|] eqn:Hsk;
        cbn [andb default from_option] in Hacc.
      * eexists true, _, None, m2, _, [].
        split; [done|]. split; [congruence|].
        split; [by rewrite Htr, Htr1|]. split; [done|].
        split; [by rewrite count_events_cons, Hacc, Hrest|].
        split.
        { split; [done|]. split; [done|]. split; [done|].
          eexists _, _, _, payload. repeat split; done. }
        exists l, payload, m1. split; [done|]. split; [done|]. rewrite Hrb. cbn [fst]. by rewrite Hval, Hsk.
      * destruct (fix_synckey_traced self m2) as (ok & m3 & rq & a' & -> & Htr3 & Hurl & Hh3 & _).
        eexists false, _, (Some MissingSynckey), m3, _, [EvPost rq a'].
        split; [done|]. split; [congruence|].
        split; [by rewrite Htr3, Htr, Htr1|]. split; [done|].
        split; [by rewrite count_events_cons, Hacc, Hrest|].
        split; [split; [done|]; split; [done|]; eauto|].
        exists l, payload, m1. split; [done|]. split; [done|]. rewrite Hrb. cbn [fst]. by rewrite Hval, Hsk.
      * eexists false, _, (Some (RequestFailed TypeError)), m2, _, [].
        split; [done|]. split; [congruence|].
        split; [by rewrite Htr, Htr1|]. split; [done|].
        split; [by rewrite count_events_cons, Hacc, Hrest|].
        split; [done|].
        exists l, payload, m1. split; [done|]. split; [done|]. rewrite Hrb. cbn [fst]. by rewrite Hval, Hsk.
    + cbn [andb] in Hacc.
      destruct (refresh_cookie_traced self m2)
        as (ok & m3 & notes & rq & a' & -> & Htr3 & Hurl & Hn & Hh3 & _).
      cbn [fst snd].
      eexists false, _, _, m3, _, (notes ++ [EvPost rq a']).
      split; [done|]. split; [congruence|].
      split; [rewrite Htr3, Htr, Htr1; by rewrite <- app_assoc|]. split; [done|].
      split; [by rewrite count_events_cons, Hacc, Hrest|].
      split.
      { destruct ok; (split; [done|]); (split; [done|]);
          by exists notes, rq, a'. }
      exists l, payload, m1. split; [done|]. split; [done|]. rewrite Hrb. cbn [fst]. rewrite Hval.
      destruct ok; auto.
  - eexists false, _, (Some (RequestFailed e)), m2, delta, [].
    split; [done|]. split; [congruence|].
    split; [by rewrite Htr, Htr1|]. split; [done|]. split; [done|].
    split; [done|].
    exists l, payload, m1. split; [done|]. split; [done|]. by rewrite Hrb.
Qed.

Lemma other_post_counts (rq : request) (a : http_result) :
  req_url rq ≠ UrlRead →
  is_accepted_read (EvPost rq a) = false ∧
  is_post_to UrlRead (EvPost rq a) = false ∧
  is_pacing_sleep (EvPost rq a) = false ∧
  is_sleep_of 30 (EvPost rq a) = false.
Proof.
  intros Hne. rewrite is_accepted_read_post. simpl.
  rewrite bool_decide_eq_false_2 by done. by destruct (classify_answer a).
Qed.

(** What follows the [read_book] of an attempt is never an accepted
    read nor a pacing sleep. *)
Lemma aftermath_counts (ok : bool) (t last_time ct : Z) (err : option read_error)
    (delta_rb delta_after : list event) :
  attempt_shape ok t last_time ct err delta_rb delta_after →
  count_events is_accepted_read delta_after = 0%nat ∧
  count_events is_pacing_sleep delta_after = 0%nat ∧
  count_events (is_sleep_of 30) delta_after = 0%nat ∧
  count_events (is_post_to UrlRead) delta_after = 0%nat.
Proof.
  assert (∀ notes, Forall (fun ev => is_push_event ev = true) notes →
            ∀ P : event → bool,
              (∀ n, P (EvNotify n) = false) →
              (∀ f, P (EvSleep (SecondsF f)) = false) →
              count_events P notes = 0%nat) as Hnotes.
  { intros notes Hn P HP HS. apply count_events_none.
    eapply Forall_impl; [exact Hn|].
    intros [|? ?|[?|?]|?]; simpl; (done || (intros _; apply HP || apply HS)). }
  unfold attempt_shape. destruct err as [[| | |e]|].
  - intros (_ & _ & rq & a & -> & Hurl).
    destruct (other_post_counts rq a) as (E1 & E2 & E3 & E4); [by rewrite Hurl|].
    by rewrite !count_events_cons, E1, E2, E3, E4.
  - intros (_ & _ & notes & rq & a & -> & Hurl & Hn).
    destruct (other_post_counts rq a) as (E1 & E2 & E3 & E4); [by rewrite Hurl|].
    rewrite !count_events_app, !count_events_cons, !Hnotes by done.
    by rewrite E1, E2, E3, E4.
  - intros (_ & _ & notes & rq & a & -> & Hurl & Hn).
    destruct (other_post_counts rq a) as (E1 & E2 & E3 & E4); [by rewrite Hurl|].
    rewrite !count_events_app, !count_events_cons, !Hnotes by done.
    by rewrite E1, E2, E3, E4.
  - by intros (_ & _ & ->).
  - by intros (_ & _ & -> & _).
Qed.
Lemma read_book_events_counts (delta : list event) :
  Forall (fun ev => is_read_book_event ev = true) delta →
  count_events is_pacing_sleep delta = 0%nat ∧
  count_events (is_sleep_of 30) delta = 0%nat.
Proof.
  intros Hall. split; apply count_events_none;
    (eapply Forall_impl; [exact Hall|]); by intros [|? ?|[?|?]|?].
Qed.

(** One turn of the loop: it never raises, ends with exactly one pacing
    sleep, and either counts a success (one accepted read, a 30-second
    sleep, the time advanced to the [ct] of that request) or leaves the
    count and the time as they were. *)
Lemma attempt_body_traced (attempt sc lt : Z) (m : Machine (Traced St)) (d : pydict) :
  heap m !! base_data self = Some d →
  ∃ (sc' lt' : Z) (m' : Machine (Traced St)) (delta : list event),
    Bot.attempt_body self attempt (sc, lt) m = (Ret (sc', lt'), m') ∧
    heap m' !! base_data self = Some d ∧
    trace (host m') = delta ++ trace (host m) ∧
    count_events is_pacing_sleep delta = 1%nat ∧
    ((sc' = sc + 1 ∧
      count_events is_accepted_read delta = 1%nat ∧
      count_events (is_sleep_of 30) delta = 1%nat ∧
      ∃ rq a payload,
        EvPost rq a ∈ delta ∧ is_accepted_read (EvPost rq a) = true ∧
        req_body rq = PDict payload ∧
        payload !! py "ct" = Some (PInt lt') ∧
        payload !! py "rt" = Some (PInt (lt' - lt))) ∨
     (sc' = sc ∧ lt' = lt ∧
      count_events is_accepted_read delta = 0%nat ∧
      count_events (is_sleep_of 30) delta = 0%nat)).
Proof.
  intros Hd. unfold Bot.attempt_body, mbind, io_bind.
  destruct m as [t h ck cb].
  rewrite bind_run, lift_total_run.
  pose proof (traced_choice_trace (book_ids self) t) as Htr1.
  destruct (random_choice (book_ids self) t) as [book_id t1]. cbn [fst snd] in *.
  rewrite bind_run, lift_total_run.
  pose proof (traced_choice_trace (chapter_ids self) t1) as Htr2.
  destruct (random_choice (chapter_ids self) t1) as [chapter_id t2]. cbn [fst snd] in *.
  rewrite bind_run.
  destruct (read_once_traced book_id chapter_id lt
              {| host := t2; heap := h; cookies := ck; circuit_breaker := cb |} d Hd)
    as (ok & tm & err & m' & delta_rb & delta_after & -> & Hlive & Htr & Hall
        & Hcount & Herr & _).
  destruct (aftermath_counts ok tm lt _ err delta_rb delta_after Herr)
    as (Ha1 & Ha2 & Ha3 & _).
  destruct (read_book_events_counts delta_rb Hall) as (Hb1 & Hb2).
  cbn [host] in Htr. rewrite Htr2, Htr1 in Htr.
  destruct m' as [t3 h3 ck3 cb3]. cbn [host heap] in *.
  destruct ok.
  - rewrite bind_run, lift_effect_run.
    unfold mret, io_ret, ret.
    eexists _, _, _, (EvSleep (Seconds 30) :: delta_after ++ delta_rb).
    split; [done|]. split; [done|].
    split; [simpl; by rewrite Htr, <- app_assoc|].
    split; [by rewrite count_events_cons, count_events_app, Ha2, Hb1|].
    left. split; [done|].
    split; [by rewrite count_events_cons, count_events_app, Ha1, Hcount|].
    split; [by rewrite count_events_cons, count_events_app, Ha3, Hb2|].
    unfold attempt_shape in Herr.
    destruct err as [[| | |e]|]; try (by destruct Herr).
    destruct Herr as (_ & -> & -> & rq & a & rest & payload & -> & ? & ? & ? & ?).
    exists rq, a, payload. split; [|done].
    apply list_elem_of_further, list_elem_of_here.
  - rewrite bind_run, lift_effect_run.
    unfold mret, io_ret, ret.
    eexists _, _, _, (EvSleep (Seconds 5) :: delta_after ++ delta_rb).
    split; [done|]. split; [done|].
    split; [simpl; by rewrite Htr, <- app_assoc|].
    split; [by rewrite count_events_cons, count_events_app, Ha2, Hb1|].
    right. split; [done|]. split; [done|].
    split; [by rewrite count_events_cons, count_events_app, Ha1, Hcount|].
    by rewrite count_events_cons, count_events_app, Ha3, Hb2.
Qed.

(** The loop over any list of attempts. *)
Lemma for_each_traced (xs : list Z) (sc lt : Z) (m : Machine (Traced St)) (d : pydict) :
  heap m !! base_data self = Some d →
  ∃ (sc' lt' : Z) (m' : Machine (Traced St)) (delta : list event),
    for_each xs (Bot.attempt_body self) (sc, lt) m = (Ret (sc', lt'), m') ∧
    heap m' !! base_data self = Some d ∧
    trace (host m') = delta ++ trace (host m) ∧
    count_events is_pacing_sleep delta = length xs ∧
    sc' = sc + Z.of_nat (count_events is_accepted_read delta) ∧
    count_events (is_sleep_of 30) delta = count_events is_accepted_read delta.
Proof.
  revert sc lt m. induction xs as [|x xs IH]; intros sc lt m Hd.
  - exists sc, lt, m, []. repeat split; try done.
    change (count_events is_accepted_read []) with 0%nat. lia.
  - cbn [for_each]. unfold mbind, io_bind. rewrite bind_run.
    destruct (attempt_body_traced x sc lt m d Hd)
      as (sc1 & lt1 & m1 & delta1 & -> & Hd1 & Htr1 & Hp1 & Hcase).
    destruct (IH sc1 lt1 m1 Hd1)
      as (sc2 & lt2 & m2 & delta2 & -> & Hd2 & Htr2 & Hp2 & Hsc2 & Hs2).
    exists sc2, lt2, m2, (delta2 ++ delta1).
    split; [done|]. split; [done|].
    split; [by rewrite Htr2, Htr1, app_assoc|].
    rewrite !count_events_app.
    split; [simpl; lia|].
    destruct Hcase as [(-> & Ha & Hs & _)|(-> & _ & Ha & Hs)]; split; lia.
Qed.
End read_once_trace_proofs.

Section start_reading_proofs.
Context {St : Type} `{Host St}.
Variable self : WxReadBot.

Lemma send_completion_notification_traced (r : reading_result) (t : Traced St) :
  ∃ notes t',
    Bot._send_completion_notification self r t = (Ret tt, t') ∧
    trace t' = notes ++ trace t ∧
    Forall (fun ev => is_push_event ev = true) notes.
Proof.
  unfold Bot._send_completion_notification.
  destruct (notification_enabled self) eqn:Hen; [|by exists [], t].
  destruct (notification_send_traced true (CompletionNotice r) t)
    as (notes & Htr & Hall & _).
  rewrite try_except_run. unfold mbind, io_bind. rewrite bind_run.
  destruct (NotificationManager.send true _ t) as [[b|e'] t']; cbn [fst snd] in *;
    by exists notes, t'.
Qed.

Lemma notes_counts (notes : list event) :
  Forall (fun ev => is_push_event ev = true) notes →
  count_events is_pacing_sleep notes = 0%nat ∧
  count_events is_accepted_read notes = 0%nat ∧
  count_events (is_sleep_of 30) notes = 0%nat.
Proof.
  intros Hn. repeat split; apply count_events_none;
    (eapply Forall_impl; [exact Hn|]); by intros [|? ?|[?|?]|?].
Qed.

Lemma length_py_range2 (a b : Z) : length (py_range2 a b) = Z.to_nat (b - a).
Proof. unfold py_range2. by rewrite length_map, length_seq. Qed.

(** The whole run on a traced host. *)
Lemma start_reading_traced (m : Machine (Traced St)) (d : pydict) :
  heap m !! base_data self = Some d →
  ∃ (ok : bool) (m0 : Machine (Traced St)),
    Bot.refresh_cookie self m = (Ret ok, m0) ∧
    if ok then
      if read_num self =? 0
      then (Bot.start_reading self m).1 = Raise ZeroDivisionError
      else
        ∃ (result : reading_result) (m' : Machine (Traced St))
          (delta : list event),
          Bot.start_reading self m = (Ret result, m') ∧
          trace (host m') = delta ++ trace (host m0) ∧
          count_events is_pacing_sleep delta = Z.to_nat (read_num self) ∧
          success_count result = Z.of_nat (count_events is_accepted_read delta) ∧
          count_events (is_sleep_of 30) delta
          = count_events is_accepted_read delta ∧
          total_attempts result = read_num self ∧
          reading_minutes result
          = PrimFloat.mul (float_of_int (success_count result)) 0.5%float ∧
          success_rate result
          = PrimFloat.mul
              (PrimFloat.div (float_of_int (success_count result))
                             (float_of_int (read_num self)))
              (float_of_int 100)
    else Bot.start_reading self m = (Raise AuthError, m0).
Proof.
  intros Hd.
  destruct (refresh_cookie_traced self m)
    as (ok & m0 & notes0 & rq & a & Hrc & _ & _ & _ & Hheap & _).
  exists ok, m0. split; [done|].
  destruct ok; cycle 1.
  { unfold Bot.start_reading, mbind, io_bind. by rewrite bind_run, Hrc. }
  destruct m0 as [t0 h0 ck0 cb0]. cbn [heap] in Hheap. subst h0.
  destruct (for_each_traced self (py_range2 1 (read_num self + 1)) 0
              (time_time t0 - 30)
              {| host := t0; heap := heap m; cookies := ck0; circuit_breaker := cb0 |}
              d Hd)
    as (sc & lt & m1 & delta & Hloop & _ & Htr & Hp & Hsc & Hs).
  rewrite length_py_range2 in Hp.
  assert (∀ A (k : Z * Z → IO (Machine (Traced St)) A),
            bind (for_each (py_range2 1 (read_num self + 1))
                    (Bot.attempt_body self) (0, time_time t0 - 30)) k
              {| host := t0; heap := heap m; cookies := ck0; circuit_breaker := cb0 |}
            = k (sc, lt) m1) as Hbind.
  { intros A k. by rewrite bind_run, Hloop. }
  destruct (read_num self =? 0) eqn:EN.
  - unfold Bot.start_reading, mbind, io_bind. rewrite bind_run, Hrc.
    cbn [negb]. rewrite bind_run, lift_host_run. unfold reads at 1 2.
    cbn [fst snd]. rewrite Hbind, EN. done.
  - destruct m1 as [t1 h1 ck1 cb1].
    destruct (send_completion_notification_traced
                {| success_count := sc;
                   total_attempts := read_num self;
                   reading_minutes := PrimFloat.mul (float_of_int sc) 0.5%float;
                   success_rate :=
                     PrimFloat.mul
                       (PrimFloat.div (float_of_int sc)
                          (float_of_int (read_num self)))
                       (float_of_int 100) |} t1)
      as (notes & t' & Hsend & Htr' & Hn).
    destruct (notes_counts notes Hn) as (Hn1 & Hn2 & Hn3).
    eexists _, _, (notes ++ delta). split.
    { unfold Bot.start_reading, mbind, io_bind. rewrite bind_run, Hrc.
      cbn [negb]. rewrite bind_run, lift_host_run. unfold reads at 1 2.
      cbn [fst snd]. rewrite Hbind, EN.
      rewrite bind_run, lift_host_run, Hsend. done. }
    cbn [host fst snd] in *.
    split; [by rewrite Htr', Htr, app_assoc|].
    rewrite !count_events_app, Hn1, Hn2, Hn3.
    cbn [success_count total_attempts reading_minutes success_rate].
    repeat split; try done; lia.
Qed.
End start_reading_proofs.

(** ** Strings: [in], [split], [join] *)

Lemma starts_with_spec (p s : pystr) :
  starts_with p s = true ↔ ∃ b, s = p ++ b.
Proof.
  revert s. induction p as [|a p IH]; intros s; simpl.
  - split; [eauto|done].
  - destruct s as [|c s]; simpl.
    + split; [done|]. by intros (b & ?).
    + rewrite andb_true_iff, Z.eqb_eq, IH. split.
      * intros (-> & b & ->). eauto.
      * intros (b & [= -> ->]). eauto.
Qed.

Lemma str_contains_spec (needle s : pystr) :
  str_contains needle s = true ↔ ∃ a b, s = a ++ needle ++ b.
Proof.
  induction s as [|c s IH].
  - simpl. rewrite orb_false_r, starts_with_spec. split.
    + intros (b & ->). by exists [], b.
    + intros (a & b & E). destruct a; [by exists b|done].
  - cbn [str_contains]. rewrite orb_true_iff, starts_with_spec, IH. split.
    + intros [(b & ->)|(a & b & ->)]; [by exists [], b|by exists (c :: a), b].
    + intros (a & b & E). destruct a as [|c' a]; [left; by exists b|].
      right. injection E as -> ->. eauto.
Qed.

Lemma py_split_nonempty (c : Z) (s : pystr) : py_split c s ≠ [].
Proof.
  induction s as [|x s IH]; simpl; [done|].
  destruct (x =? c); [done|]. by destruct (py_split c s).
Qed.

(** Splitting loses nothing: joining the parts with the separator gives
    the string back. *)
Lemma py_join_split (c : Z) (s : pystr) : py_join [c] (py_split c s) = s.
Proof.
  induction s as [|x s IH]; simpl; [done|].
  pose proof (py_split_nonempty c s) as Hne.
  destruct (Z.eqb_spec x c) as [->|Hxc].
  - destruct (py_split c s) as [|p ps] eqn:E; [done|]. simpl in *. by rewrite IH.
  - destruct (py_split c s) as [|p ps] eqn:E; [done|].
    destruct ps; simpl in *; by rewrite <- IH.
Qed.

(** No part contains the separator. *)
Lemma py_split_parts (c : Z) (s : pystr) : Forall (fun p => c ∉ p) (py_split c s).
Proof.
  induction s as [|x s IH]; simpl.
  - constructor; [|done]. by intros ?%elem_of_nil.
  - destruct (Z.eqb_spec x c) as [->|Hxc].
    + constructor; [|done]. by intros ?%elem_of_nil.
    + pose proof (py_split_nonempty c s) as Hne.
      destruct (py_split c s) as [|p ps]; [done|].
      inversion IH as [|? ? Hp Hps]; subst. constructor; [|done].
      intros [?|?]%elem_of_cons; [congruence|done].
Qed.

Lemma py_join_snoc (sep : pystr) (ps : list pystr) (suf : pystr) :
  py_join sep (ps ++ [suf])
  = match ps with
    | [] => suf
    | _ => py_join sep ps ++ sep ++ suf
    end.
Proof.
  induction ps as [|p ps IH]; [done|].
  destruct ps as [|q ps]; [done|].
  change (py_join sep ((p :: q :: ps) ++ [suf]))
    with (p ++ sep ++ py_join sep ((q :: ps) ++ [suf])).
  rewrite IH.
  change (py_join sep (p :: q :: ps)) with (p ++ (sep ++ py_join sep (q :: ps))).
  by rewrite <- !app_assoc.
Qed.

(** The last part of a split is the text after the last separator, or
    the whole string when there is none. *)
Lemma py_split_last (c : Z) (s : pystr) :
  let suf := List.last (py_split c s) [] in
  (c ∉ suf) ∧ (s = suf ∨ ∃ pre, s = pre ++ c :: suf).
Proof.
  pose proof (py_split_nonempty c s) as Hne.
  pose proof (py_join_split c s) as Hjoin.
  pose proof (py_split_parts c s) as Hparts.
  destruct (exists_last Hne) as (ps & suf & E). rewrite E in *.
  rewrite last_last. cbv zeta.
  apply Forall_app in Hparts as [_ Hsuf]. inversion Hsuf as [|? ? Hc _].
  split; [done|].
  rewrite py_join_snoc in Hjoin. destruct ps as [|p ps]; [by left|].
  right. eexists. by rewrite <- Hjoin.
Qed.

(** ** Session renewal *)

Lemma find_skey_None (frags : list pystr) :
  RequestManager.find_skey frags = None
  ↔ Forall (fun frag => str_contains (py "wr_skey") frag = false) frags.
Proof.
  induction frags as [|f frags IH]; simpl; [done|].
  destruct (str_contains (py "wr_skey") f) eqn:E.
  - split; [done|]. intros Hall. inversion Hall; congruence.
  - rewrite IH. split; [by constructor|]. intros Hall. by inversion Hall.
Qed.

Lemma find_skey_Some (frags : list pystr) (key : pystr) :
  RequestManager.find_skey frags = Some key →
  ∃ before frag after,
    frags = before ++ frag :: after ∧
    Forall (fun f => str_contains (py "wr_skey") f = false) before ∧
    str_contains (py "wr_skey") frag = true ∧
    key = take 8 (List.last (py_split 61 frag) []).
Proof.
  induction frags as [|f frags IH]; simpl; [done|].
  destruct (str_contains (py "wr_skey") f) eqn:E.
  - intros [= <-]. by exists [], f, frags.
  - intros (before & frag & after & -> & Hb & Hf & Hk)%IH.
    exists (f :: before), frag, after. repeat split; try done. by constructor.
Qed.

Section renewal_proofs.
Context {St : Type} `{Host St}.
Variable self : WxReadBot.

Lemma refresh_cookie_on_success (m : Machine St) (r : response) (s1 : St) :
  session_post (renew_request self (cookies m)) (host m) = (HttpResponse r, s1) →
  RequestManager.raises_for_status r = false →
  let returned := RequestManager.extract_skey (default [] (set_cookie r)) in
  RequestManager.renew_cookie (timeout self) (headers self) (cookies m) (host m)
  = (Ret returned, s1) ∧
  (truthy returned = true →
     Bot.refresh_cookie self m
     = (Ret true,
        {| host := s1; heap := heap m;
           cookies := <[py "wr_skey" := default [] returned]> (cookies m);
           circuit_breaker := circuit_breaker m |})) ∧
  (truthy returned = false →
     (Bot.refresh_cookie self m).1 = Ret false ∧
     cookies (Bot.refresh_cookie self m).2 = cookies m).
Proof.
  intros Hpost Hst returned.
  assert (RequestManager.renew_cookie (timeout self) (headers self) (cookies m) (host m)
          = (Ret returned, s1)) as Hrenew.
  { unfold RequestManager.renew_cookie. fold (renew_request self (cookies m)).
    by rewrite Hpost, Hst. }
  split; [done|].
  assert (Bot.refresh_cookie self m
          = if truthy returned
            then (Ret true,
                  {| host := s1; heap := heap m;
                     cookies := <[py "wr_skey" := default [] returned]> (cookies m);
                     circuit_breaker := circuit_breaker m |})
            else (Ret false,
                  {| host := (Bot._send_error_notification self NoNewKey s1).2;
                     heap := heap m; cookies := cookies m;
                     circuit_breaker := circuit_breaker m |})) as Hrefresh.
  { unfold Bot.refresh_cookie. rewrite try_except_run.
    unfold mbind, io_bind. rewrite bind_run. unfold reads at 1. cbn beta iota.
    rewrite bind_run. destruct m as [s h ck cb]. rewrite lift_host_run.
    cbn [cookies host heap circuit_breaker] in *. rewrite Hrenew. cbn [fst snd].
    destruct (truthy returned).
    - by rewrite bind_run.
    - rewrite bind_run, lift_host_run.
      pose proof (send_error_notification_ret self NoNewKey s1) as Hn.
      destruct (Bot._send_error_notification self NoNewKey s1) as [r0 s2].
      simpl in Hn. by subst r0. }
  rewrite Hrefresh. split; intros ->; done.
Qed.
End renewal_proofs.

(** C10, as the code has it. After a renewal answered with an HTTP
    success, [renew_cookie] returns [None] exactly when no [;]-separated
    fragment of the [Set-Cookie] header contains [wr_skey]; otherwise it
    returns, for the first fragment that does, the text after that
    fragment's last [=] (the whole fragment when it has none) cut to its
    first 8 characters. [refresh_cookie] installs that value as
    [cookies['wr_skey']] when it is not empty; an empty value, like
    [None], is a failed renewal that leaves the cookies as they were. *)
Theorem renew_cookie_session_key
    {St : Type} `{Host St} (self : WxReadBot) (m : Machine St)
    (r : response) (s1 : St) :
  session_post (renew_request self (cookies m)) (host m) = (HttpResponse r, s1) →
  RequestManager.raises_for_status r = false →
  let header := default [] (set_cookie r) in
  let fragments := py_split 59 header in
  let has_skey := fun frag : pystr => ∃ a b, frag = a ++ py "wr_skey" ++ b in
  ∃ returned : option pystr,
    RequestManager.renew_cookie (timeout self) (headers self) (cookies m) (host m)
    = (Ret returned, s1) ∧
    (returned = None ↔ Forall (fun frag => ¬ has_skey frag) fragments) ∧
    (∀ key, returned = Some key →
       (length key ≤ 8)%nat ∧
       ∃ before frag after suf,
         fragments = before ++ frag :: after ∧
         Forall (fun f => ¬ has_skey f) before ∧ has_skey frag ∧
         (61 ∉ suf) ∧ (frag = suf ∨ ∃ pre, frag = pre ++ 61 :: suf) ∧
         key = take 8 suf) ∧
    (∀ key, returned = Some key → key ≠ [] →
       ∃ m', Bot.refresh_cookie self m = (Ret true, m') ∧
             cookies m' = <[py "wr_skey" := key]> (cookies m)) ∧
    (returned = None ∨ returned = Some [] →
       (Bot.refresh_cookie self m).1 = Ret false ∧
       cookies (Bot.refresh_cookie self m).2 = cookies m).
Proof.
  intros Hpost Hst header fragments has_skey.
  destruct (refresh_cookie_on_success self m r s1 Hpost Hst) as (Hrenew & Hok & Hfail).
  fold header in Hrenew, Hok, Hfail.
  exists (RequestManager.extract_skey header). split; [done|].
  assert (∀ l : list pystr,
            Forall (fun f => str_contains (py "wr_skey") f = false) l
            ↔ Forall (fun f => ¬ has_skey f) l) as Hno.
  { intros l. apply Forall_iff. intros f. subst has_skey. cbv beta.
    rewrite <- str_contains_spec. by destruct (str_contains _ f). }
  split; [|split; [|split]].
  - unfold RequestManager.extract_skey. fold fragments.
    by rewrite find_skey_None, Hno.
  - intros key Hkey. unfold RequestManager.extract_skey in Hkey. fold fragments in Hkey.
    destruct (find_skey_Some _ _ Hkey) as (before & frag & after & E & Hb & Hf & ->).
    split; [rewrite length_take; lia|].
    destruct (py_split_last 61 frag) as [Hsuf Hcut].
    exists before, frag, after, (List.last (py_split 61 frag) []).
    split; [done|]. split; [by apply Hno|].
    split; [by apply str_contains_spec|]. done.
  - intros key Hkey Hne. rewrite Hkey in Hok.
    eexists. split; [apply Hok; by destruct key|done].
  - intros [Hret|Hret]; rewrite Hret in Hfail; by apply Hfail.
Qed.

(** C10 as stated fails: the renewal header [wr_skey=; Path=/] has a
    fragment that contains [wr_skey], the returned key is the empty
    string, and [refresh_cookie] installs nothing. *)
Lemma renewal_empty_key_not_installed :
  (∃ frag, frag ∈ py_split 59 (py "wr_skey=; Path=/") ∧
           str_contains (py "wr_skey") frag = true) ∧
  (RequestManager.renew_cookie 30 (headers (sample_bot 10))
     (cookies empty_key_machine) (host empty_key_machine)).1 = Ret (Some []) ∧
  (Bot.refresh_cookie (sample_bot 10) empty_key_machine).1 = Ret false ∧
  cookies (Bot.refresh_cookie (sample_bot 10) empty_key_machine).2 !! py "wr_skey"
  = None.
Proof.
  split; [|split; [|split]].
  - exists (py "wr_skey="). split; [|by vm_compute]. vm_compute. apply list_elem_of_here.
  - by vm_compute.
  - by vm_compute.
  - by vm_compute.
Qed.

(** ** Response validation *)

Lemma validate_response_spec (r : pyval) :
  CryptoUtils.validate_response r = true
  ↔ ∃ d v, r = PDict d ∧ d !! py "succ" = Some v ∧ CryptoUtils.py_eq_one v = true.
Proof.
  split.
  - intros Hv. destruct (validate_response_dict r Hv) as [d ->].
    unfold CryptoUtils.validate_response, CryptoUtils.py_contains,
      CryptoUtils.py_get in Hv. simpl in Hv.
    destruct (d !! py "succ") as [v|] eqn:E; simpl in Hv; [|done].
    exists d, v. split; [done|]. split; [done|].
    by destruct (CryptoUtils.py_eq_one v).
  - intros (d & v & -> & E & Hone).
    unfold CryptoUtils.validate_response, CryptoUtils.py_contains,
      CryptoUtils.py_get. simpl. rewrite E. simpl. by rewrite Hone.
Qed.

(** [synckey] plays no part in the validation. *)
Lemma validate_response_synckey (d : pydict) (x : pyval) :
  CryptoUtils.validate_response (PDict (<[py "synckey" := x]> d))
  = CryptoUtils.validate_response (PDict (delete (py "synckey") d)).
Proof.
  unfold CryptoUtils.validate_response, CryptoUtils.py_contains, CryptoUtils.py_get.
  simpl.
  rewrite lookup_insert_ne by (intros E; vm_compute in E; discriminate E).
  rewrite lookup_delete_ne by (intros E; vm_compute in E; discriminate E).
  done.
Qed.

Lemma read_book_events_no_other_post (delta : list event) :
  Forall (fun ev => is_read_book_event ev = true) delta →
  count_events (is_post_to UrlRenew) delta = 0%nat ∧
  count_events (is_post_to UrlFixSynckey) delta = 0%nat.
Proof.
  intros Hall. split; apply count_events_none;
    (eapply Forall_impl; [exact Hall|]);
    intros [|rq ?|[?|?]|?]; try done;
    unfold is_read_book_event; simpl; by destruct (req_url rq).
Qed.

Lemma aftermath_posts (ok : bool) (t last_time ct : Z) (err : option read_error)
    (delta_rb delta_after : list event) :
  attempt_shape ok t last_time ct err delta_rb delta_after →
  count_events (is_post_to UrlRenew) delta_after
  = match err with
    | Some CookieRefreshed | Some CookieRefreshFailed => 1%nat
    | _ => 0%nat
    end ∧
  count_events (is_post_to UrlFixSynckey) delta_after
  = match err with
    | Some MissingSynckey => 1%nat
    | _ => 0%nat
    end.
Proof.
  assert (∀ notes, Forall (fun ev => is_push_event ev = true) notes →
            ∀ url, count_events (is_post_to url) notes = 0%nat) as Hnotes.
  { intros notes Hn url. apply count_events_none.
    eapply Forall_impl; [exact Hn|]. by intros [|? ?|[?|?]|?]. }
  unfold attempt_shape. destruct err as [[| | |e]|].
  - intros (_ & _ & rq & a & -> & Hurl).
    rewrite !count_events_cons. simpl. by rewrite Hurl.
  - intros (_ & _ & notes & rq & a & -> & Hurl & Hn).
    rewrite !count_events_app, !count_events_cons, !Hnotes by done.
    simpl. by rewrite Hurl.
  - intros (_ & _ & notes & rq & a & -> & Hurl & Hn).
    rewrite !count_events_app, !count_events_cons, !Hnotes by done.
    simpl. by rewrite Hurl.
  - by intros (_ & _ & ->).
  - by intros (_ & _ & -> & _).
Qed.

(** C2, as the code has it. [validate_response] is true exactly for a JSON
    object whose [succ] equals 1, whatever its [synckey]. A status of 4xx or
    5xx and a body that is not JSON make [post_json]'s body raise a
    [NetworkError]. [read_once] then goes by what [read_book] returned: a
    validated body with a [synckey] is the success; a validated body
    without one is the repair path (one post to the repair endpoint, the
    attempt failed); a body that does not validate is the renewal path (one
    post to the renewal endpoint, the attempt failed); an exception of
    [read_book] (a [NetworkError] after the retries, or the open circuit)
    is a failed attempt with no renewal and no repair. *)
Theorem read_once_classification
    {St : Type} `{Host St} (self : WxReadBot) (book_id chapter_id : pystr)
    (last_time : Z) (m : Machine (Traced St)) (d : pydict) :
  heap m !! base_data self = Some d →
  (∀ r, CryptoUtils.validate_response r = true
        ↔ ∃ dd v, r = PDict dd ∧ dd !! py "succ" = Some v ∧
                  CryptoUtils.py_eq_one v = true) ∧
  (∀ dd x, CryptoUtils.validate_response (PDict (<[py "synckey" := x]> dd))
           = CryptoUtils.validate_response (PDict (delete (py "synckey") dd))) ∧
  (∀ url data hdrs cks (t : Traced St) r,
     (session_post (post_json_request (timeout self) url data hdrs cks) (inner t)).1
     = HttpResponse r →
     RequestManager.raises_for_status r = true ∨ json_body r = None →
     ∃ why, (RequestManager.post_json_body (timeout self) url data hdrs cks t).1
            = Raise (NetworkError why)) ∧
  ∃ (ok : bool) (t : Z) (err : option read_error) (m' : Machine (Traced St))
    (l : nat) (payload : pydict) (m1 : Machine (Traced St)),
    Bot.read_once self book_id chapter_id last_time m = (Ret (ok, t, err), m') ∧
    CryptoUtils.create_request_data (base_data self) book_id chapter_id
      last_time m = (Ret l, m1) ∧
    heap m1 !! l = Some payload ∧
    let renewals := fun x : Machine (Traced St) =>
      count_events (is_post_to UrlRenew) (trace (host x)) in
    let repairs := fun x : Machine (Traced St) =>
      count_events (is_post_to UrlFixSynckey) (trace (host x)) in
    match (RequestManager.read_book (timeout self) (PDict payload)
             (headers self) (cookies m) m1).1 with
    | Ret v =>
        if CryptoUtils.validate_response v then
          match CryptoUtils.py_contains (py "synckey") v with
          | Some true =>
              ok = true ∧ err = None ∧
              renewals m' = renewals m ∧ repairs m' = repairs m
          | Some false =>
              ok = false ∧ t = last_time ∧ err = Some MissingSynckey ∧
              renewals m' = renewals m ∧ repairs m' = S (repairs m)
          | None => False
          end
        else
          ok = false ∧ t = last_time ∧
          (err = Some CookieRefreshed ∨ err = Some CookieRefreshFailed) ∧
          renewals m' = S (renewals m) ∧ repairs m' = repairs m
    | Raise e =>
        ok = false ∧ t = last_time ∧ err = Some (RequestFailed e) ∧
        renewals m' = renewals m ∧ repairs m' = repairs m
    end.
Proof.
  intros Hd.
  split; [apply validate_response_spec|].
  split; [apply validate_response_synckey|].
  split.
  { intros url data hdrs cks t r Hans Hbad.
    rewrite post_json_body_traced. cbn [fst]. rewrite Hans. unfold classify_answer.
    destruct Hbad as [->| ->]; [eauto|].
    destruct (RequestManager.raises_for_status r); eauto. }
  destruct (read_once_traced self book_id chapter_id last_time m d Hd)
    as (ok & t & err & m' & delta_rb & delta_after & Hro & _ & Htr & Hall & _
        & Hshape & l & payload & m1 & Hcrd & Hpay & Hlink).
  exists ok, t, err, m', l, payload, m1. split; [done|]. split; [done|].
  split; [done|]. cbv beta zeta. rewrite Htr, !count_events_app.
  destruct (read_book_events_no_other_post delta_rb Hall) as [-> ->].
  destruct (aftermath_posts _ _ _ _ _ _ _ Hshape) as [-> ->].
  destruct (RequestManager.read_book _ _ _ _ m1).1 as [v|e].
  - destruct (CryptoUtils.validate_response v) eqn:Hval.
    + destruct (validate_response_dict v Hval) as [dd ->].
      unfold CryptoUtils.py_contains in *.
      destruct (bool_decide _); subst err; unfold attempt_shape in Hshape;
        destruct Hshape as (? & ? & _); done.
    + destruct Hlink as [-> | ->]; unfold attempt_shape in Hshape;
        destruct Hshape as (? & ? & _); repeat split; auto.
  - subst err. unfold attempt_shape in Hshape.
    destruct Hshape as (? & ? & _). done.
Qed.

(** C2 as stated fails: answered with 401 three times, or with a body
    that is not JSON, [read_once] records a failed request and never posts
    to the renewal endpoint. *)
Lemma http_error_is_not_renewed :
  (Bot.read_once (sample_bot 10) (py "book") (py "chapter") 7
     unauthorized_machine).1
  = Ret (false, 7, Some (RequestFailed (NetworkError HttpError))) ∧
  count_events (is_post_to UrlRead)
    (trace (host (Bot.read_once (sample_bot 10) (py "book") (py "chapter") 7
                    unauthorized_machine).2)) = 3%nat ∧
  count_events (is_post_to UrlRenew)
    (trace (host (Bot.read_once (sample_bot 10) (py "book") (py "chapter") 7
                    unauthorized_machine).2)) = 0%nat ∧
  (Bot.read_once (sample_bot 10) (py "book") (py "chapter") 7
     malformed_machine).1
  = Ret (false, 7, Some (RequestFailed (NetworkError JsonDecode))) ∧
  count_events (is_post_to UrlRenew)
    (trace (host (Bot.read_once (sample_bot 10) (py "book") (py "chapter") 7
                    malformed_machine).2)) = 0%nat.
Proof. repeat split; by vm_compute. Qed.

(** ** The read loop *)

Lemma validate_read_num_range (value : option Z) (n : Z) :
  _validate_read_num value = Some n → 1 ≤ n ≤ 1000.
Proof.
  unfold _validate_read_num. destruct value as [num|]; [|intros [= <-]; lia].
  destruct (Z.leb_spec num 0); [done|].
  destruct (Z.ltb_spec 1000 num); [done|]. intros [= <-]. lia.
Qed.

(** C5. [read_once] never raises. When it reports a failure (the missing
    synckey, the failed validation with or without a renewed cookie, an
    exception of the attempt) the time it returns is the caller's
    [last_time]; when it reports a success the time is the [ct] of the
    request the server has just accepted, whose [rt] was computed from
    [last_time]. One turn of the loop therefore either counts a success and
    advances the time to the [ct] of an accepted request of that turn, or
    keeps both the count and the time. *)
Theorem last_time_advances_only_on_success
    {St : Type} `{Host St} (self : WxReadBot) (book_id chapter_id : pystr)
    (attempt success_count last_time : Z) (m : Machine (Traced St)) (d : pydict) :
  heap m !! base_data self = Some d →
  (∃ (ok : bool) (t : Z) (err : option read_error) (m' : Machine (Traced St)),
     Bot.read_once self book_id chapter_id last_time m = (Ret (ok, t, err), m') ∧
     (ok = false → t = last_time ∧ ∃ e, err = Some e) ∧
     (ok = true →
        err = None ∧ t = time_time (host m) ∧
        ∃ rq a rest payload,
          trace (host m') = EvPost rq a :: rest ∧
          is_accepted_read (EvPost rq a) = true ∧
          req_body rq = PDict payload ∧
          payload !! py "ct" = Some (PInt t) ∧
          payload !! py "rt" = Some (PInt (t - last_time)))) ∧
  (∃ (success_count' last_time' : Z) (m' : Machine (Traced St))
     (delta : list event),
     Bot.attempt_body self attempt (success_count, last_time) m
     = (Ret (success_count', last_time'), m') ∧
     trace (host m') = delta ++ trace (host m) ∧
     ((success_count' = success_count + 1 ∧
       ∃ rq a payload,
         EvPost rq a ∈ delta ∧ is_accepted_read (EvPost rq a) = true ∧
         req_body rq = PDict payload ∧
         payload !! py "ct" = Some (PInt last_time') ∧
         payload !! py "rt" = Some (PInt (last_time' - last_time))) ∨
      (success_count' = success_count ∧ last_time' = last_time ∧
       count_events is_accepted_read delta = 0%nat))).
Proof.
  intros Hd. split.
  - destruct (read_once_traced self book_id chapter_id last_time m d Hd)
      as (ok & t & err & m' & delta_rb & delta_after & Hro & _ & Htr & _ & _
          & Hshape & _).
    exists ok, t, err, m'. split; [done|].
    unfold attempt_shape in Hshape.
    destruct err as [[| | |e]|].
    + destruct Hshape as (-> & -> & _). split; [eauto|done].
    + destruct Hshape as (-> & -> & _). split; [eauto|done].
    + destruct Hshape as (-> & -> & _). split; [eauto|done].
    + destruct Hshape as (-> & -> & _). split; [eauto|done].
    + destruct Hshape as (-> & -> & -> & rq & a & rest & payload & -> & ? & ? & ? & ?).
      split; [done|]. intros _. split; [done|]. split; [done|].
      exists rq, a, (rest ++ trace (host m)), payload. by rewrite Htr.
  - destruct (attempt_body_traced self attempt success_count last_time m d Hd)
      as (sc' & lt' & m' & delta & Hab & _ & Htr & _ & Hcase).
    exists sc', lt', m', delta. split; [done|]. split; [done|].
    destruct Hcase as [(-> & _ & _ & Hpost)|(-> & -> & Hz & _)]; [by left|by right].
Qed.

(** C6. With a validated attempt count [N] and the initial renewal
    succeeded, [start_reading] returns after exactly [N] turns of the loop
    (one pacing sleep each); of its result, [success_count] is the number
    [S] of reads the server accepted during the run, which is also the
    number of 30-second sleeps, [total_attempts] is [N], [reading_minutes]
    is [S * 0.5] and [success_rate] is [S / N * 100], in floating point as
    Python computes them. With [N = 10] and [S = 10] these are [5.0] and
    [100.0]. *)
Theorem start_reading_statistics
    {St : Type} `{Host St} (self : WxReadBot) (m m0 : Machine (Traced St))
    (d : pydict) (configured : option Z) :
  heap m !! base_data self = Some d →
  _validate_read_num configured = Some (read_num self) →
  Bot.refresh_cookie self m = (Ret true, m0) →
  ∃ (result : reading_result) (m' : Machine (Traced St)) (delta : list event),
    Bot.start_reading self m = (Ret result, m') ∧
    trace (host m') = delta ++ trace (host m0) ∧
    count_events is_pacing_sleep delta = Z.to_nat (read_num self) ∧
    count_events (is_sleep_of 30) delta = count_events is_accepted_read delta ∧
    let S := Z.of_nat (count_events is_accepted_read delta) in
    let N := read_num self in
    success_count result = S ∧
    total_attempts result = N ∧
    reading_minutes result = PrimFloat.mul (float_of_int S) 0.5%float ∧
    success_rate result
    = PrimFloat.mul (PrimFloat.div (float_of_int S) (float_of_int N)) 100%float ∧
    (N = 10 → S = 10 →
     reading_minutes result = 5%float ∧ success_rate result = 100%float).
Proof.
  intros Hd Hn Hrc.
  apply validate_read_num_range in Hn.
  destruct (start_reading_traced self m d Hd) as (ok & m0' & Hrc' & Hrun).
  rewrite Hrc in Hrc'. injection Hrc' as <- <-.
  destruct (Z.eqb_spec (read_num self) 0) as [|_]; [lia|].
  destruct Hrun as (result & m' & delta & Hsr & Htr & Hp & Hsc & Hs & Hta & Hrm & Hrate).
  exists result, m', delta. split; [done|]. split; [done|]. split; [done|].
  split; [done|]. cbv zeta. rewrite <- Hsc.
  split; [done|]. split; [done|]. split; [done|]. split; [done|].
  intros HN HS. rewrite Hrm, Hrate, HN, HS. done.
Qed.

(** C9. [refresh_cookie] never raises, and neither does [read_once]. With
    a validated attempt count, [start_reading] raises exactly when the
    initial renewal fails, and then with [AuthError] before any attempt;
    otherwise it returns its result after all [N] turns of the loop,
    whatever the attempts met. *)
Theorem start_reading_raises_only_at_start
    {St : Type} `{Host St} (self : WxReadBot) (m : Machine (Traced St))
    (d : pydict) (configured : option Z) :
  heap m !! base_data self = Some d →
  _validate_read_num configured = Some (read_num self) →
  (∃ (ok : bool) (m0 : Machine (Traced St)),
     Bot.refresh_cookie self m = (Ret ok, m0) ∧
     (ok = false → Bot.start_reading self m = (Raise AuthError, m0)) ∧
     (ok = true →
        ∃ (result : reading_result) (m' : Machine (Traced St)) (delta : list event),
          Bot.start_reading self m = (Ret result, m') ∧
          trace (host m') = delta ++ trace (host m0) ∧
          count_events is_pacing_sleep delta = Z.to_nat (read_num self) ∧
          total_attempts result = read_num self) ∧
     (∀ e, (Bot.start_reading self m).1 = Raise e → e = AuthError ∧ ok = false)) ∧
  (∀ (book_id chapter_id : pystr) (last_time : Z) (m1 : Machine (Traced St))
     (d1 : pydict),
     heap m1 !! base_data self = Some d1 →
     ∃ r, (Bot.read_once self book_id chapter_id last_time m1).1 = Ret r) ∧
  (∀ (attempt success_count last_time : Z) (m1 : Machine (Traced St))
     (d1 : pydict),
     heap m1 !! base_data self = Some d1 →
     ∃ r, (Bot.attempt_body self attempt (success_count, last_time) m1).1 = Ret r).
Proof.
  intros Hd Hn. apply validate_read_num_range in Hn.
  split; [|split].
  - destruct (start_reading_traced self m d Hd) as (ok & m0 & Hrc & Hrun).
    exists ok, m0. split; [done|].
    destruct ok.
    + destruct (Z.eqb_spec (read_num self) 0) as [|_]; [lia|].
      destruct Hrun as (result & m' & delta & Hsr & Htr & Hp & _ & _ & Hta & _).
      split; [done|]. split; [intros _; by exists result, m', delta|].
      intros e. by rewrite Hsr.
    + split; [done|]. split; [done|]. intros e. rewrite Hrun. by intros [= <-].
  - intros book_id chapter_id last_time m1 d1 Hd1.
    destruct (read_once_traced self book_id chapter_id last_time m1 d1 Hd1)
      as (ok & t & err & m' & ? & ? & -> & _). eauto.
  - intros attempt sc lt m1 d1 Hd1.
    destruct (attempt_body_traced self attempt sc lt m1 d1 Hd1)
      as (sc' & lt' & m' & delta & -> & _). eauto.
Qed.

(** * The theorems at work on the sample run *)

(** A breaker with threshold 1 is open after one failure, and ten seconds
    later rejects any call without touching the host. *)
Lemma circuit_breaker_state_machine_witness :
  cb_reachable tripped_breaker ∧ state tripped_breaker = OPEN ∧
  ∀ other : IO Scripted pyval,
    CircuitBreakerImpl._call_with_circuit_breaker tripped_breaker other
      {| clock := 10000000; answers := [accepted_answer] |}
    = ((Raise CircuitBreakerError, tripped_breaker),
       {| clock := 10000000; answers := [accepted_answer] |}).
Proof.
  assert (cb_reachable tripped_breaker) as Hreach.
  { unfold tripped_breaker. apply cb_reach_call. apply cb_reach_init. }
  split; [exact Hreach|]. split; [reflexivity|].
  destruct (circuit_breaker_state_machine tripped_breaker failing_call
              {| clock := 10000000; answers := [accepted_answer] |} Hreach)
    as (_ & Hopen & _).
  apply (Hopen 0); [reflexivity|reflexivity|reflexivity].
Defined.

(** Two timeouts, then an answer: the wrapper returns it after three
    invocations. *)
Lemma retry_with_backoff_contract_witness :
  (retry_with_backoff (St := Traced Scripted) 3 1%float 60%float 2%float true
     RequestManager.is_NetworkError (untraced_callback None)
     (traced_call failing_call) flaky_start).1
  = Ret (PDict {[ py "succ" := PInt 1; py "synckey" := PInt 123 ]}) ∧
  calls (trace (retry_with_backoff (St := Traced Scripted) 3 1%float 60%float
                  2%float true RequestManager.is_NetworkError
                  (untraced_callback None) (traced_call failing_call)
                  flaky_start).2) = 3%nat.
Proof.
  assert (fails_first 1%float 60%float 2%float true RequestManager.is_NetworkError
            None failing_call 2 0 (inner flaky_start)
            {| clock := 2000000; answers := [accepted_answer] |}) as Hpre.
  { eapply fails_first_S; [reflexivity|reflexivity|reflexivity|].
    eapply fails_first_S; [reflexivity|reflexivity|reflexivity|].
    apply fails_first_O. }
  destruct (retry_with_backoff_contract 3 1%float 60%float 2%float true
              RequestManager.is_NetworkError None failing_call 2 flaky_start
              {| clock := 2000000; answers := [accepted_answer] |} Hpre)
    as (Hok & _ & _); [reflexivity|].
  destruct (Hok (PDict {[ py "succ" := PInt 1; py "synckey" := PInt 123 ]})
              {| clock := 2000000; answers := [] |})
    as (Hres & _ & Hcalls); [reflexivity|].
  split; [exact Hres|exact Hcalls].
Defined.

(** The base payload of the sample machine is the same object with the
    same entries after a request has been built from it. *)
Lemma create_request_data_frame_witness :
  heap (CryptoUtils.create_request_data 0 (py "book") (py "chapter") 7
          ten_reads_machine).2 !! 0%nat = Some sample_base.
Proof.
  destruct (create_request_data_frame 0 (py "book") (py "chapter") 7
              ten_reads_machine sample_base)
    as (l & payload & _ & _ & _ & Hbase & _); [reflexivity|].
  exact Hbase.
Defined.

(** On the sample machine an attempt returns. *)
Lemma read_once_classification_witness :
  ∃ (ok : bool) (t : Z) (err : option read_error)
    (m' : Machine (Traced Scripted)),
    Bot.read_once (sample_bot 10) (py "book") (py "chapter") 7 unauthorized_machine
    = (Ret (ok, t, err), m').
Proof.
  destruct (read_once_classification (sample_bot 10) (py "book") (py "chapter") 7
              unauthorized_machine sample_base)
    as (_ & _ & _ & ok & t & err & m' & _ & _ & _ & Hro & _); [reflexivity|].
  exists ok, t, err, m'. exact Hro.
Defined.

(** On the sample machine a turn of the loop returns. *)
Lemma last_time_advances_only_on_success_witness :
  ∃ (success_count' last_time' : Z) (m' : Machine (Traced Scripted)),
    Bot.attempt_body (sample_bot 10) 1 (0, 7) unauthorized_machine
    = (Ret (success_count', last_time'), m').
Proof.
  destruct (last_time_advances_only_on_success (sample_bot 10) (py "book")
              (py "chapter") 1 0 7 unauthorized_machine sample_base)
    as (_ & sc' & lt' & m' & delta & Hab & _); [reflexivity|].
  exists sc', lt', m'. exact Hab.
Defined.

(** Ten accepted reads: the run returns with ten turns made. *)
Lemma start_reading_statistics_witness :
  ∃ (result : reading_result) (m' : Machine (Traced Scripted)),
    Bot.start_reading (sample_bot 10) ten_reads_machine = (Ret result, m') ∧
    total_attempts result = 10.
Proof.
  destruct (start_reading_statistics (sample_bot 10) ten_reads_machine
              (Bot.refresh_cookie (sample_bot 10) ten_reads_machine).2
              sample_base (Some 10))
    as (result & m' & delta & Hsr & _ & _ & _ & _ & Hta & _);
    [reflexivity|reflexivity|vm_compute; reflexivity|].
  exists result, m'. split; [exact Hsr|exact Hta].
Defined.

(** A renewal that yields no key ends the run at once with [AuthError]. *)
Lemma start_reading_raises_only_at_start_witness :
  (Bot.start_reading (sample_bot 10) empty_key_machine).1 = Raise AuthError.
Proof.
  destruct (start_reading_raises_only_at_start (sample_bot 10) empty_key_machine
              sample_base (Some 10))
    as ((ok & m0 & Hrc & Hfail & _) & _); [reflexivity|reflexivity|].
  assert (ok = false) as Hok.
  { apply (f_equal fst) in Hrc. vm_compute in Hrc. by injection Hrc. }
  by rewrite (Hfail Hok).
Defined.

(** The sample renewal installs the first eight characters of the key. *)
Lemma renew_cookie_session_key_witness :
  ∃ m', Bot.refresh_cookie (sample_bot 10) ten_reads_machine = (Ret true, m') ∧
        cookies m' = <[py "wr_skey" := py "AbCdEfGh"]> (cookies ten_reads_machine).
Proof.
  edestruct (renew_cookie_session_key (sample_bot 10) ten_reads_machine)
    as (returned & Hrenew & _ & _ & Hinstall & _); [reflexivity|reflexivity|].
  vm_compute in Hrenew. injection Hrenew as Hret.
  apply (Hinstall (py "AbCdEfGh")); [by rewrite <- Hret|by vm_compute].
Defined.

Example ten_accepted_reads :
  (Bot.start_reading (sample_bot 10) ten_reads_machine).1
  = Ret {| success_count := 10; total_attempts := 10;
           reading_minutes := 5%float; success_rate := 100%float |}.
Proof. by vm_compute. Qed.

Example calculate_hash_empty : CryptoUtils.calculate_hash [] = Some (py "2a0a2a0a").
Proof. reflexivity. Qed.

Example calculate_hash_ab : CryptoUtils.calculate_hash (py "ab") = Some (py "2a0a2b88").
Proof. by vm_compute. Qed.

Example calculate_hash_hello :
  CryptoUtils.calculate_hash (py "hello world") = Some (py "2a0abc8e").
Proof. by vm_compute. Qed.

(** * Further properties of the code *)

(** ** The order of the serialization *)

Lemma str_leb_total (a b : pystr) : str_leb a b = true ∨ str_leb b a = true.
Proof.
  revert b. induction a as [|x a IH]; intros [|y b]; simpl; auto.
  destruct (Z.ltb_spec x y), (Z.ltb_spec y x); auto; lia.
Qed.

Lemma str_leb_trans (a b c : pystr) :
  str_leb a b = true → str_leb b c = true → str_leb a c = true.
Proof.
  revert b c. induction a as [|x a IH]; intros [|y b] [|z c]; simpl; auto; try done.
  destruct (Z.ltb_spec x y), (Z.ltb_spec y x), (Z.ltb_spec y z), (Z.ltb_spec z y),
    (Z.ltb_spec x z), (Z.ltb_spec z x); try done; try lia.
  apply IH.
Qed.

(** X1. [encode_data] serializes every entry of the dict exactly once, as
    [key=quote(str(value))], the entries joined by [&] in strictly
    ascending order of their keys (code point by code point, as Python
    compares strings): the output does not depend on the order in which
    the dict was filled. *)
Theorem encode_data_sorted_keys {St : Type} `{Host St} (data : pydict) :
  ∃ entries : list (pystr * pyval),
    (∀ k v, (k, v) ∈ entries ↔ data !! k = Some v) ∧
    NoDup entries.*1 ∧
    StronglySorted (fun p q => str_leb p.1 q.1 = true ∧ p.1 ≠ q.1) entries ∧
    CryptoUtils.encode_data data
    = py_join (py "&")
        (map (fun p => p.1 ++ py "=" ++ url_quote (py_str p.2)) entries).
Proof.
  set (R := fun p q : pystr * pyval => Is_true (str_leb p.1 q.1)).
  assert (Total R) as Htotal.
  { intros p q. unfold R. destruct (str_leb_total p.1 q.1) as [->| ->]; auto. }
  assert (Transitive R) as Htrans.
  { intros p q r. unfold R. rewrite !Is_true_true. apply str_leb_trans. }
  exists (merge_sort R (map_to_list data)).
  pose proof (merge_sort_Permutation R (map_to_list data)) as Hperm.
  assert (NoDup (merge_sort R (map_to_list data)).*1) as Hnodup.
  { rewrite Hperm. apply NoDup_fst_map_to_list. }
  split; [|split; [done|split; [|done]]].
  - intros k v. rewrite Hperm. apply elem_of_map_to_list.
  - pose proof (StronglySorted_merge_sort R (map_to_list data)) as Hsorted.
    revert Hnodup Hsorted. generalize (merge_sort R (map_to_list data)).
    induction l as [|p l IH]; [constructor|].
    rewrite fmap_cons, NoDup_cons. intros [Hp Hl] Hs.
    apply StronglySorted_inv in Hs as [Hs Hall].
    constructor; [by apply IH|].
    rewrite Forall_forall in Hall |- *. intros q Hq.
    split; [apply Is_true_true, Hall, Hq|].
    intros E. apply Hp. rewrite E. by apply list_elem_of_fmap_2.
Qed.

(** ** The fields of a request *)

(** X2. The payload [create_request_data] returns carries the second it
    was built in as [ct], that second minus the caller's [last_time] as
    [rt], a millisecond stamp [ts], a random number [rn], and as [sg] the
    SHA-256 digest of [str(ts) + str(rn) + ENCRYPTION_KEY] for the [ts] and
    [rn] of this same payload; every key of the base other than [s], [b],
    [c], [ct], [ts], [rt], [rn] and [sg] is carried over with its value.
    When [random.randint] keeps to its bounds, [ts] lies between
    [ct * 1000] and [ct * 1000 + 1000], both included, and [rn] between 0
    and 1000. *)
Theorem create_request_data_fields
    {St : Type} `{Host St} (base : nat) (book_id chapter_id : pystr)
    (last_time : Z) (m : Machine St) (d : pydict) :
  heap m !! base = Some d →
  let out := CryptoUtils.create_request_data base book_id chapter_id last_time m in
  let ct := time_time (host m) in
  ∃ (l : nat) (payload : pydict) (ts rn : Z),
    out.1 = Ret l ∧ heap out.2 !! l = Some payload ∧
    payload !! py "ct" = Some (PInt ct) ∧
    payload !! py "rt" = Some (PInt (ct - last_time)) ∧
    payload !! py "ts" = Some (PInt ts) ∧
    payload !! py "rn" = Some (PInt rn) ∧
    payload !! py "sg"
    = Some (PStr (sha256_hexdigest
                    (py_str_int ts ++ py_str_int rn ++ CryptoUtils.ENCRYPTION_KEY))) ∧
    (∀ k, k ∉ [py "s"; py "b"; py "c"; py "ct"; py "ts"; py "rt"; py "rn"; py "sg"] →
          payload !! k = d !! k) ∧
    ((∀ a b s, a ≤ b → a ≤ (random_randint a b s).1 ≤ b) →
     ct * 1000 ≤ ts ≤ ct * 1000 + 1000 ∧ 0 ≤ rn ≤ 1000).
Proof.
  intros Hd out ct. subst out.
  rewrite (create_request_data_run base book_id chapter_id last_time m d Hd).
  cbv zeta. cbn [fst snd heap]. fold ct.
  set (r1 := random_randint 0 1000 (host m)).
  set (r2 := random_randint 0 1000 r1.2).
  eexists _, _, (ct * 1000 + r1.1), r2.1.
  split; [done|]. split; [apply lookup_insert_eq|].
  unfold payload_before_hash.
  do 5 (split; [rewrite !lookup_insert_ne
                  by (intros E; vm_compute in E; discriminate E);
                apply lookup_insert_eq|]).
  split.
  - intros k Hk. rewrite !not_elem_of_cons in Hk.
    destruct Hk as (? & ? & ? & ? & ? & ? & ? & ? & _).
    rewrite !lookup_insert_ne by done. by rewrite lookup_delete_ne.
  - intros Hrand.
    pose proof (Hrand 0 1000 (host m)). pose proof (Hrand 0 1000 r1.2).
    subst r1 r2. lia.
Qed.




(** X3. Whatever the wrapped operation does, the retry wrapper with
    [max_attempts >= 1] and no callback invokes it at least once and at
    most [max_attempts] times, and sleeps exactly once between two
    consecutive invocations: [j] invocations come with [j - 1] backoff
    sleeps, so it never sleeps after the invocation that ends it. A
    retryable exception leaves the wrapper only when all [max_attempts]
    invocations have been made. *)
Theorem retry_sleeps_between_attempts
    {St : Type} `{Host St} {V : Type}
    (max_attempts : Z) (base_delay max_delay backoff_factor : float)
    (jitter : bool) (exceptions : exn → bool) (func : IO St V) (t : Traced St) :
  1 ≤ max_attempts →
  let out :=
    retry_with_backoff (St := Traced St) max_attempts base_delay max_delay
      backoff_factor jitter exceptions None (traced_call func) t in
  ∃ (delta : list event) (j : nat),
    trace out.2 = delta ++ trace t ∧
    1 ≤ Z.of_nat j ≤ max_attempts ∧
    calls delta = j ∧
    count_events is_backoff_sleep delta = (j - 1)%nat ∧
    (∀ e, out.1 = Raise e → exceptions e = true → Z.of_nat j = max_attempts).
Proof.
  intros Hmax out. subst out.
  destruct (retry_shape max_attempts base_delay max_delay backoff_factor jitter
              exceptions (traced_call func) is_call) with (t := t)
    as (delta & j & Htr & Hj & Hm & Hs & _ & _ & Hlast); [| |done|].
  - intros t0. exists EvCall. unfold traced_call.
    by destruct (func (inner t0)).
  - done.
  - by exists delta, j.
Qed.


(** X4. With [max_attempts <= 0] the loop body never runs: the wrapped
    operation is not invoked, nothing sleeps, no callback is called, and
    the [raise last_exception] after the loop, with [last_exception] still
    [None], is a [TypeError]. *)
Theorem retry_without_attempts
    {St : Type} `{Host St} {V : Type}
    (max_attempts : Z) (base_delay max_delay backoff_factor : float)
    (jitter : bool) (exceptions : exn → bool)
    (on_retry : option (Z → exn → float → IO St unit))
    (func : IO St V) (t : Traced St) :
  max_attempts ≤ 0 →
  retry_with_backoff (St := Traced St) max_attempts base_delay max_delay
    backoff_factor jitter exceptions (untraced_callback on_retry)
    (traced_call func) t
  = (Raise TypeError, t).
Proof. apply retry_no_attempts. Qed.

(** X5. An exception raised by the [on_retry] callback ends the retry
    at once: when the first invocation fails with a retryable exception
    (more attempts being allowed) and the callback raises, the wrapper
    raises the callback's exception, not the operation's; the operation
    was invoked once and no sleep was made. *)
Theorem retry_callback_exception
    {St : Type} `{Host St} {V : Type}
    (max_attempts : Z) (base_delay max_delay backoff_factor : float)
    (jitter : bool) (exceptions : exn → bool)
    (callback : Z → exn → float → IO St unit)
    (func : IO St V) (t : Traced St) (e e' : exn) (s1 : St) :
  1 < max_attempts →
  func (inner t) = (Raise e, s1) →
  exceptions e = true →
  (∀ delay s, (callback 1 e delay s).1 = Raise e') →
  let out :=
    retry_with_backoff (St := Traced St) max_attempts base_delay max_delay
      backoff_factor jitter exceptions (untraced_callback (Some callback))
      (traced_call func) t in
  out.1 = Raise e' ∧
  trace out.2 = EvCall :: trace t.
Proof.
  intros Hmax Hf Hexc Hcb out.
  assert (∃ t', out = (Raise e', t') ∧ trace t' = EvCall :: trace t)
    as (t' & -> & Htr); [|done].
  subst out. unfold retry_with_backoff. rewrite py_range_range_from.
  replace (Z.to_nat max_attempts) with (S (Z.to_nat max_attempts - 1)) by lia.
  rewrite range_from_S. cbn [retry_loop]. rewrite try_except_run.
  unfold traced_call at 1. rewrite Hf, Hexc.
  replace (0 =? max_attempts - 1) with false by (symmetry; apply Z.eqb_neq; lia).
  unfold mbind, io_bind. rewrite bind_run.
  unfold backoff, mbind, io_bind, bind, mret, io_ret, ret, total, effect,
    untraced_callback, untraced. cbn [option_map].
  destruct jitter; cbn.
  - destruct (random_random s1) as [r s2]. cbn.
    specialize (Hcb (PrimFloat.mul
                       (float_min (PrimFloat.mul base_delay (float_pow backoff_factor 0))
                          max_delay)
                       (PrimFloat.add 0.5%float (PrimFloat.mul r 0.5%float))) s2).
    destruct (callback _ _ _ s2) as [r0 s3]. cbn [fst] in Hcb. subst r0.
    by eexists.
  - specialize (Hcb (float_min (PrimFloat.mul base_delay (float_pow backoff_factor 0))
                       max_delay) s1).
    destruct (callback _ _ _ s1) as [r0 s3]. cbn [fst] in Hcb. subst r0.
    by eexists.
Qed.


(** ** More of the circuit breaker *)

(** X6. Invariants of every breaker a program can hold (a fresh one,
    and what calls and resets make of it): the failure count is never
    negative; a breaker that is not closed has a positive failure count
    that has reached the threshold and a recorded failure time, so the
    [last_failure_time is None] branch of [_should_attempt_reset] is never
    taken for an open breaker; a breaker whose count is zero is closed. *)
Theorem circuit_breaker_invariants (self : CircuitBreaker) :
  cb_reachable self →
  0 ≤ failure_count self ∧
  (state self ≠ CLOSED →
     failure_threshold self ≤ failure_count self ∧
     0 < failure_count self ∧
     ∃ t, last_failure_time self = Some t) ∧
  (failure_count self = 0 → state self = CLOSED).
Proof.
  intros Hreach.
  assert (0 ≤ failure_count self ∧
          (state self ≠ CLOSED →
             failure_threshold self ≤ failure_count self ∧
             0 < failure_count self ∧
             ∃ t, last_failure_time self = Some t)) as [Hpos Hopen].
  { induction Hreach as [th rt ex|St H V self func s Hr IH|self Hr IH]; simpl;
      [done| |done].
    destruct IH as [Hpos Hopen].
    unfold CircuitBreakerImpl._call_with_circuit_breaker.
    destruct (bool_decide (state self = OPEN)) eqn:Eopen.
    - apply bool_decide_eq_true in Eopen.
      destruct Hopen as (Hth & Hgt & Hlast); [congruence|].
      destruct (CircuitBreakerImpl._should_attempt_reset self (datetime_now s));
        [|simpl; by auto].
      destruct (func s) as [[v|e] s']; simpl; [done|].
      destruct (expected_exception self e); simpl.
      + split; [lia|]. intros _. split; [lia|]. split; [lia|]. eauto.
      + split; [lia|]. intros _. by auto.
    - destruct (func s) as [[v|e] s']; simpl; [done|].
      destruct (expected_exception self e); simpl; [|by auto].
      split; [lia|].
      destruct (Z.leb_spec (failure_threshold self) (failure_count self + 1)).
      + intros _. split; [lia|]. split; [lia|]. eauto.
      + intros Hs. split; [|split; [lia|eauto]].
        destruct (Hopen Hs) as (? & _). lia. }
  split; [done|]. split; [done|].
  intros Hzero. destruct (decide (state self = CLOSED)) as [|Hne]; [done|].
  destruct (Hopen Hne) as (_ & ? & _). lia.
Qed.

Section breaker_runs.
Context {St : Type} `{Host St} {V : Type}.
Variables (th rt : Z) (ex : exn -> bool) (func : IO St V).

(** While the operation keeps failing below the threshold, the breaker
    stays closed, counts, and lets every call through. *)
Lemma failures_below_threshold (k : nat) (s : St) :
  (∀ j, (j < k)%nat →
        ∃ e, (func (run_times j func s)).1 = Raise e ∧ ex e = true) →
  Z.of_nat k < th →
  ∃ last,
    run_times k (breaker_call func) (CircuitBreakerImpl.init th rt ex, s)
    = ({| failure_threshold := th; recovery_timeout := rt;
          expected_exception := ex; failure_count := Z.of_nat k;
          last_failure_time := last; state := CLOSED |},
       run_times k func s).
Proof.
  assert (∀ (k : nat) (c : Z) (last : option Z) (s : St),
            (∀ j, (j < k)%nat →
                  ∃ e, (func (run_times j func s)).1 = Raise e ∧ ex e = true) →
            c + Z.of_nat k < th →
            ∃ last',
              run_times k (breaker_call func)
                ({| failure_threshold := th; recovery_timeout := rt;
                    expected_exception := ex; failure_count := c;
                    last_failure_time := last; state := CLOSED |}, s)
              = ({| failure_threshold := th; recovery_timeout := rt;
                    expected_exception := ex; failure_count := c + Z.of_nat k;
                    last_failure_time := last'; state := CLOSED |},
                 run_times k func s)) as Hgen.
  { clear k s. induction k as [|k IH]; intros c last s Hfail Hlt.
    - exists last. cbn [run_times]. by rewrite Z.add_0_r.
    - destruct (Hfail 0%nat) as (e & He & Hex); [lia|]. cbn [run_times] in He.
      cbn [run_times]. unfold breaker_call at 2.
      cbn [fst snd]. rewrite call_closed by done.
      destruct (func s) as [r s1] eqn:Hfs. cbn [fst snd] in *. subst r.
      cbn [expected_exception]. rewrite Hex.
      unfold CircuitBreakerImpl._on_failure. cbn.
      destruct (Z.leb_spec th (c + 1)); [lia|].
      destruct (IH (c + 1) (Some (datetime_now s1)) s1) as (last' & ->); [|lia|].
      { intros j Hj. destruct (Hfail (S j)) as (e' & He' & Hex'); [lia|].
        cbn [run_times] in He'. rewrite Hfs in He'. eauto. }
      exists last'. by replace (c + Z.of_nat (S k)) with (c + 1 + Z.of_nat k) by lia. }
  intros Hfail Hlt. apply (Hgen k 0 None s Hfail). lia.
Qed.
End breaker_runs.

(** X7. A fresh breaker with threshold [th] lets [k <= th] consecutive
    failing calls through to the operation; after them its failure count
    is [k], its failure time is the clock at the last failure, and it is
    open exactly when [k = th]: the [th]-th consecutive failure opens it,
    no earlier one does. *)
Theorem breaker_opens_at_threshold
    {St : Type} `{Host St} {V : Type} (th rt : Z) (ex : exn → bool)
    (func : IO St V) (k : nat) (s : St) :
  (∀ j, (j < k)%nat →
        ∃ e, (func (run_times j func s)).1 = Raise e ∧ ex e = true) →
  1 ≤ Z.of_nat k ≤ th →
  let after := run_times k (breaker_call func) (CircuitBreakerImpl.init th rt ex, s) in
  after.2 = run_times k func s ∧
  failure_count after.1 = Z.of_nat k ∧
  last_failure_time after.1 = Some (datetime_now (run_times k func s)) ∧
  state after.1 = (if th <=? Z.of_nat k then OPEN else CLOSED).
Proof.
  intros Hfail Hk after. subst after.
  destruct k as [|k]; [lia|].
  destruct (failures_below_threshold th rt ex func k s) as (last & Hrun); [|lia|].
  { intros j Hj. apply Hfail. lia. }
  assert (∀ (c : IO (CircuitBreaker * St) V) x,
            run_times (S k) c x = (c (run_times k c x)).2) as Hsnoc.
  { clear. intros c. induction k as [|k IH]; intros x; [done|].
    change (run_times (S (S k)) c x) with (run_times (S k) c (c x).2).
    by rewrite IH. }
  assert (∀ x, run_times (S k) func x = (func (run_times k func x)).2) as Hsnoc'.
  { clear. induction k as [|k IH]; intros x; [done|].
    change (run_times (S (S k)) func x) with (run_times (S k) func (func x).2).
    by rewrite IH. }
  rewrite Hsnoc, Hrun, Hsnoc'. unfold breaker_call. cbn [fst snd].
  rewrite call_closed by done.
  destruct (Hfail k) as (e & He & Hex); [lia|].
  destruct (func (run_times k func s)) as [r s1]. cbn [fst snd] in *. subst r.
  cbn [expected_exception]. rewrite Hex. cbn.
  replace (Z.of_nat k + 1) with (Z.of_nat (S k)) by lia.
  by repeat split.
Qed.


(** X8. The half-open state. A probe (the call an open breaker lets
    through once its cooldown has elapsed) that raises an exception which
    is not of the expected type leaves the breaker half-open, its counter
    and failure time as they were. A half-open breaker lets every call
    through without looking at the clock; a success closes it and resets
    the counter, a failure of the expected type opens it and stamps the
    failure time, and any other exception leaves it half-open. *)
Theorem half_open_breaker
    {St : Type} `{Host St} {V : Type}
    (self : CircuitBreaker) (func : IO St V) (s : St) :
  cb_reachable self →
  let out := CircuitBreakerImpl._call_with_circuit_breaker self func s in
  let self' := out.1.2 in
  (∀ t e, state self = OPEN → last_failure_time self = Some t →
          recovery_timeout self * 1000000 ≤ datetime_now s - t →
          (func s).1 = Raise e → expected_exception self e = false →
          out.1.1 = Raise e ∧
          self' = CircuitBreakerImpl.set_state self HALF_OPEN) ∧
  (state self = HALF_OPEN →
     (out.1.1, out.2) = func s ∧
     (∀ v, (func s).1 = Ret v →
           state self' = CLOSED ∧ failure_count self' = 0) ∧
     (∀ e, (func s).1 = Raise e → expected_exception self e = true →
           state self' = OPEN ∧
           failure_count self' = failure_count self + 1 ∧
           last_failure_time self' = Some (datetime_now (func s).2)) ∧
     (∀ e, (func s).1 = Raise e → expected_exception self e = false →
           self' = self)).
Proof.
  intros Hreach out self'. subst self' out. split.
  - intros t e Hs Ht Hge He Hex.
    rewrite (call_open_probe self func s t) by done.
    destruct (func s) as [r s']. cbn [fst] in He. subst r. by rewrite Hex.
  - intros Hs.
    pose proof (cb_reachable_threshold self Hreach) as Hth.
    unfold CircuitBreakerImpl._call_with_circuit_breaker.
    rewrite bool_decide_eq_false_2 by congruence.
    destruct (func s) as [[v|e] s']; cbn [fst snd].
    + repeat split; try done; intros ? [=].
    + destruct (expected_exception self e) eqn:Hex; cbn [fst snd].
      * split; [done|]. split; [intros ? [=]|].
        split; [|intros ? [= <-]; congruence].
        intros ? _ _. cbn.
        destruct (Z.leb_spec (failure_threshold self) (failure_count self + 1));
          [done|].
        assert (state self ≠ CLOSED) as Hne by congruence.
        specialize (Hth Hne). lia.
      * split; [done|]. split; [intros ? [=]|].
        split; [intros ? [= <-]; congruence|done].
Qed.

(** ** The shape of a submission *)

Section transport_shape.
Context {St : Type} `{Host St}.
Variables (timeout : Z) (url : endpoint) (data : pyval)
          (hdrs cks : gmap pystr pystr).

(** [post_json]: up to three posts, a backoff sleep between two of
    them; what it raises is a [NetworkError], raised by the third post. *)
Lemma post_json_shape (t : Traced St) :
  let out := RequestManager.post_json timeout url data hdrs cks t in
  ∃ (delta : list event) (j : nat),
    trace out.2 = delta ++ trace t ∧
    (1 ≤ j ≤ 3)%nat ∧
    count_events (is_post_to url) delta = j ∧
    count_events is_backoff_sleep delta = (j - 1)%nat ∧
    Forall (fun ev => is_post_to url ev || is_backoff_sleep ev = true) delta ∧
    ∀ e, out.1 = Raise e → RequestManager.is_NetworkError e = true ∧ j = 3%nat.
Proof.
  intros out. subst out. unfold RequestManager.post_json.
  destruct (retry_shape 3 1%float 60%float 2%float true
              RequestManager.is_NetworkError
              (RequestManager.post_json_body timeout url data hdrs cks)
              (is_post_to url)) with (t := t)
    as (delta & j & Htr & Hj & Hm & Hs & _ & (t0 & Hfrom) & Hlast); [| |done|].
  - intros t0. rewrite post_json_body_traced. eexists. split; [done|].
    split; [|done]. simpl. by apply bool_decide_eq_true.
  - done.
  - exists delta, j. split; [done|]. split; [lia|]. split; [done|]. split; [done|].
    split.
    + destruct (retry_loop_posts timeout url data hdrs cks (py_range 3) None t)
        as (delta' & Htr' & Hall & _).
      unfold retry_with_backoff in Htr. rewrite Htr' in Htr.
      by apply app_inv_tail in Htr as ->.
    + intros e He. rewrite He in Hfrom.
      rewrite post_json_body_traced in Hfrom. cbn [fst] in Hfrom.
      apply classify_answer_raises in Hfrom.
      split; [done|]. specialize (Hlast e He Hfrom). lia.
Qed.
End transport_shape.

(** X9. [post_json] posts at least once and at most three times to its
    endpoint, with exactly one backoff sleep between two consecutive posts
    and nothing else: [j] posts, [j - 1] sleeps. Whatever the server or
    the network does, the only exception it raises is a [NetworkError],
    and it raises only after the third post. *)
Theorem post_json_attempts
    {St : Type} `{Host St} (timeout : Z) (url : endpoint) (data : pyval)
    (hdrs cks : gmap pystr pystr) (t : Traced St) :
  let out := RequestManager.post_json timeout url data hdrs cks t in
  ∃ (delta : list event) (j : nat),
    trace out.2 = delta ++ trace t ∧
    (1 ≤ j ≤ 3)%nat ∧
    count_events (is_post_to url) delta = j ∧
    count_events is_backoff_sleep delta = (j - 1)%nat ∧
    length delta = (2 * j - 1)%nat ∧
    ∀ e, out.1 = Raise e → RequestManager.is_NetworkError e = true ∧ j = 3%nat.
Proof.
  intros out. subst out.
  destruct (post_json_shape timeout url data hdrs cks t)
    as (delta & j & Htr & Hj & Hm & Hs & Hall & Hraise).
  exists delta, j. repeat (split; [done|]). split; [|done].
  clear Htr Hraise. revert j Hj Hm Hs.
  assert (length delta
          = (count_events (is_post_to url) delta
             + count_events is_backoff_sleep delta)%nat) as ->; [|lia].
  induction Hall as [|ev delta Hev _ IH]; [done|].
  rewrite !count_events_cons. cbn [length]. rewrite IH.
  destruct ev as [|rq a|[n|f]|n]; simpl in *; try done.
  destruct (bool_decide (req_url rq = url)); [lia|done].
Qed.


Section read_book_shape.
Context {St : Type} `{Host St}.
Variables (timeout : Z) (data : pyval) (hdrs cks : gmap pystr pystr).

(** [read_book] in terms of the gate of the breaker and of [post_json]. *)
Lemma read_book_run (m : Machine (Traced St)) :
  RequestManager.read_book timeout data hdrs cks m
  = let cb := circuit_breaker m in
    if bool_decide (state cb = OPEN)
       && negb (CircuitBreakerImpl._should_attempt_reset cb (datetime_now (host m)))
    then (Raise CircuitBreakerError, m)
    else
      let cb1 := if bool_decide (state cb = OPEN)
                 then CircuitBreakerImpl.set_state cb HALF_OPEN else cb in
      let out := RequestManager.post_json timeout UrlRead data hdrs cks (host m) in
      (out.1,
       {| host := out.2; heap := heap m; cookies := cookies m;
          circuit_breaker :=
            match out.1 with
            | Ret _ => CircuitBreakerImpl._on_success cb1
            | Raise e =>
                if expected_exception cb1 e
                then CircuitBreakerImpl._on_failure cb1 (datetime_now out.2)
                else cb1
            end |}).
Proof.
  destruct m as [t h ck cb]. unfold RequestManager.read_book.
  unfold CircuitBreakerImpl._call_with_circuit_breaker.
  cbn [host circuit_breaker heap cookies].
  destruct (bool_decide (state cb = OPEN));
    [destruct (CircuitBreakerImpl._should_attempt_reset cb (datetime_now t))|];
    cbn [andb negb]; try done;
    destruct (RequestManager.post_json timeout UrlRead data hdrs cks t)
      as [[v|e] t']; cbn [fst snd]; try done;
    by destruct (expected_exception _ e).
Qed.
End read_book_shape.

(** ** The breaker around the retried submission *)

(** C7. The breaker wraps the retried submission on the outside:
    [read_book] is the circuit breaker applied to the retry-decorated
    [post_json], for every machine. When the breaker is open and the
    cooldown since the last failure has not elapsed, [read_book] raises
    [CircuitBreakerError] and leaves the machine and the host as they
    were: the trace of posts and sleeps is the one before the call, so no
    network attempt was made and no backoff delay incurred. When the
    breaker is not open the call goes through, and the breaker (with
    [NetworkError] as its expected exception, whatever its threshold) is
    consulted once around all the attempts: between one and three posts
    with a backoff sleep between two of them; a [read_book] that raises
    has made all three posts and slept twice, and the failure counter has
    grown by one, not by three. *)
Theorem read_book_open_circuit
    {St : Type} `{Host St} (timeout : Z) (data : pyval)
    (headers cookies : gmap pystr pystr) (m : Machine (Traced St)) :
  let out := RequestManager.read_book timeout data headers cookies m in
  let cb := circuit_breaker m in
  out
  = (let '((r, cb'), s') :=
       CircuitBreakerImpl._call_with_circuit_breaker cb
         (retry_with_backoff 3 1%float 60%float 2%float true
            RequestManager.is_NetworkError None
            (RequestManager.post_json_body timeout UrlRead data headers cookies))
         (host m) in
     (r, set_circuit_breaker (set_host m s') cb')) ∧
  (∀ t, state cb = OPEN → last_failure_time cb = Some t →
        datetime_now (host m) - t < recovery_timeout cb * 1000000 →
        out = (Raise CircuitBreakerError, m) ∧
        trace (host out.2) = trace (host m)) ∧
  (state cb ≠ OPEN →
   expected_exception cb = RequestManager.is_NetworkError →
   ∃ (delta : list event) (j : nat),
     trace (host out.2) = delta ++ trace (host m) ∧
     (1 ≤ j ≤ 3)%nat ∧
     count_events (is_post_to UrlRead) delta = j ∧
     count_events is_backoff_sleep delta = (j - 1)%nat ∧
     (∀ v, out.1 = Ret v →
           circuit_breaker out.2 = CircuitBreakerImpl._on_success cb) ∧
     (∀ e, out.1 = Raise e →
           RequestManager.is_NetworkError e = true ∧ j = 3%nat ∧
           failure_count (circuit_breaker out.2) = failure_count cb + 1 ∧
           last_failure_time (circuit_breaker out.2)
           = Some (datetime_now (host out.2)))).
Proof.
  intros out cb. subst out cb. split; [done|]. split.
  - intros t Hs Ht Hlt.
    assert (RequestManager.read_book timeout data headers cookies m
            = (Raise CircuitBreakerError, m)) as ->; [|done].
    unfold RequestManager.read_book.
    rewrite (call_open_rejects _ _ _ t) by done. by destruct m.
  - intros Hs Hex. rewrite read_book_run. cbv zeta.
    rewrite bool_decide_eq_false_2 by done. cbn [andb].
    destruct (post_json_shape timeout UrlRead data headers cookies (host m))
      as (delta & j & Htr & Hj & Hm & Hp & _ & Hraise).
    exists delta, j. cbn [fst snd host circuit_breaker].
    split; [done|]. split; [done|]. split; [done|]. split; [done|].
    destruct (RequestManager.post_json _ _ _ _ _ (host m)) as [[v|e] t'];
      cbn [fst snd] in *.
    + split; [done|]. intros ? [=].
    + split; [intros ? [=]|]. intros ? [= <-].
      destruct (Hraise e eq_refl) as [Hne Hj3].
      rewrite Hex, Hne. by cbn.
Qed.

(** With the breaker open since ten seconds, [read_book] raises and
    nothing is posted. *)
Lemma read_book_open_circuit_witness :
  RequestManager.read_book 30 PNone ∅ ∅ open_machine
  = (Raise CircuitBreakerError, open_machine) ∧
  trace (host (RequestManager.read_book 30 PNone ∅ ∅ open_machine).2) = [].
Proof.
  destruct (read_book_open_circuit 30 PNone ∅ ∅ open_machine) as (_ & Hopen & _).
  destruct (Hopen 1700000000000000) as (Hraise & Htrace);
    [reflexivity|reflexivity|reflexivity|].
  split; [exact Hraise|exact Htrace].
Defined.

(** On the dead network a closed breaker lets the call through: three
    posts, two backoff sleeps, one failure counted. *)
Example read_book_three_posts_one_failure :
  let out := RequestManager.read_book 30 PNone ∅ ∅ offline_machine in
  count_events (is_post_to UrlRead) (trace (host out.2)) = 3%nat ∧
  count_events is_backoff_sleep (trace (host out.2)) = 2%nat ∧
  failure_count (circuit_breaker out.2) = 1 ∧
  state (circuit_breaker out.2) = CLOSED.
Proof. by vm_compute. Qed.

(** X10. The breaker's accounting in [read_book], for the breaker of a
    [RequestManager] (expected exception [NetworkError]). A [read_book]
    that returns has closed the breaker and reset its counter. One that
    raises either was rejected by the open breaker ([CircuitBreakerError],
    the machine untouched), or raises the [NetworkError] of [post_json]
    after exactly three posts and two backoff sleeps, and then the failure
    counter has grown by exactly one: three failed posts are one failure.
    In no case is the breaker left half-open. *)
Theorem read_book_breaker_accounting
    {St : Type} `{Host St} (timeout : Z) (data : pyval)
    (hdrs cks : gmap pystr pystr) (m : Machine (Traced St)) :
  cb_reachable (circuit_breaker m) →
  expected_exception (circuit_breaker m) = RequestManager.is_NetworkError →
  let out := RequestManager.read_book timeout data hdrs cks m in
  let cb := circuit_breaker m in
  let cb' := circuit_breaker out.2 in
  ∃ delta : list event,
    trace (host out.2) = delta ++ trace (host m) ∧
    state cb' ≠ HALF_OPEN ∧
    (∀ v, out.1 = Ret v →
       state cb' = CLOSED ∧ failure_count cb' = 0 ∧
       (1 ≤ count_events (is_post_to UrlRead) delta ≤ 3)%nat) ∧
    (∀ e, out.1 = Raise e →
       (e = CircuitBreakerError ∧ state cb = OPEN ∧ out.2 = m) ∨
       (RequestManager.is_NetworkError e = true ∧
        count_events (is_post_to UrlRead) delta = 3%nat ∧
        count_events is_backoff_sleep delta = 2%nat ∧
        failure_count cb' = failure_count cb + 1 ∧
        last_failure_time cb' = Some (datetime_now (host out.2)))).
Proof.
  intros Hreach Hex out cb cb'. subst out cb cb'.
  pose proof (cb_reachable_threshold _ Hreach) as Hth.
  rewrite read_book_run. cbv zeta.
  destruct (bool_decide (state (circuit_breaker m) = OPEN)) eqn:Eopen.
  - apply bool_decide_eq_true in Eopen.
    destruct (CircuitBreakerImpl._should_attempt_reset _ _); cbn [andb negb].
    + destruct (post_json_shape timeout UrlRead data hdrs cks (host m))
        as (delta & j & Htr & Hj & Hm & Hs & _ & Hraise).
      exists delta. cbn [fst snd host circuit_breaker]. split; [done|].
      destruct (RequestManager.post_json _ _ _ _ _ (host m)) as [[v|e] t'];
        cbn [fst snd] in *.
      * split; [done|]. split; [|intros ? [=]]. intros ? _. split; [done|].
        split; [done|]. lia.
      * destruct (Hraise e eq_refl) as [Hne Hj3]. rewrite Hj3 in Hm, Hs.
        unfold CircuitBreakerImpl.set_state. cbn [expected_exception].
        rewrite Hex, Hne. cbn.
        assert (failure_threshold (circuit_breaker m)
                ≤ failure_count (circuit_breaker m)) as Hle
          by (apply Hth; congruence).
        destruct (Z.leb_spec (failure_threshold (circuit_breaker m))
                    (failure_count (circuit_breaker m) + 1)); [|lia].
        split; [done|]. split; [intros ? [=]|]. intros ? [= <-]. by right.
    + exists []. cbn [fst snd]. split; [done|]. split; [congruence|].
      split; [intros ? [=]|]. intros ? [= <-]. by left.
  - apply bool_decide_eq_false in Eopen. cbn [andb].
    destruct (post_json_shape timeout UrlRead data hdrs cks (host m))
      as (delta & j & Htr & Hj & Hm & Hs & _ & Hraise).
    exists delta. cbn [fst snd host circuit_breaker]. split; [done|].
    destruct (RequestManager.post_json _ _ _ _ _ (host m)) as [[v|e] t'];
      cbn [fst snd] in *.
    + split; [done|]. split; [|intros ? [=]]. intros ? _. split; [done|].
      split; [done|]. lia.
    + destruct (Hraise e eq_refl) as [Hne Hj3]. rewrite Hj3 in Hm, Hs.
      rewrite Hex, Hne. cbn.
      split.
      * destruct (Z.leb_spec (failure_threshold (circuit_breaker m))
                    (failure_count (circuit_breaker m) + 1)); [done|].
        intros Hs'. assert (state (circuit_breaker m) ≠ CLOSED) as Hnc by congruence.
        specialize (Hth Hnc). lia.
      * split; [intros ? [=]|]. intros ? [= <-]. by right.
Qed.


Section dead_server.
Context {St : Type} `{Host St}.
Variables (timeout : Z) (data : pyval) (hdrs cks : gmap pystr pystr).
(** The server answers no post with a body. *)
Hypothesis server_down :
  ∀ (rq : request) (s : St), ∃ e, classify_answer (session_post rq s).1 = Raise e.

Lemma post_json_server_down (url : endpoint) (t : Traced St) :
  ∃ e, (RequestManager.post_json timeout url data hdrs cks t).1 = Raise e.
Proof.
  unfold RequestManager.post_json.
  destruct (retry_shape 3 1%float 60%float 2%float true
              RequestManager.is_NetworkError
              (RequestManager.post_json_body timeout url data hdrs cks)
              (is_post_to url)) with (t := t)
    as (delta & j & _ & _ & _ & _ & _ & (t0 & Hfrom) & _); [| |done|].
  - intros t1. rewrite post_json_body_traced. eexists. split; [done|].
    split; [|done]. simpl. by apply bool_decide_eq_true.
  - done.
  - rewrite <- Hfrom, post_json_body_traced. cbn [fst]. apply server_down.
Qed.

(** One [read_book] through a closed breaker while the server is down. *)
Lemma read_book_server_down (m : Machine (Traced St)) (c : Z) (last : option Z) :
  circuit_breaker m
  = {| failure_threshold := 5; recovery_timeout := 60;
       expected_exception := RequestManager.is_NetworkError;
       failure_count := c; last_failure_time := last; state := CLOSED |} →
  let out := RequestManager.read_book timeout data hdrs cks m in
  ∃ last',
    circuit_breaker out.2
    = {| failure_threshold := 5; recovery_timeout := 60;
         expected_exception := RequestManager.is_NetworkError;
         failure_count := c + 1; last_failure_time := Some last';
         state := if 5 <=? c + 1 then OPEN else CLOSED |} ∧
    count_events (is_post_to UrlRead) (trace (host out.2))
    = (count_events (is_post_to UrlRead) (trace (host m)) + 3)%nat ∧
    count_events is_backoff_sleep (trace (host out.2))
    = (count_events is_backoff_sleep (trace (host m)) + 2)%nat.
Proof.
  intros Hcb out. subst out. rewrite read_book_run. cbv zeta. rewrite Hcb.
  cbn [state]. rewrite bool_decide_eq_false_2 by done. cbn [andb].
  destruct (post_json_shape timeout UrlRead data hdrs cks (host m))
    as (delta & j & Htr & Hj & Hm & Hs & _ & Hraise).
  destruct (post_json_server_down UrlRead (host m)) as (e & He).
  destruct (RequestManager.post_json _ _ _ _ _ (host m)) as [r t'];
    cbn [fst snd] in *. subst r.
  destruct (Hraise e eq_refl) as [Hne Hj3]. rewrite Hj3 in Hm, Hs.
  cbn [expected_exception]. rewrite Hne. cbn.
  eexists. split; [done|].
  rewrite Htr, !count_events_app, Hm, Hs. lia.
Qed.
End dead_server.

(** X11. With a server that answers no post with a body, [k <= 5]
    calls of [read_book] in a row, starting from the breaker
    [RequestManager.__init__] creates, make [3 * k] posts and [2 * k]
    backoff sleeps and leave the failure counter at [k]; the breaker is
    open exactly when [k = 5], that is after fifteen failed posts. *)
Theorem read_book_failures_open_breaker
    {St : Type} `{Host St} (timeout : Z) (data : pyval)
    (hdrs cks : gmap pystr pystr) (m : Machine (Traced St)) (k : nat) :
  (∀ (rq : request) (s : St), ∃ e, classify_answer (session_post rq s).1 = Raise e) →
  circuit_breaker m = RequestManager.new_circuit_breaker →
  (k ≤ 5)%nat →
  let m' := run_times k (RequestManager.read_book timeout data hdrs cks) m in
  failure_count (circuit_breaker m') = Z.of_nat k ∧
  state (circuit_breaker m') = (if 5 <=? Z.of_nat k then OPEN else CLOSED) ∧
  count_events (is_post_to UrlRead) (trace (host m'))
  = (count_events (is_post_to UrlRead) (trace (host m)) + 3 * k)%nat ∧
  count_events is_backoff_sleep (trace (host m'))
  = (count_events is_backoff_sleep (trace (host m)) + 2 * k)%nat.
Proof.
  intros Hdown Hcb Hk m'. subst m'.
  assert (∀ (k : nat) (m : Machine (Traced St)) (c : Z) (last : option Z),
            circuit_breaker m
            = {| failure_threshold := 5; recovery_timeout := 60;
                 expected_exception := RequestManager.is_NetworkError;
                 failure_count := c; last_failure_time := last; state := CLOSED |} →
            0 ≤ c < 5 → c + Z.of_nat k ≤ 5 →
            let m' := run_times k (RequestManager.read_book timeout data hdrs cks) m in
            failure_count (circuit_breaker m') = c + Z.of_nat k ∧
            state (circuit_breaker m')
            = (if 5 <=? c + Z.of_nat k then OPEN else CLOSED) ∧
            count_events (is_post_to UrlRead) (trace (host m'))
            = (count_events (is_post_to UrlRead) (trace (host m)) + 3 * k)%nat ∧
            count_events is_backoff_sleep (trace (host m'))
            = (count_events is_backoff_sleep (trace (host m)) + 2 * k)%nat) as Hgen.
  { clear k m Hcb Hk. intros k. induction k as [|k IH]; intros m c last Hcb Hc Hle.
    - cbn [run_times]. rewrite Hcb. cbn. rewrite Z.add_0_r.
      destruct (Z.leb_spec 5 c); [lia|]. repeat split; try done; try lia.
    - cbn [run_times].
      destruct (read_book_server_down timeout data hdrs cks Hdown m c last Hcb)
        as (last' & Hcb' & Hposts & Hsleeps).
      destruct (Z.leb_spec 5 (c + 1)) as [Hfive|Hlt].
      + assert (k = 0%nat) as -> by lia. cbn [run_times].
        rewrite Hcb', Hposts, Hsleeps. cbn.
        replace (c + Z.of_nat 1) with 5 by lia. replace (c + 1) with 5 by lia.
        by repeat split.
      + destruct (IH _ (c + 1) (Some last') Hcb') as (Hfc & Hst & Hp & Hs);
          [lia|lia|].
        rewrite Hfc, Hst, Hp, Hs, Hposts, Hsleeps.
        replace (c + 1 + Z.of_nat k) with (c + Z.of_nat (S k)) by lia.
        repeat split; try done; try lia. }
  destruct (Hgen k m 0 None) as (Hfc & Hst & Hp & Hs); [done|lia|lia|].
  by rewrite Hfc, Hst, Hp, Hs.
Qed.


(** ** The pusher's retried [send] *)

(** X12. [BasePusher.send] invokes the pusher's [_send_message] at least
    once and at most three times, with one backoff sleep between two
    invocations. Every exception of [_send_message], whatever its type,
    is retried, because the body re-raises it as a [PushError]; [send]
    raises only [PushError], and only after the third invocation. A value
    returned by [_send_message], [False] included, is returned at once:
    a send reported as failed is not retried. *)
Theorem pusher_send_attempts
    {St : Type} `{Host St} (_send_message : IO St bool) (t : Traced St) :
  let out := BasePusher.send (traced_call _send_message) t in
  (∃ (delta : list event) (j : nat),
     trace out.2 = delta ++ trace t ∧
     (1 ≤ j ≤ 3)%nat ∧
     calls delta = j ∧
     count_events is_backoff_sleep delta = (j - 1)%nat ∧
     (∀ e, out.1 = Raise e → e = PushError ∧ j = 3%nat)) ∧
  (∀ result s, _send_message (inner t) = (Ret result, s) →
     out = (Ret result, record_event EvCall s t)) ∧
  (∀ result, out.1 = Ret result → ∃ s, (_send_message s).1 = Ret result).
Proof.
  intros out. subst out. unfold BasePusher.send.
  assert (∀ t0 : Traced St,
            BasePusher.send_body (traced_call _send_message) t0
            = (match (_send_message (inner t0)).1 with
               | Ret b => Ret b
               | Raise _ => Raise PushError
               end,
               record_event EvCall (_send_message (inner t0)).2 t0)) as Hbody.
  { intros t0. unfold BasePusher.send_body. rewrite try_except_run.
    unfold mbind, io_bind. rewrite bind_run. unfold traced_call.
    by destruct (_send_message (inner t0)) as [[b|e] s]. }
  destruct (retry_shape 3 1%float 60%float 2%float true BasePusher.is_PushError
              (BasePusher.send_body (traced_call _send_message)) is_call)
    with (t := t)
    as (delta & j & Htr & Hj & Hm & Hs & _ & (t0 & Hfrom) & Hlast); [| |done|].
  { intros t0. rewrite Hbody. by exists EvCall. }
  { done. }
  rewrite Hbody in Hfrom. cbn [fst] in Hfrom.
  split; [|split].
  - exists delta, j. split; [done|]. split; [lia|]. split; [done|]. split; [done|].
    intros e He. rewrite He in Hfrom.
    destruct (_send_message (inner t0)).1; [done|]. injection Hfrom as <-.
    split; [done|]. specialize (Hlast PushError He eq_refl). lia.
  - intros result s Hmsg. unfold retry_with_backoff.
    change (py_range 3) with [0; 1; 2]. cbn [retry_loop].
    rewrite try_except_run, Hbody, Hmsg. done.
  - intros result He. rewrite He in Hfrom.
    exists (inner t0). by destruct (_send_message (inner t0)).1 as [b|e]; [injection Hfrom as ->|].
Qed.

(** ** An attempt against an open circuit *)

(** X13. While the breaker is open and its cooldown has not elapsed,
    [read_once] builds its request, is rejected, and reports a failed
    attempt with the caller's [last_time] and the [CircuitBreakerError]:
    it posts nothing, sleeps nothing, notifies nobody, renews no cookie
    and leaves the breaker and the cookies as they were. *)
Theorem read_once_open_circuit
    {St : Type} `{Host St} (self : WxReadBot) (book_id chapter_id : pystr)
    (last_time : Z) (m : Machine (Traced St)) (d : pydict) (t0 : Z) :
  heap m !! base_data self = Some d →
  state (circuit_breaker m) = OPEN →
  last_failure_time (circuit_breaker m) = Some t0 →
  datetime_now (random_randint 0 1000 (random_randint 0 1000 (host m)).2).2 - t0
  < recovery_timeout (circuit_breaker m) * 1000000 →
  let out := Bot.read_once self book_id chapter_id last_time m in
  out.1 = Ret (false, last_time, Some (RequestFailed CircuitBreakerError)) ∧
  trace (host out.2) = trace (host m) ∧
  circuit_breaker out.2 = circuit_breaker m ∧
  cookies out.2 = cookies m ∧
  heap out.2 !! base_data self = Some d.
Proof.
  intros Hd Hs Ht Hlt out. subst out.
  destruct (read_once_cases self book_id chapter_id last_time m d Hd)
    as (l & payload & m1 & _ & Hhost & Hbase & Hck & Hcb & _ & _ & _ & _ & _ & ->).
  unfold RequestManager.read_book.
  rewrite (call_open_rejects _ _ _ t0) by (rewrite ?Hcb, ?Hhost; done).
  unfold read_once_outcome. cbn [fst snd].
  destruct m1 as [t1 h1 ck1 cb1]. cbn [host heap cookies circuit_breaker] in *.
  unfold set_circuit_breaker, set_host. cbn [host heap cookies circuit_breaker].
  repeat split; try done.
  by rewrite Hhost, !traced_randint_trace.
Qed.


(** ** What a run leaves alone *)

Section frame_proofs.
Context {St : Type} `{Host St}.
Variable self : WxReadBot.

(** The cookies of [m'] are those of [m] but for [wr_skey]. *)
Local Abbreviation same_but_skey m m' :=
  (∀ k : pystr, k ≠ py "wr_skey" → cookies m' !! k = cookies m !! k).

(** A session key as [refresh_cookie] installs it. *)
Local Abbreviation installed_skey m :=
  (∃ key : pystr, cookies m !! py "wr_skey" = Some key ∧ key ≠ [] ∧
                  (length key ≤ 8)%nat).

(** The session key of [m'] is that of [m], or a newly installed one. *)
Local Abbreviation skey_kept_or_installed m m' :=
  (cookies m' !! py "wr_skey" = cookies m !! py "wr_skey" ∨ installed_skey m').

Lemma refresh_cookie_frame (m : Machine St) :
  ∃ ok m',
    Bot.refresh_cookie self m = (Ret ok, m') ∧
    heap m' = heap m ∧ same_but_skey m m' ∧
    (if ok then installed_skey m' else cookies m' = cookies m).
Proof.
  unfold Bot.refresh_cookie. rewrite try_except_run.
  unfold mbind, io_bind. rewrite bind_run. unfold reads at 1. cbn beta iota.
  rewrite bind_run. destruct m as [s h ck cb]. rewrite lift_host_run.
  assert (∀ key s1,
            RequestManager.renew_cookie (timeout self) (headers self) ck s
            = (Ret (Some key), s1) → (length key ≤ 8)%nat) as Hlen.
  { intros key s1. unfold RequestManager.renew_cookie.
    destruct (session_post _ s) as [[r| | |] s']; try done.
    destruct (RequestManager.raises_for_status r); [done|].
    intros [= Hkey _]. unfold RequestManager.extract_skey in Hkey.
    destruct (find_skey_Some _ _ Hkey) as (? & ? & ? & _ & _ & _ & ->).
    rewrite length_take. lia. }
  destruct (RequestManager.renew_cookie _ _ _ s) as [[new_skey|e] s1]; cbn [fst snd].
  - destruct (truthy new_skey) eqn:Htruthy.
    + rewrite bind_run. unfold effect, set_cookies, mret, io_ret, ret.
      cbn [fst snd heap cookies host circuit_breaker].
      eexists _, _. split; [done|]. cbn [heap cookies]. split; [done|].
      split; [intros k Hk; by rewrite lookup_insert_ne|].
      destruct new_skey as [[|c key]|]; try done.
      exists (c :: key). rewrite lookup_insert_eq. split; [done|]. split; [done|].
      by apply (Hlen _ s1).
    + rewrite bind_run, lift_host_run.
      pose proof (send_error_notification_ret self NoNewKey s1) as Hn.
      destruct (Bot._send_error_notification self NoNewKey s1) as [r0 s2].
      cbn [fst] in Hn. subst r0. cbn [fst snd]. by eexists _, _.
  - rewrite bind_run, lift_host_run.
    pose proof (send_error_notification_ret self (RefreshRaised e) s1) as Hn.
    destruct (Bot._send_error_notification self (RefreshRaised e) s1) as [r0 s2].
    cbn [fst] in Hn. subst r0. cbn [fst snd]. by eexists _, _.
Qed.

Lemma fix_synckey_frame (m : Machine St) :
  ∃ ok m',
    Bot.fix_synckey self m = (Ret ok, m') ∧
    heap m' = heap m ∧ cookies m' = cookies m.
Proof.
  unfold Bot.fix_synckey. rewrite try_except_run.
  unfold mbind, io_bind. rewrite bind_run. unfold reads at 1. cbn beta iota.
  destruct m as [s h ck cb]. rewrite lift_host_run.
  unfold RequestManager.fix_synckey.
  destruct (session_post _ s) as [[r| | |] s1]; cbn [fst snd];
    try (by eexists _, _).
  destruct (RequestManager.raises_for_status r); by eexists _, _.
Qed.

Lemma read_book_frame (data : pyval) (hdrs cks : gmap pystr pystr) (m : Machine St) :
  heap (RequestManager.read_book (timeout self) data hdrs cks m).2 = heap m ∧
  cookies (RequestManager.read_book (timeout self) data hdrs cks m).2 = cookies m.
Proof.
  unfold RequestManager.read_book.
  by destruct (CircuitBreakerImpl._call_with_circuit_breaker _ _ _) as [[r cb] s'].
Qed.

Lemma read_once_frame (book_id chapter_id : pystr) (last_time : Z)
    (m : Machine St) (d : pydict) :
  heap m !! base_data self = Some d →
  ∃ r m',
    Bot.read_once self book_id chapter_id last_time m = (Ret r, m') ∧
    heap m' !! base_data self = Some d ∧ same_but_skey m m' ∧
    skey_kept_or_installed m m'.
Proof.
  intros Hd.
  destruct (read_once_cases self book_id chapter_id last_time m d Hd)
    as (l & payload & m1 & _ & _ & Hbase & Hck & _ & _ & _ & _ & _ & _ & ->).
  destruct (read_book_frame (PDict payload) (headers self) (cookies m) m1)
    as [Hh2 Hc2].
  unfold read_once_outcome.
  destruct (RequestManager.read_book _ _ _ _ m1) as [[v|e] m2]; cbn [fst snd] in *.
  - destruct (CryptoUtils.validate_response v).
    + destruct (CryptoUtils.py_contains (py "synckey") v) as [[|]|].
      * eexists _, _. split; [done|]. rewrite Hh2, Hc2, Hck. auto.
      * destruct (fix_synckey_frame m2) as (ok & m3 & -> & Hh3 & Hc3).
        eexists _, _. split; [done|]. cbn [snd]. rewrite Hh3, Hc3, Hh2, Hc2, Hck. auto.
      * eexists _, _. split; [done|]. rewrite Hh2, Hc2, Hck. auto.
    + destruct (refresh_cookie_frame m2) as (ok & m3 & -> & Hh3 & Hc3 & Hkey).
      eexists _, _. split; [done|]. cbn [snd]. rewrite Hh3, Hh2. split; [done|].
      split; [intros k Hk; by rewrite Hc3, Hc2, Hck|].
      destruct ok; [by right|left]. by rewrite Hkey, Hc2, Hck.
  - eexists _, _. split; [done|]. rewrite Hh2, Hc2, Hck. auto.
Qed.

Lemma attempt_body_frame (attempt : Z) (acc : Z * Z) (m : Machine St) (d : pydict) :
  heap m !! base_data self = Some d →
  ∃ acc' m',
    Bot.attempt_body self attempt acc m = (Ret acc', m') ∧
    heap m' !! base_data self = Some d ∧ same_but_skey m m' ∧
    skey_kept_or_installed m m'.
Proof.
  intros Hd. destruct acc as [sc lt]. unfold Bot.attempt_body, mbind, io_bind.
  destruct m as [s h ck cb].
  rewrite bind_run, lift_total_run.
  destruct (random_choice (book_ids self) s) as [book_id s1]. cbn [fst snd].
  rewrite bind_run, lift_total_run.
  destruct (random_choice (chapter_ids self) s1) as [chapter_id s2]. cbn [fst snd].
  rewrite bind_run.
  destruct (read_once_frame book_id chapter_id lt
              {| host := s2; heap := h; cookies := ck; circuit_breaker := cb |} d Hd)
    as ([[ok tm] err] & m' & -> & Hb & Hc & Hk).
  destruct m' as [s3 h3 ck3 cb3].
  destruct ok; rewrite bind_run, lift_effect_run; eexists _, _; by split.
Qed.

Lemma for_each_frame (xs : list Z) (acc : Z * Z) (m : Machine St) (d : pydict) :
  heap m !! base_data self = Some d →
  ∃ acc' m',
    for_each xs (Bot.attempt_body self) acc m = (Ret acc', m') ∧
    heap m' !! base_data self = Some d ∧ same_but_skey m m' ∧
    skey_kept_or_installed m m'.
Proof.
  revert acc m. induction xs as [|x xs IH]; intros acc m Hd.
  - exists acc, m. auto.
  - cbn [for_each]. unfold mbind, io_bind. rewrite bind_run.
    destruct (attempt_body_frame x acc m d Hd) as (acc1 & m1 & -> & Hd1 & Hc1 & Hk1).
    destruct (IH acc1 m1 Hd1) as (acc2 & m2 & -> & Hd2 & Hc2 & Hk2).
    exists acc2, m2. split; [done|]. split; [done|].
    split; [intros k Hk; by rewrite Hc2, Hc1|].
    destruct Hk2 as [->|?]; [done|by right].
Qed.
End frame_proofs.

(** X14. What [start_reading] leaves alone, however the run ends (a
    result, the [AuthError] of a failed renewal, or an exception): the
    base payload object has the entries it had, and no cookie other than
    [wr_skey] is added, changed or removed. When the run returns a result
    the [wr_skey] cookie holds a non-empty key of at most 8 characters;
    when it ends in [AuthError] the cookies are those of the start. *)
Theorem start_reading_frame
    {St : Type} `{Host St} (self : WxReadBot) (m : Machine St) (d : pydict) :
  heap m !! base_data self = Some d →
  let out := Bot.start_reading self m in
  heap out.2 !! base_data self = Some d ∧
  (∀ k, k ≠ py "wr_skey" → cookies out.2 !! k = cookies m !! k) ∧
  (∀ result, out.1 = Ret result →
     ∃ key, cookies out.2 !! py "wr_skey" = Some key ∧ key ≠ [] ∧
            (length key ≤ 8)%nat) ∧
  (out.1 = Raise AuthError → cookies out.2 = cookies m).
Proof.
  intros Hd out.
  assert (∃ r m', out = (r, m') ∧
            heap m' !! base_data self = Some d ∧
            (∀ k, k ≠ py "wr_skey" → cookies m' !! k = cookies m !! k) ∧
            match r with
            | Ret _ | Raise ZeroDivisionError =>
                ∃ key, cookies m' !! py "wr_skey" = Some key ∧ key ≠ [] ∧
                       (length key ≤ 8)%nat
            | Raise _ => cookies m' = cookies m
            end) as (r & m' & -> & Hheap & Hcks & Hkey).
  { subst out. unfold Bot.start_reading, mbind, io_bind. rewrite bind_run.
    destruct (refresh_cookie_frame self m) as (ok & m0 & -> & Hh0 & Hc0 & Hk0).
    destruct ok; cbn [negb]; cycle 1.
    { eexists _, _. split; [done|]. rewrite Hh0, Hk0. by repeat split. }
    destruct m0 as [s0 h0 ck0 cb0]. cbn [heap] in Hh0. subst h0.
    rewrite bind_run, lift_host_run. unfold reads at 1 2. cbn [fst snd].
    rewrite bind_run.
    destruct (for_each_frame self (py_range2 1 (read_num self + 1))
                (0, time_time s0 - 30)
                {| host := s0; heap := heap m; cookies := ck0; circuit_breaker := cb0 |}
                d Hd) as ([sc lt] & m1 & -> & Hd1 & Hc1 & Hk1).
    assert (∃ key, cookies m1 !! py "wr_skey" = Some key ∧ key ≠ [] ∧
                   (length key ≤ 8)%nat) as Hkey.
    { destruct Hk1 as [Hsame|?]; [|done]. rewrite Hsame. exact Hk0. }
    assert (∀ k, k ≠ py "wr_skey" → cookies m1 !! k = cookies m !! k) as Hc.
    { intros k Hk. by rewrite Hc1, Hc0. }
    destruct (read_num self =? 0).
    - eexists _, _. split; [done|]. by repeat split.
    - rewrite bind_run. destruct m1 as [s1 h1 ck1 cb1]. rewrite lift_host_run.
      pose proof (send_completion_notification_ret self
                    {| success_count := sc; total_attempts := read_num self;
                       reading_minutes := PrimFloat.mul (float_of_int sc) 0.5%float;
                       success_rate :=
                         PrimFloat.mul
                           (PrimFloat.div (float_of_int sc)
                              (float_of_int (read_num self)))
                           (float_of_int 100) |} s1) as Hn.
      destruct (Bot._send_completion_notification self _ s1) as [r s2].
      cbn [fst] in Hn. subst r. cbn [fst snd heap cookies] in *.
      eexists _, _. split; [done|]. by repeat split. }
  cbn [fst snd]. split; [done|]. split; [done|].
  split; [by intros result ->|by intros ->].
Qed.

(** ** The bounds of the statistics *)


Lemma count_events_le (P Q : event → bool) (tr : list event) :
  (∀ ev, P ev = true → Q ev = true) →
  (count_events P tr ≤ count_events Q tr)%nat.
Proof.
  intros HPQ. induction tr as [|ev tr IH]; [done|].
  rewrite !count_events_cons. destruct (P ev) eqn:E.
  - rewrite (HPQ ev E). lia.
  - destruct (Q ev); lia.
Qed.

(** X15. A result of [start_reading] (the configured count not being
    negative) has [0 <= success_count <= total_attempts], and
    [total_attempts] is the configured count: in the run after the initial
    renewal, [success_count] is the number of 30-second sleeps and
    [total_attempts] the number of pacing sleeps, one per turn. *)
Theorem start_reading_success_bounds
    {St : Type} `{Host St} (self : WxReadBot) (m : Machine (Traced St))
    (d : pydict) (result : reading_result) :
  heap m !! base_data self = Some d →
  0 ≤ read_num self →
  (Bot.start_reading self m).1 = Ret result →
  0 ≤ success_count result ≤ total_attempts result ∧
  total_attempts result = read_num self ∧
  ∃ delta,
    trace (host (Bot.start_reading self m).2)
    = delta ++ trace (host (Bot.refresh_cookie self m).2) ∧
    success_count result = Z.of_nat (count_events (is_sleep_of 30) delta) ∧
    total_attempts result = Z.of_nat (count_events is_pacing_sleep delta).
Proof.
  intros Hd Hn Hres.
  destruct (start_reading_traced self m d Hd) as (ok & m0 & Hrc & Hrun).
  destruct ok; [|by rewrite Hrun in Hres].
  destruct (read_num self =? 0); [by rewrite Hrun in Hres|].
  destruct Hrun as (result' & m' & delta & Hsr & Htr & Hp & Hsc & Hs & Hta & _).
  rewrite Hsr in Hres. injection Hres as ->. rewrite Hsr, Hrc. cbn [snd].
  pose proof (count_events_le (is_sleep_of 30) is_pacing_sleep delta) as Hle.
  split; [|split; [done|]].
  - rewrite Hsc, Hta, <- Hs.
    assert (count_events (is_sleep_of 30) delta ≤ count_events is_pacing_sleep delta)%nat
      by (apply Hle; by intros [|? ?|[?|?]|?]).
    lia.
  - exists delta. split; [done|]. split; [by rewrite Hs|]. rewrite Hta, Hp. lia.
Qed.


(** * The further properties on the sample runs *)

(** The request built on the sample machine is stamped within its second. *)
Lemma create_request_data_fields_witness :
  ∃ (l : nat) (payload : pydict) (ts : Z),
    (CryptoUtils.create_request_data 0 (py "book") (py "chapter") 7
       ten_reads_machine).1 = Ret l ∧
    payload !! py "ct" = Some (PInt 1700000000) ∧
    payload !! py "rt" = Some (PInt (1700000000 - 7)) ∧
    payload !! py "ts" = Some (PInt ts) ∧
    1700000000 * 1000 ≤ ts ≤ 1700000000 * 1000 + 1000.
Proof.
  destruct (create_request_data_fields 0 (py "book") (py "chapter") 7
              ten_reads_machine sample_base)
    as (l & payload & ts & rn & Hl & _ & Hct & Hrt & Hts & _ & _ & _ & Hrange);
    [reflexivity|].
  exists l, payload, ts. split; [exact Hl|]. split; [exact Hct|].
  split; [exact Hrt|]. split; [exact Hts|].
  apply Hrange. intros a b s Hab. simpl. lia.
Defined.

(** Two timeouts and an answer: three invocations at most, a sleep
    between two of them. *)
Lemma retry_sleeps_between_attempts_witness :
  ∃ (delta : list event) (j : nat),
    trace (retry_with_backoff (St := Traced Scripted) 3 1%float 60%float 2%float
             true RequestManager.is_NetworkError None (traced_call failing_call)
             flaky_start).2 = delta ++ trace flaky_start ∧
    1 ≤ Z.of_nat j ≤ 3 ∧
    calls delta = j ∧
    count_events is_backoff_sleep delta = (j - 1)%nat.
Proof.
  destruct (retry_sleeps_between_attempts 3 1%float 60%float 2%float true
              RequestManager.is_NetworkError failing_call flaky_start)
    as (delta & j & Htr & Hj & Hcalls & Hsleeps & _); [lia|].
  exists delta, j. split; [exact Htr|]. split; [exact Hj|].
  split; [exact Hcalls|exact Hsleeps].
Defined.

(** No attempt allowed: a [TypeError], the server never asked. *)
Lemma retry_without_attempts_witness :
  retry_with_backoff (St := Traced Scripted) 0 1%float 60%float 2%float true
    RequestManager.is_NetworkError (untraced_callback None)
    (traced_call failing_call) flaky_start
  = (Raise TypeError, flaky_start).
Proof.
  apply (retry_without_attempts 0 1%float 60%float 2%float true
           RequestManager.is_NetworkError None failing_call flaky_start).
  lia.
Defined.

(** A timeout, then a callback that raises [KeyError]. *)
Lemma retry_callback_exception_witness :
  (retry_with_backoff (St := Traced Scripted) 3 1%float 60%float 2%float true
     RequestManager.is_NetworkError (untraced_callback (Some raising_callback))
     (traced_call failing_call) flaky_start).1 = Raise KeyError ∧
  trace (retry_with_backoff (St := Traced Scripted) 3 1%float 60%float 2%float true
           RequestManager.is_NetworkError
           (untraced_callback (Some raising_callback))
           (traced_call failing_call) flaky_start).2 = [EvCall].
Proof.
  apply (retry_callback_exception 3 1%float 60%float 2%float true
           RequestManager.is_NetworkError raising_callback failing_call
           flaky_start (NetworkError RequestTimeout) KeyError
           {| clock := 0; answers := [HttpTimeout; accepted_answer] |});
    [lia|reflexivity|reflexivity|reflexivity].
Defined.

(** The tripped breaker: a positive count that reached the threshold, a
    failure time on record. *)
Lemma circuit_breaker_invariants_witness :
  failure_threshold tripped_breaker ≤ failure_count tripped_breaker ∧
  0 < failure_count tripped_breaker ∧
  ∃ t, last_failure_time tripped_breaker = Some t.
Proof.
  destruct (circuit_breaker_invariants tripped_breaker) as (_ & Hopen & _).
  - unfold tripped_breaker. apply cb_reach_call. apply cb_reach_init.
  - apply Hopen. discriminate.
Defined.

(** Five connection errors in a row open a breaker of threshold five. *)
Lemma breaker_opens_at_threshold_witness :
  state (run_times 5 (breaker_call failing_call)
           (CircuitBreakerImpl.init 5 60 RequestManager.is_NetworkError,
            {| clock := 0; answers := [] |})).1 = OPEN.
Proof.
  destruct (breaker_opens_at_threshold 5 60 RequestManager.is_NetworkError
              failing_call 5 {| clock := 0; answers := [] |})
    as (_ & _ & _ & Hstate).
  - intros j Hj. exists (NetworkError ConnectionFailed).
    destruct j as [|[|[|[|[|j]]]]]; [split; reflexivity..|lia].
  - lia.
  - exact Hstate.
Defined.

(** The breaker left half-open by a probe that raised a [TypeError]
    lets the next call through, long before any cooldown could have
    elapsed, and a connection error opens it again. *)
Lemma half_open_breaker_witness :
  state stuck_breaker = HALF_OPEN ∧
  state (CircuitBreakerImpl._call_with_circuit_breaker stuck_breaker failing_call
           {| clock := 61000001; answers := [] |}).1.2 = OPEN.
Proof.
  split; [reflexivity|].
  destruct (half_open_breaker stuck_breaker failing_call
              {| clock := 61000001; answers := [] |}) as (_ & Hhalf).
  - unfold stuck_breaker, tripped_breaker.
    apply cb_reach_call. apply cb_reach_call. apply cb_reach_init.
  - destruct (Hhalf eq_refl) as (_ & _ & Hfail & _).
    destruct (Hfail (NetworkError ConnectionFailed)) as (Hstate & _);
      [reflexivity|reflexivity|exact Hstate].
Defined.

(** Three 401 answers: one failure on the breaker's count. *)
Lemma read_book_breaker_accounting_witness :
  ∃ delta : list event,
    trace (host (RequestManager.read_book 30 PNone ∅ ∅ unauthorized_machine).2)
    = delta ++ trace (host unauthorized_machine) ∧
    state (circuit_breaker
             (RequestManager.read_book 30 PNone ∅ ∅ unauthorized_machine).2)
    ≠ HALF_OPEN.
Proof.
  destruct (read_book_breaker_accounting 30 PNone ∅ ∅ unauthorized_machine)
    as (delta & Htr & Hstate & _).
  - apply cb_reach_init.
  - reflexivity.
  - exists delta. split; [exact Htr|exact Hstate].
Defined.

(** On the dead network five reads open the breaker after fifteen posts. *)
Lemma read_book_failures_open_breaker_witness :
  state (circuit_breaker
           (run_times 5 (RequestManager.read_book 30 PNone ∅ ∅) offline_machine))
  = OPEN ∧
  count_events (is_post_to UrlRead)
    (trace (host (run_times 5 (RequestManager.read_book 30 PNone ∅ ∅)
                    offline_machine))) = 15%nat.
Proof.
  destruct (read_book_failures_open_breaker 30 PNone ∅ ∅ offline_machine 5)
    as (_ & Hstate & Hposts & _).
  - intros rq s. exists (NetworkError ConnectionFailed). reflexivity.
  - reflexivity.
  - lia.
  - split; [exact Hstate|exact Hposts].
Defined.

(** With the breaker open since ten seconds an attempt posts nothing. *)
Lemma read_once_open_circuit_witness :
  (Bot.read_once (sample_bot 10) (py "book") (py "chapter") 7 open_machine).1
  = Ret (false, 7, Some (RequestFailed CircuitBreakerError)) ∧
  trace (host (Bot.read_once (sample_bot 10) (py "book") (py "chapter") 7
                 open_machine).2) = [].
Proof.
  destruct (read_once_open_circuit (sample_bot 10) (py "book") (py "chapter") 7
              open_machine sample_base 1700000000000000)
    as (Hres & Htr & _); [reflexivity|reflexivity|reflexivity|reflexivity|].
  split; [exact Hres|exact Htr].
Defined.

(** After the run of ten reads the base payload is as it was and the
    [RK] cookie is still there. *)
Lemma start_reading_frame_witness :
  heap (Bot.start_reading (sample_bot 10) ten_reads_machine).2 !! 0%nat
  = Some sample_base ∧
  cookies (Bot.start_reading (sample_bot 10) ten_reads_machine).2 !! py "RK"
  = Some (py "oxEY1bTnXf").
Proof.
  destruct (start_reading_frame (sample_bot 10) ten_reads_machine sample_base)
    as (Hbase & Hcks & _); [reflexivity|].
  split; [exact Hbase|]. rewrite Hcks; [reflexivity|].
  intros E. vm_compute in E. discriminate E.
Defined.

(** Ten reads out of ten. *)
Lemma start_reading_success_bounds_witness :
  ∃ result : reading_result,
    (Bot.start_reading (sample_bot 10) ten_reads_machine).1 = Ret result ∧
    0 ≤ success_count result ≤ total_attempts result ∧
    total_attempts result = 10.
Proof.
  exists {| success_count := 10; total_attempts := 10;
            reading_minutes := 5%float; success_rate := 100%float |}.
  split; [by vm_compute|].
  destruct (start_reading_success_bounds (sample_bot 10) ten_reads_machine
              sample_base
              {| success_count := 10; total_attempts := 10;
                 reading_minutes := 5%float; success_rate := 100%float |})
    as (Hbounds & Hta & _); [reflexivity|simpl; lia|by vm_compute|].
  split; [exact Hbounds|exact Hta].
Defined.


(** ** Configuration and the notification manager *)

Lemma py_in_strs_valid_methods (v : pyval) :
  py_in_strs v ConfigValidator.valid_methods = true →
  v = PStr (py "pushplus") ∨ v = PStr (py "telegram") ∨ v = PStr (py "wxpusher").
Proof.
  unfold py_in_strs, ConfigValidator.valid_methods. cbn [existsb].
  destruct v; cbn [py_eq_str]; try done.
  rewrite !orb_true_iff, !bool_decide_eq_true.
  intros [->|[->|[->|?]]]; auto. done.
Qed.

(** [create_from_config] for each supported method. *)
Lemma create_from_config_supported (config : pydict) :
  py_in_strs (dict_get config (py "PUSH_METHOD")) ConfigValidator.valid_methods = true →
  NotificationFactory.create_from_config config
  = match ConfigValidator._validate_dependencies config with
    | [] =>
        Created
          {| method := dict_get config (py "PUSH_METHOD");
             the_pusher :=
               Some (if py_eq_str (dict_get config (py "PUSH_METHOD")) (py "pushplus")
                     then PushPlusPusher (dict_get config (py "PUSHPLUS_TOKEN"))
                     else if py_eq_str (dict_get config (py "PUSH_METHOD")) (py "telegram")
                     then TelegramPusher (dict_get config (py "TELEGRAM_BOT_TOKEN"))
                            (dict_get config (py "TELEGRAM_CHAT_ID"))
                            (dict_get config (py "http_proxy"))
                            (dict_get config (py "https_proxy"))
                     else WxPusherPusher (dict_get config (py "WXPUSHER_SPT"))) |}
    | _ => RaisedConfigError
    end.
Proof.
  intros Hin. unfold NotificationFactory.create_from_config,
    ConfigValidator._validate_dependencies.
  destruct (py_in_strs_valid_methods _ Hin) as [-> | [-> | ->]].
  - destruct (py_truthy (dict_get config (py "PUSHPLUS_TOKEN"))) eqn:Htok;
      vm_compute; vm_compute in Htok; by rewrite Htok.
  - destruct (py_truthy (dict_get config (py "TELEGRAM_BOT_TOKEN"))) eqn:Hbot;
      destruct (py_truthy (dict_get config (py "TELEGRAM_CHAT_ID"))) eqn:Hchat;
      vm_compute; vm_compute in Hbot, Hchat; by rewrite ?Hbot, ?Hchat.
  - destruct (py_truthy (dict_get config (py "WXPUSHER_SPT"))) eqn:Htok;
      vm_compute; vm_compute in Htok; by rewrite Htok.
Qed.

(** [create_from_config] for a method that is set but not supported. *)
Lemma create_from_config_unsupported (config : pydict) :
  py_truthy (dict_get config (py "PUSH_METHOD")) = true →
  py_in_strs (dict_get config (py "PUSH_METHOD")) ConfigValidator.valid_methods = false →
  NotificationFactory.create_from_config config
  = match dict_get config (py "PUSH_METHOD") with
    | PList _ | PDict _ => RaisedTypeError
    | _ => RaisedConfigError
    end.
Proof.
  intros Htruthy Hin. unfold NotificationFactory.create_from_config.
  set (m := dict_get config (py "PUSH_METHOD")) in *. rewrite Htruthy.
  unfold py_in_strs, ConfigValidator.valid_methods in Hin. cbn [existsb] in Hin.
  rewrite !orb_false_iff in Hin. destruct Hin as (H1 & H2 & H3 & _).
  rewrite H1, H2, H3.
  unfold NotificationFactory.init.
  assert (dict_get {[py "method" := m]} (py "method") = m) as ->
    by (unfold dict_get; by rewrite lookup_singleton_eq).
  rewrite Htruthy. unfold NotificationFactory._initialize_pusher. rewrite Htruthy.
  cbn [negb].
  destruct m as [| | | |s| |]; try done.
  cbn [NotificationFactory.in_PUSHER_MAP].
  cbn [py_eq_str] in H1, H2, H3.
  apply bool_decide_eq_false in H1, H2, H3.
  unfold NotificationFactory.PUSHER_MAP.
  rewrite !lookup_insert_ne by done. rewrite lookup_singleton_ne by done.
  by rewrite bool_decide_eq_false_2 by (by intros [? ?]).
Qed.

(** X16. What [NotificationManager.create_from_config] does with a
    config, by its [PUSH_METHOD]. A falsy method ([None], the empty
    string, 0, ...) gives a manager without pusher, not enabled. A manager
    is created and enabled exactly when the method is one of [pushplus],
    [telegram], [wxpusher] and the credentials of that method are truthy,
    which is the condition [_validate_dependencies] checks; any manager
    that is created is enabled exactly when the method is truthy. A
    method that is set but not supported, or a missing credential, is a
    [ConfigError]; a non-empty list or dict as the method is the
    [TypeError] of an unhashable key; the [PushError] of a pusher's
    constructor never leaves the factory. *)
Theorem create_from_config_outcome (config : pydict) :
  let push_method := dict_get config (py "PUSH_METHOD") in
  let out := NotificationFactory.create_from_config config in
  (py_truthy push_method = false →
     out = Created {| method := PNone; the_pusher := None |}) ∧
  (∀ self, out = Created self →
     NotificationFactory.is_enabled self = py_truthy push_method) ∧
  ((∃ self, out = Created self ∧ NotificationFactory.is_enabled self = true)
   ↔ py_in_strs push_method ConfigValidator.valid_methods = true ∧
     ConfigValidator._validate_dependencies config = []) ∧
  (out = RaisedTypeError
   ↔ py_truthy push_method = true ∧
     ((∃ l, push_method = PList l) ∨ (∃ d, push_method = PDict d))) ∧
  out ≠ RaisedPushError.
Proof.
  intros push_method out. subst out.
  destruct (py_truthy push_method) eqn:Htruthy; cycle 1.
  { assert (NotificationFactory.create_from_config config
            = Created {| method := PNone; the_pusher := None |}) as ->.
    { unfold NotificationFactory.create_from_config. fold push_method.
      by rewrite Htruthy. }
    assert (py_in_strs push_method ConfigValidator.valid_methods = false) as Hin.
    { destruct (py_in_strs _ _) eqn:E; [|done].
      by destruct (py_in_strs_valid_methods _ E) as [Hm | [Hm | Hm]];
        rewrite Hm in Htruthy. }
    split; [done|]. split; [by intros ? [= <-]|].
    split; [|split; [|done]].
    - rewrite Hin. split; [by intros (? & [= <-] & ?)|by intros [? _]].
    - split; [done|by intros [? _]]. }
  destruct (py_in_strs push_method ConfigValidator.valid_methods) eqn:Hin.
  - rewrite (create_from_config_supported config Hin). fold push_method.
    destruct (ConfigValidator._validate_dependencies config) as [|err errs].
    + split; [done|]. split.
      { intros ? [= <-]. unfold NotificationFactory.is_enabled. cbn.
        by rewrite Htruthy. }
      split; [|split; [|done]].
      * split; [done|]. intros _. eexists. split; [done|].
        unfold NotificationFactory.is_enabled. cbn. by rewrite Htruthy.
      * split; [done|]. intros [_ [[l Hl]|[d Hd]]];
          destruct (py_in_strs_valid_methods _ Hin) as [Hm | [Hm | Hm]]; congruence.
    + split; [done|]. split; [done|]. split; [|split; [|done]].
      * split; [by intros (? & ? & _)|by intros [_ ?]].
      * split; [done|]. intros [_ [[l Hl]|[d Hd]]];
          destruct (py_in_strs_valid_methods _ Hin) as [Hm | [Hm | Hm]]; congruence.
  - rewrite (create_from_config_unsupported config Htruthy Hin). fold push_method.
    split; [done|]. split; [by destruct push_method|].
    split; [|split].
    + split; [by destruct push_method; intros (? & ? & _)|by intros [? _]].
    + split.
      * destruct push_method; try done; eauto.
      * by intros [_ [[l ->]|[d ->]]].
    + by destruct push_method.
Qed.


Section validate_config_proofs.
Variable validation_rules : gmap pystr (pyval -> rule_result).

(** What a successful validation has established. *)
Lemma validate_config_validated (config validated : pydict) :
  ConfigValidator.validate_config validation_rules config = Validated validated →
  (∀ key, validated !! key
          = value ← config !! key;
            ConfigValidator.valid_value
              (ConfigValidator.check_item validation_rules key value)) ∧
  (∀ key value, config !! key = Some value →
     ∃ v, ConfigValidator.check_item validation_rules key value = Valid v) ∧
  ConfigValidator._validate_dependencies validated = [].
Proof.
  unfold ConfigValidator.validate_config.
  set (checked := map_imap _ config).
  destruct (existsb ConfigValidator.is_crash (map_to_list checked).*2) eqn:Hcrash;
    [done|].
  destruct (bool_decide (dom (filter _ checked) = ∅)) eqn:Hinv; [|done].
  destruct (bool_decide (_ = [])) eqn:Hdep; [|done].
  cbn [andb]. intros [= <-].
  apply bool_decide_eq_true in Hinv, Hdep.
  assert (∀ key, checked !! key
                 = value ← config !! key;
                   Some (ConfigValidator.check_item validation_rules key value))
    as Hchecked.
  { intros key. subst checked. by rewrite map_lookup_imap. }
  split; [|split; [|done]].
  - intros key. rewrite lookup_omap, Hchecked. by destruct (config !! key).
  - intros key value Hkey.
    assert (checked !! key
            = Some (ConfigValidator.check_item validation_rules key value)) as Hc
      by (by rewrite Hchecked, Hkey).
    destruct (ConfigValidator.check_item validation_rules key value) as [v| |] eqn:Hr;
      [by exists v| |].
    + exfalso. apply dom_empty_inv_L in Hinv.
      assert (filter (fun kr : pystr * rule_result =>
                        Is_true (ConfigValidator.is_invalid kr.2)) checked !! key
              = Some Invalid) as Hf by (by apply map_lookup_filter_Some_2).
      rewrite Hinv in Hf. by rewrite lookup_empty in Hf.
    + exfalso. apply not_true_iff_false in Hcrash. apply Hcrash.
      apply existsb_exists. exists Crash. split; [|done].
      apply list_elem_of_In, list_elem_of_fmap. exists (key, Crash).
      split; [done|]. by apply elem_of_map_to_list.
Qed.
End validate_config_proofs.

(** [create_from_config] when no method is set. *)
Lemma create_from_config_unset (config : pydict) :
  py_truthy (dict_get config (py "PUSH_METHOD")) = false →
  NotificationFactory.create_from_config config
  = Created {| method := PNone; the_pusher := None |}.
Proof.
  intros Htruthy. unfold NotificationFactory.create_from_config. by rewrite Htruthy.
Qed.

(** After a successful validation with the rule of [PUSH_METHOD] in the
    table, the method is unset or supported, and the manager is created. *)
Lemma validated_push_method
    (validation_rules : gmap pystr (pyval → rule_result))
    (config validated : pydict) :
  validation_rules !! py "PUSH_METHOD" = Some ConfigValidator._validate_push_method →
  ConfigValidator.validate_config validation_rules config = Validated validated →
  let push_method := dict_get validated (py "PUSH_METHOD") in
  (py_truthy push_method = true →
     py_in_strs push_method ConfigValidator.valid_methods = true ∧
     push_method = dict_get config (py "PUSH_METHOD")) ∧
  ∃ self,
    NotificationFactory.create_from_config validated = Created self ∧
    NotificationFactory.is_enabled self = py_truthy push_method.
Proof.
  intros Hrule Hval push_method.
  destruct (validate_config_validated validation_rules config validated Hval)
    as (Hlookup & Hvalid & Hdeps).
  assert (py_truthy push_method = true →
          py_in_strs push_method ConfigValidator.valid_methods = true ∧
          push_method = dict_get config (py "PUSH_METHOD")) as Hmethod.
  { subst push_method. unfold dict_get. rewrite Hlookup.
    destruct (config !! py "PUSH_METHOD") as [raw|]; [|done]. cbn.
    unfold ConfigValidator.check_item. rewrite Hrule.
    unfold ConfigValidator._validate_push_method.
    destruct (negb (py_truthy raw) || py_eq_str raw []); [done|].
    destruct (py_in_strs raw ConfigValidator.valid_methods) eqn:Hin; [|done].
    by cbn. }
  split; [done|].
  destruct (py_truthy push_method) eqn:Htruthy.
  - destruct Hmethod as [Hin _]; [done|].
    rewrite (create_from_config_supported validated Hin), Hdeps.
    eexists. split; [done|]. unfold NotificationFactory.is_enabled.
    cbn [method the_pusher]. fold push_method. by rewrite Htruthy.
  - rewrite (create_from_config_unset validated Htruthy). by eexists.
Qed.

(** X17. A config that [validate_config] returns (the rule of
    [PUSH_METHOD] being in the table) has the keys of the config it was
    given and no dependency error; its [PUSH_METHOD] is falsy or one of
    the three supported names, unchanged from the input; and
    [NotificationManager.create_from_config] on it raises nothing: it
    returns a manager, enabled exactly when a method is set. *)
Theorem validated_config_creates_manager
    (validation_rules : gmap pystr (pyval → rule_result))
    (config validated : pydict) :
  validation_rules !! py "PUSH_METHOD" = Some ConfigValidator._validate_push_method →
  ConfigValidator.validate_config validation_rules config = Validated validated →
  let push_method := dict_get validated (py "PUSH_METHOD") in
  dom validated = dom config ∧
  ConfigValidator._validate_dependencies validated = [] ∧
  (py_truthy push_method = true →
     py_in_strs push_method ConfigValidator.valid_methods = true ∧
     push_method = dict_get config (py "PUSH_METHOD")) ∧
  ∃ self,
    NotificationFactory.create_from_config validated = Created self ∧
    NotificationFactory.is_enabled self = py_truthy push_method.
Proof.
  intros Hrule Hval push_method.
  destruct (validate_config_validated validation_rules config validated Hval)
    as (Hlookup & Hvalid & Hdeps).
  destruct (validated_push_method validation_rules config validated Hrule Hval)
    as (Hmethod & Hcreated).
  split; [|by split].
  apply set_eq. intros key. rewrite !elem_of_dom, Hlookup.
  destruct (config !! key) as [value|] eqn:Hkey; cbn.
  - destruct (Hvalid key value Hkey) as [v ->]. cbn. split; eauto.
  - split; by intros [? ?].
Qed.


(** ** The bot a configuration gives, and the exit code *)

Lemma initialize_data_defaults (config : pydict) :
  WxReadBotInit._initialize_data config
  = (WxReadBotInit._get_default_headers, WxReadBotInit._get_default_cookies).
Proof.
  unfold WxReadBotInit._initialize_data, WxReadBotInit._parse_curl_bash.
  by destruct (py_truthy _).
Qed.

Lemma dict_get_insert_ne (config : pydict) (k k' : pystr) (v : pyval) :
  k ≠ k' → dict_get (<[k := v]> config) k' = dict_get config k'.
Proof. intros Hne. unfold dict_get. by rewrite lookup_insert_ne. Qed.

Lemma dict_get_delete_ne (config : pydict) (k k' : pystr) :
  k ≠ k' → dict_get (delete k config) k' = dict_get config k'.
Proof. intros Hne. unfold dict_get. by rewrite lookup_delete_ne. Qed.

(** X19. [WXREAD_CURL_BASH] plays no part in the bot that
    [WxReadBot.__init__] builds: with the key set to any value or absent,
    the result is the same, and a bot that is created always starts from
    the built-in headers, the built-in cookies and the built-in base
    payload ([_parse_curl_bash] returns the defaults). *)
Theorem curl_bash_is_ignored (config : pydict) (curl_bash : pyval) :
  WxReadBotInit.init (<[py "WXREAD_CURL_BASH" := curl_bash]> config)
  = WxReadBotInit.init (delete (py "WXREAD_CURL_BASH") config) ∧
  ∀ bot cookies base,
    WxReadBotInit.init (<[py "WXREAD_CURL_BASH" := curl_bash]> config)
    = Some (Created (bot, cookies, base)) →
    headers bot = WxReadBotInit._get_default_headers ∧
    cookies = WxReadBotInit._get_default_cookies ∧
    base = WxReadBotInit.base_data_template.
Proof.
  split.
  - unfold WxReadBotInit.init, NotificationFactory.create_from_config,
      ConfigManager.request_timeout, ConfigManager.get.
    rewrite !initialize_data_defaults.
    rewrite !dict_get_insert_ne, !dict_get_delete_ne
      by (intros E; vm_compute in E; discriminate E).
    rewrite !lookup_insert_ne, !lookup_delete_ne
      by (intros E; vm_compute in E; discriminate E).
    done.
  - intros bot cookies base. unfold WxReadBotInit.init.
    rewrite initialize_data_defaults.
    destruct (NotificationFactory.create_from_config _); try done.
    destruct (WxReadBotInit.as_int (ConfigManager.request_timeout _)); [|done].
    destruct (WxReadBotInit.as_int (ConfigManager.get _ _ _)); [|done].
    cbn. by intros [= <- <- <-].
Qed.


(** The post of [refresh_cookie] is the renewal request with the
    cookies as they are. *)
Lemma refresh_cookie_request {St : Type} `{Host St} (self : WxReadBot)
    (m : Machine (Traced St)) :
  ∃ (notes : list event) (a : http_result),
    trace (host (Bot.refresh_cookie self m).2)
    = notes ++ EvPost (renew_request self (cookies m)) a :: trace (host m) ∧
    Forall (fun ev => is_push_event ev = true) notes.
Proof.
  assert (∃ r m' (notes : list event) (a : http_result),
            Bot.refresh_cookie self m = (r, m') ∧
            trace (host m')
            = notes ++ EvPost (renew_request self (cookies m)) a :: trace (host m) ∧
            Forall (fun ev => is_push_event ev = true) notes)
    as (r & m' & notes & a & -> & Htr & Hn); [|by exists notes, a].
  unfold Bot.refresh_cookie. rewrite try_except_run.
  unfold mbind, io_bind. rewrite bind_run. unfold reads at 1. cbn beta iota.
  rewrite bind_run. destruct m as [t h ck cb]. rewrite lift_host_run.
  unfold RequestManager.renew_cookie. cbn [cookies host heap circuit_breaker].
  fold (renew_request self ck). set (rq := renew_request self ck).
  simpl. destruct (session_post rq (inner t)) as [a s1]. simpl.
  assert (∀ (e : refresh_error) (t1 : Traced St),
            trace t1 = EvPost rq a :: trace t →
            ∃ (m' : Machine (Traced St)) (notes : list event),
              bind (lift_host (Bot._send_error_notification self e))
                (fun _ => mret false)
                {| host := t1; heap := h; cookies := ck; circuit_breaker := cb |}
              = (Ret false, m') ∧
              trace (host m') = notes ++ EvPost rq a :: trace t ∧
              Forall (fun ev => is_push_event ev = true) notes) as Hfail.
  { intros e t1 Ht1. rewrite bind_run, lift_host_run.
    destruct (send_error_notification_traced self e t1) as (notes & t' & -> & Htr & Hn).
    simpl. eexists _, notes. split; [done|]. simpl. by rewrite Htr, Ht1. }
  assert (∀ (e : refresh_error) (t1 : Traced St),
            trace t1 = EvPost rq a :: trace t →
            ∃ r (m' : Machine (Traced St)) (notes : list event) (a0 : http_result),
              bind (lift_host (Bot._send_error_notification self e))
                (fun _ => mret false)
                {| host := t1; heap := h; cookies := ck; circuit_breaker := cb |}
              = (r, m') ∧
              trace (host m') = notes ++ EvPost rq a0 :: trace t ∧
              Forall (fun ev => is_push_event ev = true) notes) as Hraise.
  { intros e t1 Ht1. destruct (Hfail e t1 Ht1) as (m' & notes & ? & ? & ?).
    by exists (Ret false), m', notes, a. }
  destruct a as [r| | |]; simpl; try (by apply Hraise).
  destruct (RequestManager.raises_for_status r); simpl; [by apply Hraise|].
  destruct (truthy _).
  - rewrite bind_run. simpl. by eexists _, _, [], _.
  - destruct (Hfail NoNewKey (record_event (EvPost rq (HttpResponse r)) s1 t))
      as (m' & notes & -> & ? & ?); [done|].
    by exists (Ret false), m', notes, (HttpResponse r).
Qed.

(** The run of a validated configuration. *)
Lemma main_validated_run
    {St : Type} `{Host St}
    (validation_rules : gmap pystr (pyval → rule_result))
    (file_config env_config config : pydict) (n tmo : Z) (t : Traced St) :
  validation_rules !! py "PUSH_METHOD" = Some ConfigValidator._validate_push_method →
  ConfigManager._load_config validation_rules file_config env_config
  = Validated config →
  ConfigManager.get config (py "READ_NUM") (PInt 40) = PInt n → 1 ≤ n ≤ 1000 →
  ConfigManager.request_timeout config = PInt tmo →
  let out := WxReadBotInit.main_new_version validation_rules file_config env_config t in
  ∃ (bot : WxReadBot) (m m0 : Machine (Traced St)) (ok : bool),
    WxReadBotInit.init config
    = Some (Created (bot, cookies m, WxReadBotInit.base_data_template)) ∧
    read_num bot = n ∧ timeout bot = tmo ∧
    notification_enabled bot = py_truthy (dict_get config (py "PUSH_METHOD")) ∧
    host m = t ∧ cookies m = WxReadBotInit._get_default_cookies ∧
    circuit_breaker m = RequestManager.new_circuit_breaker ∧
    heap m !! base_data bot = Some WxReadBotInit.base_data_template ∧
    Bot.refresh_cookie bot m = (Ret ok, m0) ∧
    (∃ notes a,
       trace (host m0)
       = notes ++ EvPost (renew_request bot WxReadBotInit._get_default_cookies) a
                  :: trace t ∧
       headers bot = WxReadBotInit._get_default_headers ∧
       Forall (fun ev => is_push_event ev = true) notes) ∧
    out = (Some (if ok then 0 else 1), host (Bot.start_reading bot m).2).
Proof.
  intros Hrule Hload Hnum Hrange Htmo out. subst out.
  unfold WxReadBotInit.main_new_version. rewrite Hload.
  unfold ConfigManager._load_config in Hload.
  destruct (validated_push_method validation_rules _ config Hrule Hload)
    as (_ & self & Hcreate & Henabled).
  unfold WxReadBotInit.init. rewrite Hcreate, Htmo, Hnum, initialize_data_defaults.
  cbn [WxReadBotInit.as_int mbind option_bind]. cbn beta iota.
  set (bot := {| read_num := n; headers := _; base_data := _; book_ids := _;
                 chapter_ids := _; timeout := _; notification_enabled := _ |}).
  set (m := {| host := t; heap := _; cookies := _; circuit_breaker := _ |}).
  assert (heap m !! base_data bot = Some WxReadBotInit.base_data_template) as Hd
    by apply lookup_singleton_eq.
  destruct (start_reading_traced bot m _ Hd) as (ok & m0 & Hrc & Hrun).
  destruct (refresh_cookie_request bot m) as (notes & a & Htr & Hn).
  rewrite Hrc in Htr. cbn [snd] in Htr.
  exists bot, m, m0, ok. split; [done|]. split; [done|]. split; [done|].
  split; [done|]. split; [done|]. split; [done|]. split; [done|]. split; [done|].
  split; [done|]. split; [by exists notes, a|].
  destruct ok.
  - replace (read_num bot =? 0) with false in Hrun
      by (symmetry; apply Z.eqb_neq; cbn; lia).
    destruct Hrun as (result & m' & delta & -> & _). done.
  - by rewrite Hrun.
Qed.

(** X18. The exit code of [main_new_version] (run without
    [--test-push], the rule of [PUSH_METHOD] in the table). When the
    configuration does not validate the code is 1 and nothing was posted.
    When it validates (with an attempt count in 1..1000 and an integer
    timeout), the bot is created, its notifications enabled exactly when a
    push method is set; the run starts with one post, the renewal request
    carrying the built-in headers and cookies; and the code is 0 exactly
    when that initial renewal succeeds, 1 otherwise: the outcome of the
    read attempts has no influence on it. *)
Theorem main_exit_code
    {St : Type} `{Host St}
    (validation_rules : gmap pystr (pyval → rule_result))
    (file_config env_config : pydict) (t : Traced St) :
  validation_rules !! py "PUSH_METHOD" = Some ConfigValidator._validate_push_method →
  let out := WxReadBotInit.main_new_version validation_rules file_config env_config t in
  match ConfigManager._load_config validation_rules file_config env_config with
  | Validated config =>
      ∀ n tmo : Z,
        ConfigManager.get config (py "READ_NUM") (PInt 40) = PInt n →
        1 ≤ n ≤ 1000 →
        ConfigManager.request_timeout config = PInt tmo →
        ∃ (bot : WxReadBot) (m m0 : Machine (Traced St)) (ok : bool),
          WxReadBotInit.init config
          = Some (Created (bot, cookies m, WxReadBotInit.base_data_template)) ∧
          read_num bot = n ∧ timeout bot = tmo ∧
          notification_enabled bot
          = py_truthy (dict_get config (py "PUSH_METHOD")) ∧
          host m = t ∧ cookies m = WxReadBotInit._get_default_cookies ∧
          circuit_breaker m = RequestManager.new_circuit_breaker ∧
          heap m !! base_data bot = Some WxReadBotInit.base_data_template ∧
          Bot.refresh_cookie bot m = (Ret ok, m0) ∧
          (∃ notes a,
             trace (host m0)
             = notes ++ EvPost (renew_request bot WxReadBotInit._get_default_cookies) a
                        :: trace t ∧
             headers bot = WxReadBotInit._get_default_headers ∧
             Forall (fun ev => is_push_event ev = true) notes) ∧
          out = (Some (if ok then 0 else 1), host (Bot.start_reading bot m).2)
  | ConfigError _ _ | RuleException => out = (Some 1, t)
  end.
Proof.
  intros Hrule out. subst out.
  destruct (ConfigManager._load_config validation_rules file_config env_config)
    as [config|invalid deps|] eqn:Hload.
  - intros n tmo Hnum Hrange Htmo.
    by apply (main_validated_run validation_rules file_config env_config config).
  - unfold WxReadBotInit.main_new_version. by rewrite Hload.
  - unfold WxReadBotInit.main_new_version. by rewrite Hload.
Qed.

(** * The configuration properties on the sample configuration *)

(** The sample environment over the defaults validates, and its manager
    is enabled. *)
Lemma validated_config_creates_manager_witness :
  ∃ validated self,
    ConfigManager._load_config sample_rules ∅ sample_env = Validated validated ∧
    NotificationFactory.create_from_config validated = Created self ∧
    NotificationFactory.is_enabled self = true.
Proof.
  destruct (ConfigManager._load_config sample_rules ∅ sample_env)
    as [validated| |] eqn:Hval; [|by vm_compute in Hval..].
  destruct (validated_config_creates_manager sample_rules
              (sample_env ∪ (∅ ∪ ConfigManager._get_default_config)) validated)
    as (_ & _ & _ & self & Hself & Hen); [reflexivity|exact Hval|].
  exists validated, self. split; [reflexivity|]. split; [exact Hself|].
  rewrite Hen. vm_compute in Hval. injection Hval as <-. reflexivity.
Defined.

(** The exit code on the sample configuration, with a server that renews
    the session. *)
Lemma main_exit_code_witness :
  let out := WxReadBotInit.main_new_version sample_rules ∅ sample_env sample_start in
  match ConfigManager._load_config sample_rules ∅ sample_env with
  | Validated config =>
      ∃ (bot : WxReadBot) (m m0 : Machine (Traced Scripted)) (ok : bool),
        read_num bot = 2 ∧ timeout bot = 30 ∧ host m = sample_start ∧
        Bot.refresh_cookie bot m = (Ret ok, m0) ∧
        out = (Some (if ok then 0 else 1), host (Bot.start_reading bot m).2)
  | ConfigError _ _ | RuleException => out = (Some 1, sample_start)
  end.
Proof.
  pose proof (main_exit_code sample_rules ∅ sample_env sample_start eq_refl) as Hmain.
  cbv zeta in Hmain |- *.
  destruct (ConfigManager._load_config sample_rules ∅ sample_env)
    as [config| |] eqn:Hload; [|exact Hmain..].
  vm_compute in Hload. injection Hload as <-.
  destruct (Hmain 2 30) as (bot & m & m0 & ok & _ & Hn & Ht & _ & Hm & _ & _ & _
                            & Hrc & _ & Hout); [reflexivity|lia|reflexivity|].
  exists bot, m, m0, ok. split; [exact Hn|]. split; [exact Ht|].
  split; [exact Hm|]. split; [exact Hrc|exact Hout].
Defined.

Example sample_main_exit_code :
  (WxReadBotInit.main_new_version sample_rules ∅ sample_env sample_start).1 = Some 0.
Proof. by vm_compute. Qed.

(** ** The renewal is tried once *)

(** The error notification: nothing when notifications are disabled;
    otherwise the events of the pusher's retried [send]. It never lets
    an exception out. *)
Lemma send_error_notification_events {St : Type} `{Host St} (self : WxReadBot)
    (e : refresh_error) (t : Traced St) :
  ∃ (notes : list event) (t' : Traced St),
    Bot._send_error_notification self e t = (Ret tt, t') ∧
    trace t' = notes ++ trace t ∧
    Forall (fun ev => is_push_event ev = true) notes ∧
    (notification_enabled self = false → notes = []) ∧
    (notification_enabled self = true →
       (∃ j, (1 ≤ j ≤ 3)%nat ∧
             count_events is_notify notes = j ∧
             count_events is_backoff_sleep notes = (j - 1)%nat) ∧
       (∀ b s, pusher_send_message (ErrorNotice e) (inner t) = (Ret b, s) →
               notes = [EvNotify (ErrorNotice e)])).
Proof.
  unfold Bot._send_error_notification.
  destruct (notification_enabled self) eqn:Hen.
  - destruct (notification_send_traced true (ErrorNotice e) t)
      as (notes & Htr & Hall & _ & Hon).
    destruct (Hon eq_refl) as (j & Hj & Hm & Hs & _ & Hfirst).
    rewrite try_except_run. unfold mbind, io_bind. rewrite bind_run.
    destruct (NotificationManager.send true _ t) as [[b|e'] t']; cbn [fst snd] in *.
    + exists notes, t'. split; [done|]. split; [done|]. split; [done|].
      split; [done|]. intros _. split; [by exists j|done].
    + exists notes, t'. split; [done|]. split; [done|]. split; [done|].
      split; [done|]. intros _. split; [by exists j|done].
  - exists [], t. split; [done|]. split; [done|]. split; [done|]. split; [done|done].
Qed.

(** X20. The session renewal is tried exactly once: it is neither
    retried nor guarded by the circuit breaker. When the one renewal post
    of [start_reading] ends in a timeout, a connection error, another
    request exception or a 4xx/5xx status, [start_reading] raises
    [AuthError] at once. The run made that single post and no read; what
    follows the post in the trace are the events of the error
    notification only. With notifications disabled there are none. With
    notifications enabled the pusher's retried [send] invokes
    [_send_message] between one and three times, with one backoff sleep
    between two consecutive invocations (so up to two sleeps before
    [AuthError] comes out), and exactly once, without a sleep, when the
    first invocation returns. There is no pacing sleep; cookies, breaker
    and payload objects are as they were. *)
Theorem start_reading_single_renewal
    {St : Type} `{Host St} (self : WxReadBot) (m : Machine (Traced St))
    (a : http_result) (s1 : St) :
  session_post (renew_request self (cookies m)) (inner (host m)) = (a, s1) →
  match a with
  | HttpResponse r => RequestManager.raises_for_status r = true
  | _ => True
  end →
  let out := Bot.start_reading self m in
  let notice := ErrorNotice (RefreshRaised (NetworkError RenewFailed)) in
  out.1 = Raise AuthError ∧
  (∃ notes : list event,
     trace (host out.2)
     = notes ++ EvPost (renew_request self (cookies m)) a :: trace (host m) ∧
     Forall (fun ev => is_push_event ev = true) notes ∧
     count_events (is_post_to UrlRead) notes = 0%nat ∧
     count_events is_pacing_sleep notes = 0%nat ∧
     (notification_enabled self = false → notes = []) ∧
     (notification_enabled self = true →
        (∃ j, (1 ≤ j ≤ 3)%nat ∧
              count_events is_notify notes = j ∧
              count_events is_backoff_sleep notes = (j - 1)%nat) ∧
        (∀ b s, pusher_send_message notice s1 = (Ret b, s) →
                notes = [EvNotify notice]))) ∧
  cookies out.2 = cookies m ∧
  circuit_breaker out.2 = circuit_breaker m ∧
  heap out.2 = heap m.
Proof.
  intros Hpost Hfail out notice.
  assert (∃ m' notes, out = (Raise AuthError, m') ∧
            trace (host m')
            = notes ++ EvPost (renew_request self (cookies m)) a :: trace (host m) ∧
            Forall (fun ev => is_push_event ev = true) notes ∧
            (notification_enabled self = false → notes = []) ∧
            (notification_enabled self = true →
               (∃ j, (1 ≤ j ≤ 3)%nat ∧
                     count_events is_notify notes = j ∧
                     count_events is_backoff_sleep notes = (j - 1)%nat) ∧
               (∀ b s, pusher_send_message notice s1 = (Ret b, s) →
                       notes = [EvNotify notice])) ∧
            cookies m' = cookies m ∧ circuit_breaker m' = circuit_breaker m ∧
            heap m' = heap m)
    as (m' & notes & -> & Htr & Hall & Hoff & Hon & Hck & Hcb & Hheap).
  2:{ split; [done|]. split; [|done]. exists notes.
      split; [done|]. split; [done|].
      split; [apply count_events_none; (eapply Forall_impl; [exact Hall|]);
              by intros [|? ?|[?|?]|?]|].
      split; [apply count_events_none; (eapply Forall_impl; [exact Hall|]);
              by intros [|? ?|[?|?]|?]|].
      done. }
  subst out. unfold Bot.start_reading, mbind, io_bind. rewrite bind_run.
  unfold Bot.refresh_cookie. rewrite try_except_run.
  unfold mbind, io_bind. rewrite bind_run. unfold reads at 1. cbn beta iota.
  rewrite bind_run. destruct m as [t h ck cb]. rewrite lift_host_run.
  cbn [cookies host heap circuit_breaker] in *.
  assert (RequestManager.renew_cookie (timeout self) (headers self) ck t
          = (Raise (NetworkError RenewFailed),
             record_event (EvPost (renew_request self ck) a) s1 t)) as ->.
  { unfold RequestManager.renew_cookie. fold (renew_request self ck).
    cbn [session_post traced_host]. rewrite Hpost.
    destruct a as [r| | |]; try done. by rewrite Hfail. }
  cbn [fst snd]. rewrite bind_run, lift_host_run.
  destruct (send_error_notification_events self
              (RefreshRaised (NetworkError RenewFailed))
              (record_event (EvPost (renew_request self ck) a) s1 t))
    as (notes & t' & -> & Htr & Hall & Hoff & Hon).
  cbn [fst snd negb]. eexists _, notes. split; [done|].
  by cbn [host cookies heap circuit_breaker].
Qed.

(** One timeout on the renewal ends the run; the pusher, answering at
    once, is invoked once. *)
Lemma start_reading_single_renewal_witness :
  (Bot.start_reading notifying_bot timeout_machine).1 = Raise AuthError ∧
  trace (host (Bot.start_reading notifying_bot timeout_machine).2)
  = [EvNotify renewal_notice;
     EvPost (renew_request notifying_bot (cookies timeout_machine)) HttpTimeout].
Proof.
  destruct (start_reading_single_renewal notifying_bot timeout_machine HttpTimeout
              {| clock := 1700000000000000; answers := [] |})
    as (Hraise & (notes & Htrace & _ & _ & _ & _ & Hon) & _); [reflexivity|exact I|].
  destruct (Hon eq_refl) as (_ & Hfirst).
  rewrite (Hfirst true {| clock := 1700000000000000; answers := [] |} eq_refl)
    in Htrace.
  split; [exact Hraise|exact Htrace].
Defined.

(** On the dead network the pusher fails too: the renewal is posted once,
    the notification is tried three times with two sleeps between. *)
Example offline_renewal_notification :
  let out := Bot.start_reading notifying_bot offline_machine in
  out.1 = Raise AuthError ∧
  count_events (is_post_to UrlRenew) (trace (host out.2)) = 1%nat ∧
  count_events is_notify (trace (host out.2)) = 3%nat ∧
  count_events is_backoff_sleep (trace (host out.2)) = 2%nat ∧
  length (trace (host out.2)) = 6%nat.
Proof. by vm_compute. Qed.
